(** * PESE-PIESAS: the "componentes" CRUD API

    A shallow embedding of the repository layer (componentes.pg.repo.js,
    componentes.prisma.repo.js, index.js), of the HTTP layer (app.js) and of
    the table they work on (the CREATE TABLE script), followed by the
    properties of the specification that concern them.

    Conventions of the model.
    - An [async] function is a state transformer over the table that either
      resolves with a value or rejects with an error.
    - The object [datos] is a record of the properties that name a column of
      the table, each of which is undefined, null, or a value of the kind its
      column holds: a text for nombre, tipo and marca, a number for the
      others.  Besides the five properties the repository reads, it may carry
      id and creado_en.
    - The store checks a value against its column when it writes it to a
      row: the widths of VARCHAR(120) and VARCHAR(80), the range of
      NUMERIC(10,2) and of INT, and NOT NULL, together with the primary key
      and the end of the sequence of [id SERIAL].  A text is a sequence of
      one-byte characters, of which the store refuses the zero character.
    - precio is kept in hundredths, the scale of NUMERIC(10,2), so that the
      price 129.99 is the integer 12999 and the price 50 is 5000; a stock is
      an integer.  Numbers with more decimals are not represented.
    - creado_en and NOW() are integers (a clock reading).
    - A row object is the values of its columns; how the driver or the client
      renders a NUMERIC is not represented.
    - An id handed to a repository function is compared with the ids of the
      table as it is given; that the store refuses an id beyond the range of
      INT is represented for the path ids of the HTTP layer only, and a
      statement about the repository that depends on it says so, with [int4].
    - The connection to the store is up: a query fails only when the store
      refuses the statement. *)

From Stdlib Require Import ZArith List String Ascii Bool Lia Permutation Sorted.
Import ListNotations.
Open Scope string_scope.
Open Scope Z_scope.

(** ** JavaScript values *)

(** A property of an object as the code tests it: [undefined] (the key is
    missing, or holds undefined), [null], or a value. *)
Inductive Field (A : Type) : Type :=
| Undefined
| Null
| Val (a : A).
Arguments Undefined {A}.
Arguments Null {A}.
Arguments Val {A} a.

(** [f !== undefined] *)
Definition is_defined {A} (f : Field A) : bool :=
  match f with
  | Undefined => false
  | _ => true
  end.

(** The destructuring default [{ x = d } = obj]: it applies to undefined only. *)
Definition with_default {A} (f : Field A) (d : Field A) : Field A :=
  match f with
  | Undefined => d
  | _ => f
  end.

(** [x ?? null] *)
Definition or_null {A} (f : Field A) : Field A :=
  match f with
  | Undefined => Null
  | _ => f
  end.

(** Truthiness of a text property, as [!nombre] reads it: undefined, null and
    the empty string are falsy. *)
Definition truthy (f : Field string) : bool :=
  match f with
  | Val s => negb (s =? "")%string
  | _ => false
  end.

(** Errors that reach the code: the language's own, the pg driver's
    DatabaseError with its SQLSTATE, and the two Prisma client errors. *)
Inductive JsError : Type :=
| ReferenceError (identifier : string)
| TypeError
| DatabaseError (sqlstate : string)
| PrismaClientValidationError
| PrismaClientKnownRequestError (code : string).

(** The settled state of a promise. *)
Inductive Outcome (A : Type) : Type :=
| Resolved (a : A)
| Rejected (e : JsError).
Arguments Resolved {A} a.
Arguments Rejected {A} e.

Definition obind {A B} (o : Outcome A) (k : A -> Outcome B) : Outcome B :=
  match o with
  | Resolved a => k a
  | Rejected e => Rejected e
  end.

Declare Scope outcome_scope.
Delimit Scope outcome_scope with outcome.
Notation "x <-- o ;;; k" := (obind o (fun x => k))
  (at level 61, o at next level, right associativity) : outcome_scope.

(** ** The table

    CREATE TABLE componentes (id SERIAL PRIMARY KEY, nombre VARCHAR(120) NOT NULL,
    tipo VARCHAR(80) NOT NULL, marca VARCHAR(80), precio NUMERIC(10,2) NOT NULL
    DEFAULT 0, stock INT NOT NULL DEFAULT 0, creado_en TIMESTAMP NOT NULL
    DEFAULT NOW()).  The NOT NULL columns are plain fields, the nullable one an
    option. *)
Module Componente.
Record t : Type := mk {
    id : Z;
    nombre : string;
    tipo : string;
    marca : option string;
    precio : Z;
    stock : Z;
    creado_en : Z
  }.

Definition set_nombre (v : string) (r : t) : t :=
    mk (id r) v (tipo r) (marca r) (precio r) (stock r) (creado_en r).
Definition set_tipo (v : string) (r : t) : t :=
    mk (id r) (nombre r) v (marca r) (precio r) (stock r) (creado_en r).
Definition set_marca (v : option string) (r : t) : t :=
    mk (id r) (nombre r) (tipo r) v (precio r) (stock r) (creado_en r).
Definition set_precio (v : Z) (r : t) : t :=
    mk (id r) (nombre r) (tipo r) (marca r) v (stock r) (creado_en r).
Definition set_stock (v : Z) (r : t) : t :=
    mk (id r) (nombre r) (tipo r) (marca r) (precio r) v (creado_en r).
Definition set_id (v : Z) (r : t) : t :=
    mk v (nombre r) (tipo r) (marca r) (precio r) (stock r) (creado_en r).
Definition set_creado_en (v : Z) (r : t) : t :=
    mk (id r) (nombre r) (tipo r) (marca r) (precio r) (stock r) v.
End Componente.

(** The stored state: the rows in heap order, the last value handed out by the
    sequence behind [id SERIAL], and the clock NOW() reads. *)
Module Table.
Record t : Type := mk {
    rows : list Componente.t;
    id_seq : Z;
    now : Z
  }.

Definition with_rows (rs : list Componente.t) (tb : t) : t :=
    mk rs (id_seq tb) (now tb).
Definition nextval (tb : t) : t :=
    mk (rows tb) (id_seq tb + 1) (now tb).
End Table.

(** The object [datos] the repository receives (and the request body).  The
    five properties the code reads come first; [id] and [creado_en] are the
    other two columns, which a caller may put in the object as well. *)
Module Datos.
Record t : Type := mk {
    nombre : Field string;
    tipo : Field string;
    marca : Field string;
    precio : Field Z;
    stock : Field Z;
    id : Field Z;
    creado_en : Field Z
  }.

  (** [{}] *)
Definition empty : t :=
    mk Undefined Undefined Undefined Undefined Undefined Undefined Undefined.

Definition set_nombre (v : Field string) (d : t) : t :=
    mk v (tipo d) (marca d) (precio d) (stock d) (id d) (creado_en d).
Definition set_tipo (v : Field string) (d : t) : t :=
    mk (nombre d) v (marca d) (precio d) (stock d) (id d) (creado_en d).
Definition set_marca (v : Field string) (d : t) : t :=
    mk (nombre d) (tipo d) v (precio d) (stock d) (id d) (creado_en d).
Definition set_precio (v : Field Z) (d : t) : t :=
    mk (nombre d) (tipo d) (marca d) v (stock d) (id d) (creado_en d).
Definition set_stock (v : Field Z) (d : t) : t :=
    mk (nombre d) (tipo d) (marca d) (precio d) v (id d) (creado_en d).
Definition set_id (v : Field Z) (d : t) : t :=
    mk (nombre d) (tipo d) (marca d) (precio d) (stock d) v (creado_en d).
Definition set_creado_en (v : Field Z) (d : t) : t :=
    mk (nombre d) (tipo d) (marca d) (precio d) (stock d) (id d) v.
End Datos.

(** What pool.query resolves with. *)
Module Result.
Record t : Type := mk {
    rows : list Componente.t;
    rowCount : nat
  }.

Definition of_rows (rs : list Componente.t) : t := mk rs (List.length rs).
End Result.

(** The values the repository functions return and the handlers pass on. *)
Inductive JsVal : Type :=
| JUndefined
| JNull
| JBool (b : bool)
| JObject (c : Componente.t)
| JArray (l : list Componente.t)
| JResult (r : Result.t).

(** [rows[0]] *)
Definition first_row (rs : list Componente.t) : JsVal :=
  match rs with
  | [] => JUndefined
  | r :: _ => JObject r
  end.

(** [v ?? null] *)
Definition nullish_null (v : JsVal) : JsVal :=
  match v with
  | JUndefined => JNull
  | _ => v
  end.

(** [v.rows]: reading a property of undefined or null throws; an array has
    no such property. *)
Definition prop_rows (v : JsVal) : Outcome JsVal :=
  match v with
  | JUndefined | JNull => Rejected TypeError
  | JResult r => Resolved (JArray (Result.rows r))
  | _ => Resolved JUndefined
  end.

(** ** The asynchronous functions: state transformers over the table *)

Definition Async (A : Type) : Type := Table.t -> Outcome A * Table.t.

Definition ret {A} (a : A) : Async A := fun tb => (Resolved a, tb).

Definition throw {A} (e : JsError) : Async A := fun tb => (Rejected e, tb).

(** [const x = await m; k x] *)
Definition await {A B} (m : Async A) (k : A -> Async B) : Async B :=
  fun tb =>
    match m tb with
    | (Resolved a, tb') => k a tb'
    | (Rejected e, tb') => (Rejected e, tb')
    end.

(** [try { body } catch (err) { handler err }] *)
Definition try_catch {A} (body : Async A) (handler : JsError -> Async A) : Async A :=
  fun tb =>
    match body tb with
    | (Resolved a, tb') => (Resolved a, tb')
    | (Rejected e, tb') => handler e tb'
    end.

(** Lifting a settled promise. *)
Definition settle {A} (o : Outcome A) : Async A := fun tb => (o, tb).

Declare Scope async_scope.
Delimit Scope async_scope with async.
Notation "x <- m ;; k" := (await m (fun x => k))
  (at level 61, m at next level, right associativity) : async_scope.

(** ** The statements the code sends, and what the store does with them *)

(** A query parameter after the driver has prepared it. *)
Inductive Param : Type :=
| PNull
| PText (s : string)
| PNum (n : Z).

(** prepareValue of the driver: null and undefined are both NULL. *)
Definition prepare_text (f : Field string) : Param :=
  match f with
  | Val s => PText s
  | _ => PNull
  end.

Definition prepare_num (f : Field Z) : Param :=
  match f with
  | Val n => PNum n
  | _ => PNull
  end.

(** The columns of the table. *)
Inductive Column : Type :=
| Cnombre
| Ctipo
| Cmarca
| Cprecio
| Cstock
| Cid
| Ccreado_en.

Definition Column_eqb (a b : Column) : bool :=
  match a, b with
  | Cnombre, Cnombre | Ctipo, Ctipo | Cmarca, Cmarca
  | Cprecio, Cprecio | Cstock, Cstock
  | Cid, Cid | Ccreado_en, Ccreado_en => true
  | _, _ => false
  end.

(** [datos.c !== undefined], by column. *)
Definition column_defined (c : Column) (d : Datos.t) : bool :=
  match c with
  | Cnombre => is_defined (Datos.nombre d)
  | Ctipo => is_defined (Datos.tipo d)
  | Cmarca => is_defined (Datos.marca d)
  | Cprecio => is_defined (Datos.precio d)
  | Cstock => is_defined (Datos.stock d)
  | Cid => is_defined (Datos.id d)
  | Ccreado_en => is_defined (Datos.creado_en d)
  end.

(** [datos.c] as the driver sends it, by column. *)
Definition column_param (c : Column) (d : Datos.t) : Param :=
  match c with
  | Cnombre => prepare_text (Datos.nombre d)
  | Ctipo => prepare_text (Datos.tipo d)
  | Cmarca => prepare_text (Datos.marca d)
  | Cprecio => prepare_num (Datos.precio d)
  | Cstock => prepare_num (Datos.stock d)
  | Cid => prepare_num (Datos.id d)
  | Ccreado_en => prepare_num (Datos.creado_en d)
  end.

(** The right-hand side of an assignment in a SET clause: [$k], or
    [COALESCE($k, column)]. *)
Inductive Expr : Type :=
| Placeholder (k : nat)
| Coalesce (k : nat) (c : Column).

Inductive Statement : Type :=
  (** SELECT * FROM componentes ORDER BY id ASC *)
| SelectAllOrderById
  (** SELECT * FROM componentes WHERE id = $k *)
| SelectWhereId (k : nat)
  (** INSERT INTO componentes (nombre, tipo, marca, precio, stock)
      VALUES ($1, $2, $3, $4, $5) RETURNING * *)
| InsertReturning
  (** UPDATE componentes SET c1 = e1, ... WHERE id = $k RETURNING * *)
| UpdateSetWhereId (sets : list (Column * Expr)) (k : nat)
  (** DELETE FROM componentes WHERE id = $k RETURNING ... *)
| DeleteWhereId (k : nat).

(** SQLSTATE codes the model raises. *)
Definition not_null_violation : string := "23502".
Definition unique_violation : string := "23505".
Definition invalid_text_representation : string := "22P02".
Definition datatype_mismatch : string := "42804".
Definition protocol_violation : string := "08P01".
Definition syntax_error : string := "42601".
Definition string_data_right_truncation : string := "22001".
Definition numeric_value_out_of_range : string := "22003".
Definition sequence_generator_limit_exceeded : string := "2200H".
Definition character_not_in_repertoire : string := "22021".

(** The value bound to [$k]. *)
Definition bind_param (params : list Param) (k : nat) : Outcome Param :=
  match k with
  | O => Rejected (DatabaseError syntax_error)
  | S j =>
      match nth_error params j with
      | Some p => Resolved p
      | None => Rejected (DatabaseError protocol_violation)
      end
  end.

(** The range of INT (and of SERIAL). *)
Definition int4 (n : Z) : bool := (-2147483648 <=? n) && (n <=? 2147483647).

(** The range of NUMERIC(10,2), in hundredths: ten digits in all. *)
Definition numeric_10_2 (n : Z) : bool := Z.abs n <? 10000000000.

Definition digit_of (c : ascii) : option Z :=
  let n := Z.of_nat (nat_of_ascii c) in
  if (48 <=? n) && (n <=? 57) then Some (n - 48) else None.

Definition is_space (c : ascii) : bool :=
  let n := nat_of_ascii c in
  ((n =? 32) || ((9 <=? n) && (n <=? 13)))%nat.

Fixpoint only_spaces (s : string) : bool :=
  match s with
  | EmptyString => true
  | String c rest => is_space c && only_spaces rest
  end.

Fixpoint skip_spaces (s : string) : string :=
  match s with
  | EmptyString => EmptyString
  | String c rest => if is_space c then skip_spaces rest else s
  end.

(** Digits, then nothing but spaces. *)
Fixpoint parse_digits (s : string) (acc : Z) : option Z :=
  match s with
  | EmptyString => Some acc
  | String c rest =>
      match digit_of c with
      | Some d => parse_digits rest (10 * acc + d)
      | None => if only_spaces s then Some acc else None
      end
  end.

(** At least one digit. *)
Definition parse_unsigned (s : string) : option Z :=
  match s with
  | EmptyString => None
  | String c _ =>
      match digit_of c with
      | Some _ => parse_digits s 0
      | None => None
      end
  end.

(** The integer a text denotes, as the store reads a decimal numeral: spaces
    around it and a sign before it are allowed. *)
Definition parse_int (s : string) : option Z :=
  match skip_spaces s with
  | String "-" rest => option_map Z.opp (parse_unsigned rest)
  | String "+" rest => parse_unsigned rest
  | t => parse_unsigned t
  end.

(** A parameter compared with [id] (NULL stays NULL).  A number is taken as
    it is given; a text must denote an integer within the range of INT. *)
Definition as_num (p : Param) : Outcome (option Z) :=
  match p with
  | PNull => Resolved None
  | PNum n => Resolved (Some n)
  | PText s =>
      match parse_int s with
      | Some n =>
          if int4 n then Resolved (Some n)
          else Rejected (DatabaseError numeric_value_out_of_range)
      | None => Rejected (DatabaseError invalid_text_representation)
      end
  end.

(** VARCHAR(n): a longer text is refused, unless what exceeds the width is
    blank, in which case the text is cut to the width. *)
Fixpoint only_blanks (s : string) : bool :=
  match s with
  | EmptyString => true
  | String c rest => (c =? " ")%char && only_blanks rest
  end.

(** The zero character is no character of a text of the store. *)
Fixpoint has_nul (s : string) : bool :=
  match s with
  | EmptyString => false
  | String c rest => (c =? Ascii.zero)%char || has_nul rest
  end.

(** A text that VARCHAR(n) takes as it is. *)
Definition text_ok (n : nat) (s : string) : bool :=
  negb (has_nul s) && (String.length s <=? n)%nat.

Definition varchar (n : nat) (s : string) : Outcome string :=
  if text_ok n s then Resolved s
  else if has_nul s then Rejected (DatabaseError character_not_in_repertoire)
  else if only_blanks (substring n (String.length s - n) s)
       then Resolved (substring 0 n s)
       else Rejected (DatabaseError string_data_right_truncation).

(** A number as a value of a numeric column. *)
Definition coerce_number (c : Column) (n : Z) : Outcome Param :=
  match c with
  | Cprecio =>
      if numeric_10_2 n then Resolved (PNum n)
      else Rejected (DatabaseError numeric_value_out_of_range)
  | Cstock | Cid =>
      if int4 n then Resolved (PNum n)
      else Rejected (DatabaseError numeric_value_out_of_range)
  | Ccreado_en => Resolved (PNum n)
  | Cnombre | Ctipo | Cmarca => Rejected (DatabaseError datatype_mismatch)
  end.

(** A parameter as a value of the type of a column (NULL stays NULL). *)
Definition coerce (c : Column) (p : Param) : Outcome Param :=
  match p with
  | PNull => Resolved PNull
  | PNum n => coerce_number c n
  | PText s =>
      match c with
      | Cnombre => (s' <-- varchar 120 s ;;; Resolved (PText s'))%outcome
      | Ctipo | Cmarca => (s' <-- varchar 80 s ;;; Resolved (PText s'))%outcome
      | Cprecio | Cstock | Cid | Ccreado_en =>
          match parse_int s with
          | Some n => coerce_number c n
          | None => Rejected (DatabaseError invalid_text_representation)
          end
      end
  end.

Fixpoint coerce_values (vals : list (Column * Param)) : Outcome (list (Column * Param)) :=
  match vals with
  | [] => Resolved []
  | (c, p) :: rest =>
      (v <-- coerce c p ;;;
       vs <-- coerce_values rest ;;;
       Resolved ((c, v) :: vs))%outcome
  end.

(** The current value of a column, as an expression sees it. *)
Definition column_value (c : Column) (r : Componente.t) : Param :=
  match c with
  | Cnombre => PText (Componente.nombre r)
  | Ctipo => PText (Componente.tipo r)
  | Cmarca =>
      match Componente.marca r with
      | Some s => PText s
      | None => PNull
      end
  | Cprecio => PNum (Componente.precio r)
  | Cstock => PNum (Componente.stock r)
  | Cid => PNum (Componente.id r)
  | Ccreado_en => PNum (Componente.creado_en r)
  end.

(** An expression is evaluated on the row as it was before the statement. *)
Definition eval (e : Expr) (params : list Param) (old : Componente.t) : Outcome Param :=
  match e with
  | Placeholder k => bind_param params k
  | Coalesce k c =>
      (p <-- bind_param params k ;;;
       match p with
       | PNull => Resolved (column_value c old)
       | _ => Resolved p
       end)%outcome
  end.

Fixpoint eval_all (sets : list (Column * Expr)) (params : list Param)
    (old : Componente.t) : Outcome (list (Column * Param)) :=
  match sets with
  | [] => Resolved []
  | (c, e) :: rest =>
      (p <-- eval e params old ;;;
       ps <-- eval_all rest params old ;;;
       Resolved ((c, p) :: ps))%outcome
  end.

(** Storing a value of the column's type in a column, under NOT NULL. *)
Definition assign (c : Column) (v : Param) (r : Componente.t) : Outcome Componente.t :=
  match c, v with
  | Cmarca, PNull => Resolved (Componente.set_marca None r)
  | _, PNull => Rejected (DatabaseError not_null_violation)
  | Cnombre, PText s => Resolved (Componente.set_nombre s r)
  | Ctipo, PText s => Resolved (Componente.set_tipo s r)
  | Cmarca, PText s => Resolved (Componente.set_marca (Some s) r)
  | Cprecio, PNum n => Resolved (Componente.set_precio n r)
  | Cstock, PNum n => Resolved (Componente.set_stock n r)
  | Cid, PNum n => Resolved (Componente.set_id n r)
  | Ccreado_en, PNum n => Resolved (Componente.set_creado_en n r)
  | _, _ => Rejected (DatabaseError datatype_mismatch)
  end.

Fixpoint assign_all (vals : list (Column * Param)) (r : Componente.t)
    : Outcome Componente.t :=
  match vals with
  | [] => Resolved r
  | (c, v) :: rest => (r' <-- assign c v r ;;; assign_all rest r')%outcome
  end.

(** Values written to a row: each is first brought to the type of its column
    (a value beyond the capacity of the column is refused there), then they
    are stored under NOT NULL. *)
Definition write_values (vals : list (Column * Param)) (r : Componente.t)
    : Outcome Componente.t :=
  (vs <-- coerce_values vals ;;; assign_all vs r)%outcome.

(** The SET clause applied to one row. *)
Definition set_columns (sets : list (Column * Expr)) (params : list Param)
    (old : Componente.t) : Outcome Componente.t :=
  (vals <-- eval_all sets params old ;;; write_values vals old)%outcome.

(** A column may be assigned once in a SET clause. *)
Fixpoint assigned_once (sets : list (Column * Expr)) : bool :=
  match sets with
  | [] => true
  | (c, _) :: rest =>
      negb (existsb (fun ce => Column_eqb c (fst ce)) rest) && assigned_once rest
  end.

(** [WHERE id = v]: a NULL matches no row. *)
Definition id_is (v : option Z) (r : Componente.t) : bool :=
  match v with
  | Some i => Componente.id r =? i
  | None => false
  end.

(** The rows of an UPDATE: those that match are rewritten, and one failure
    aborts the statement.  The result is the rows of the table after the
    statement and, for RETURNING, the rewritten ones. *)
Fixpoint update_rows (f : Componente.t -> Outcome Componente.t) (v : option Z)
    (rs : list Componente.t) : Outcome (list Componente.t * list Componente.t) :=
  match rs with
  | [] => Resolved ([], [])
  | r :: rest =>
      if id_is v r
      then (r' <-- f r ;;;
            done <-- update_rows f v rest ;;;
            Resolved (r' :: fst done, r' :: snd done))%outcome
      else (done <-- update_rows f v rest ;;;
            Resolved (r :: fst done, snd done))%outcome
  end.

(** The primary key, on the ids of the rows. *)
Fixpoint distinct (ids : list Z) : bool :=
  match ids with
  | [] => true
  | i :: rest => negb (existsb (Z.eqb i) rest) && distinct rest
  end.

(** ORDER BY id ASC, as an insertion sort. *)
Fixpoint insert_by_id (r : Componente.t) (rs : list Componente.t) : list Componente.t :=
  match rs with
  | [] => [r]
  | x :: rest =>
      if Componente.id r <=? Componente.id x then r :: rs
      else x :: insert_by_id r rest
  end.

Fixpoint order_by_id (rs : list Componente.t) : list Componente.t :=
  match rs with
  | [] => []
  | r :: rest => insert_by_id r (order_by_id rest)
  end.

(** nextval of the sequence of [id SERIAL]: the values of the sequence are
    those of INT, and past the last one there is none. *)
Definition nextval (tb : Table.t) : Outcome Table.t :=
  if int4 (Table.id_seq tb + 1) then Resolved (Table.nextval tb)
  else Rejected (DatabaseError sequence_generator_limit_exceeded).

(** The row an INSERT starts from: [id] from the sequence, [creado_en] from
    NOW(); the other columns are all given by the statement. *)
Definition new_row (tb : Table.t) : Componente.t :=
  Componente.mk (Table.id_seq tb) "" "" None 0 0 (Table.now tb).

(** (nombre, tipo, marca, precio, stock) VALUES ($1, $2, $3, $4, $5) *)
Definition insert_values : list (Column * Expr) :=
  [(Cnombre, Placeholder 1); (Ctipo, Placeholder 2); (Cmarca, Placeholder 3);
   (Cprecio, Placeholder 4); (Cstock, Placeholder 5)].

(** What the store does with a statement and its parameters. *)
Definition execute (q : Statement) (params : list Param) : Async Result.t :=
  fun tb =>
    match q with
    | SelectAllOrderById =>
        (Resolved (Result.of_rows (order_by_id (Table.rows tb))), tb)
    | SelectWhereId k =>
        match (p <-- bind_param params k ;;; as_num p)%outcome with
        | Rejected e => (Rejected e, tb)
        | Resolved v => (Resolved (Result.of_rows (filter (id_is v) (Table.rows tb))), tb)
        end
    | InsertReturning =>
        match params with
        | [_; _; _; _; _] =>
            (* a value that does not fit its column is refused before the
               sequence is asked for an id *)
            match (vals <-- eval_all insert_values params (new_row tb) ;;;
                   coerce_values vals)%outcome with
            | Rejected e => (Rejected e, tb)
            | Resolved vals =>
                match nextval tb with
                | Rejected e => (Rejected e, tb)
                | Resolved tb1 =>
                    (* from here on the sequence has advanced, whether or not
                       the row is accepted *)
                    match assign_all vals (new_row tb1) with
                    | Rejected e => (Rejected e, tb1)
                    | Resolved r =>
                        if existsb (id_is (Some (Componente.id r))) (Table.rows tb1)
                        then (Rejected (DatabaseError unique_violation), tb1)
                        else (Resolved (Result.of_rows [r]),
                              Table.with_rows (Table.rows tb1 ++ [r]) tb1)
                    end
                end
            end
        | _ => (Rejected (DatabaseError protocol_violation), tb)
        end
    | UpdateSetWhereId sets k =>
        match sets with
        | [] => (Rejected (DatabaseError syntax_error), tb)
        | _ :: _ =>
            if negb (assigned_once sets) then (Rejected (DatabaseError syntax_error), tb)
            else
              match (p <-- bind_param params k ;;; as_num p)%outcome with
              | Rejected e => (Rejected e, tb)
              | Resolved v =>
                  match update_rows (set_columns sets params) v (Table.rows tb) with
                  | Rejected e => (Rejected e, tb)
                  | Resolved (rs', returned) =>
                      if negb (existsb (fun ce => Column_eqb Cid (fst ce)) sets)
                         || distinct (map Componente.id rs')
                      then (Resolved (Result.of_rows returned), Table.with_rows rs' tb)
                      else (Rejected (DatabaseError unique_violation), tb)
                  end
              end
        end
    | DeleteWhereId k =>
        match (p <-- bind_param params k ;;; as_num p)%outcome with
        | Rejected e => (Rejected e, tb)
        | Resolved v =>
            (Resolved (Result.of_rows (filter (id_is v) (Table.rows tb))),
             Table.with_rows (filter (fun r => negb (id_is v r)) (Table.rows tb)) tb)
        end
    end.

(** ** Module scopes and the connection pool *)

(** The identifiers a module binds at its top level. *)
Definition Scope : Type := list string.

(** Reading an identifier: one the scope does not bind is a ReferenceError. *)
Definition resolve (sc : Scope) (x : string) : Outcome unit :=
  if existsb (String.eqb x) sc then Resolved tt
  else Rejected (ReferenceError x).

(** [pool.query(sql, params)] as written in a module with scope [sc]. *)
Definition pool_query (sc : Scope) (q : Statement) (params : list Param) : Async Result.t :=
  fun tb =>
    match resolve sc "pool" with
    | Rejected e => (Rejected e, tb)
    | Resolved _ => execute q params tb
    end.

(** ** componentes.pg.repo.js *)
Module PG.

(** const pool = require("../db"); const TABLE = "componentes"; *)
Definition scope : Scope := ["pool"; "TABLE"].

Definition getAll : Async JsVal :=
  (result <- pool_query scope SelectAllOrderById [] ;;
   ret (JArray (Result.rows result)))%async.

Definition getById (id : Z) : Async JsVal :=
  (result <- pool_query scope (SelectWhereId 1) [PNum id] ;;
   ret (nullish_null (first_row (Result.rows result))))%async.

Definition create (datos : Datos.t) : Async JsVal :=
  let nombre := Datos.nombre datos in
  let tipo := Datos.tipo datos in
  let marca := with_default (Datos.marca datos) Null in
  let precio := with_default (Datos.precio datos) (Val 0) in
  let stock := with_default (Datos.stock datos) (Val 0) in
  (result <- pool_query scope InsertReturning
               [prepare_text nombre; prepare_text tipo; prepare_text marca;
                prepare_num precio; prepare_num stock] ;;
   ret (first_row (Result.rows result)))%async.

(** The three locals of update: the SET fragments, their values, and the
    placeholder counter. *)
Record Builder : Type := mkBuilder {
  fields : list (Column * Expr);
  values : list Param;
  i : nat
}.

(** [fields.push(`c = $${i++}`); values.push(v);] *)
Definition push (c : Column) (v : Param) (b : Builder) : Builder :=
  mkBuilder (fields b ++ [(c, Placeholder (i b))]) (values b ++ [v]) (S (i b)).

(** [if (datos.c !== undefined) { ... }] *)
Definition push_if_defined {A} (c : Column) (f : Field A) (prepare : Field A -> Param)
    (b : Builder) : Builder :=
  if is_defined f then push c (prepare f) b else b.

Definition build (datos : Datos.t) : Builder :=
  let b := mkBuilder [] [] 1 in
  let b := push_if_defined Cnombre (Datos.nombre datos) prepare_text b in
  let b := push_if_defined Ctipo (Datos.tipo datos) prepare_text b in
  let b := push_if_defined Cmarca (Datos.marca datos) prepare_text b in
  let b := push_if_defined Cprecio (Datos.precio datos) prepare_num b in
  let b := push_if_defined Cstock (Datos.stock datos) prepare_num b in
  b.

Definition update (id : Z) (datos : Datos.t) : Async JsVal :=
  let b := build datos in
  if (List.length (fields b) =? 0)%nat then getById id
  else
    let values := (values b ++ [PNum id])%list in
    (result <- pool_query scope (UpdateSetWhereId (fields b) (i b)) values ;;
     ret (nullish_null (first_row (Result.rows result))))%async.

Definition remove (id : Z) : Async JsVal :=
  (result <- pool_query scope (DeleteWhereId 1) [PNum id] ;;
   ret (JBool (0 <? Result.rowCount result)%nat))%async.

End PG.

(** The properties of a field object that are given, among the columns [cs],
    each with the column it goes to. *)
Definition data_values (cs : list Column) (d : Datos.t) : list (Column * Param) :=
  map (fun c => (c, column_param c d)) (filter (fun c => column_defined c d) cs).

Definition is_null {A} (f : Field A) : bool :=
  match f with
  | Null => true
  | _ => false
  end.

(** ** The Prisma model [prisma.componentes]

    The client is a library; its five operations are given here over the same
    table, with the behaviour the repository's comments rely on: findUnique
    gives null when there is no such record, create checks the required
    properties, update and delete throw when the record does not exist.  The
    client writes every property of [data] that names a field of the model,
    id and creado_en included. *)
Module Model.

Definition record_not_found : string := "P2025".
Definition unique_constraint_failed : string := "P2002".
Definition value_too_long : string := "P2000".
Definition value_out_of_range : string := "P2020".
Definition null_constraint_violation : string := "P2011".
Definition raw_query_failed : string := "P2010".

(** The fields of the model, in the order of the columns. *)
Definition fields : list Column :=
  [Cid; Cnombre; Ctipo; Cmarca; Cprecio; Cstock; Ccreado_en].

(** An error of the store, as the client reports it. *)
Definition client_error (e : JsError) : JsError :=
  match e with
  | DatabaseError code =>
      PrismaClientKnownRequestError
        (if (code =? string_data_right_truncation)%string then value_too_long
         else if (code =? numeric_value_out_of_range)%string then value_out_of_range
         else if (code =? not_null_violation)%string then null_constraint_violation
         else if (code =? unique_violation)%string then unique_constraint_failed
         else raw_query_failed)
  | _ => e
  end.

(** findMany({ orderBy: { id: "asc" } }) *)
Definition findMany : Async JsVal :=
  fun tb => (Resolved (JArray (order_by_id (Table.rows tb))), tb).

(** findUnique({ where: { id } }) *)
Definition findUnique (id : Z) : Async JsVal :=
  fun tb =>
    match find (id_is (Some id)) (Table.rows tb) with
    | Some r => (Resolved (JObject r), tb)
    | None => (Resolved JNull, tb)
    end.

(** The client checks [data] against the model before it reaches the store:
    no null for a field that is not optional. *)
Definition validate (data : Datos.t) : Outcome unit :=
  if is_null (Datos.nombre data) || is_null (Datos.tipo data)
     || is_null (Datos.precio data) || is_null (Datos.stock data)
     || is_null (Datos.id data) || is_null (Datos.creado_en data)
  then Rejected PrismaClientValidationError
  else Resolved tt.

(** For create, nombre and tipo must be given besides. *)
Definition validate_create (data : Datos.t) : Outcome unit :=
  match Datos.nombre data, Datos.tipo data with
  | Val _, Val _ => validate data
  | _, _ => Rejected PrismaClientValidationError
  end.

(** The properties of [data] written to a row. *)
Definition patch (data : Datos.t) (r : Componente.t) : Outcome Componente.t :=
  match write_values (data_values fields data) r with
  | Resolved r' => Resolved r'
  | Rejected e => Rejected (client_error e)
  end.

(** create({ data }): the fields that are not given take their defaults, the
    id from the sequence. *)
Definition create (data : Datos.t) : Async JsVal :=
  fun tb =>
    match validate_create data with
    | Rejected e => (Rejected e, tb)
    | Resolved _ =>
        match coerce_values (data_values fields data) with
        | Rejected e => (Rejected (client_error e), tb)
        | Resolved vals =>
            match (if is_defined (Datos.id data) then Resolved tb else nextval tb) with
            | Rejected e => (Rejected (client_error e), tb)
            | Resolved tb1 =>
                match assign_all vals (new_row tb1) with
                | Rejected e => (Rejected (client_error e), tb1)
                | Resolved r =>
                    if existsb (id_is (Some (Componente.id r))) (Table.rows tb1)
                    then (Rejected (PrismaClientKnownRequestError unique_constraint_failed),
                          tb1)
                    else (Resolved (JObject r),
                          Table.with_rows (Table.rows tb1 ++ [r]) tb1)
                end
            end
        end
    end.

(** update({ where: { id }, data }) *)
Definition update (id : Z) (data : Datos.t) : Async JsVal :=
  fun tb =>
    match validate data with
    | Rejected e => (Rejected e, tb)
    | Resolved _ =>
        match find (id_is (Some id)) (Table.rows tb) with
        | None => (Rejected (PrismaClientKnownRequestError record_not_found), tb)
        | Some _ =>
            match update_rows (patch data) (Some id) (Table.rows tb) with
            | Rejected e => (Rejected e, tb)
            | Resolved (rs', returned) =>
                if negb (is_defined (Datos.id data)) || distinct (map Componente.id rs')
                then (Resolved (first_row returned), Table.with_rows rs' tb)
                else (Rejected (PrismaClientKnownRequestError unique_constraint_failed), tb)
            end
        end
    end.

(** delete({ where: { id } }) *)
Definition delete (id : Z) : Async JsVal :=
  fun tb =>
    match find (id_is (Some id)) (Table.rows tb) with
    | None => (Rejected (PrismaClientKnownRequestError record_not_found), tb)
    | Some r =>
        (Resolved (JObject r),
         Table.with_rows (filter (fun r => negb (id_is (Some id) r)) (Table.rows tb)) tb)
    end.

End Model.

(** ** componentes.prisma.repo.js *)
Module Prisma.

Definition getAll : Async JsVal := Model.findMany.

Definition getById (id : Z) : Async JsVal := Model.findUnique id.

Definition create (datos : Datos.t) : Async JsVal :=
  let nombre := Datos.nombre datos in
  let tipo := Datos.tipo datos in
  let marca := with_default (Datos.marca datos) Null in
  let precio := with_default (Datos.precio datos) (Val 0) in
  let stock := with_default (Datos.stock datos) (Val 0) in
  Model.create (Datos.mk nombre tipo marca precio stock Undefined Undefined).

(** [if (datos.c !== undefined) payload.c = datos.c;] *)
Definition copy_if_defined {A} (f : Field A) (set : Field A -> Datos.t -> Datos.t)
    (payload : Datos.t) : Datos.t :=
  if is_defined f then set f payload else payload.

Definition update (id : Z) (datos : Datos.t) : Async JsVal :=
  let payload := Datos.empty in
  let payload := copy_if_defined (Datos.nombre datos) Datos.set_nombre payload in
  let payload := copy_if_defined (Datos.tipo datos) Datos.set_tipo payload in
  let payload := copy_if_defined (Datos.precio datos) Datos.set_precio payload in
  let payload := copy_if_defined (Datos.stock datos) Datos.set_stock payload in
  let payload := copy_if_defined (Datos.marca datos) Datos.set_marca payload in
  Model.update id payload.

Definition remove (id : Z) : Async JsVal :=
  (_ <- Model.delete id ;;
   ret (JBool true))%async.

End Prisma.

(** ** The later revision of componentes.pg.repo.js

    It keeps the pool for getAll, which hands back the whole result, and
    calls [model] in the other four functions without binding it. *)
Module PGDraft.

Definition scope : Scope := ["pool"; "TABLE"].

(** A call through the identifier [model]. *)
Definition through_model {A} (call : Async A) : Async A :=
  (_ <- settle (resolve scope "model") ;; call)%async.

Definition getAll : Async JsVal :=
  (result <- pool_query scope SelectAllOrderById [] ;;
   ret (JResult result))%async.

Definition getById (id : Z) : Async JsVal := through_model (Model.findUnique id).

Definition create (datos : Datos.t) : Async JsVal :=
  let nombre := Datos.nombre datos in
  let tipo := Datos.tipo datos in
  let marca := with_default (Datos.marca datos) Null in
  let precio := with_default (Datos.precio datos) (Val 0) in
  let stock := with_default (Datos.stock datos) (Val 0) in
  through_model
    (Model.create (Datos.mk nombre tipo marca precio stock Undefined Undefined)).

Definition update (id : Z) (datos : Datos.t) : Async JsVal :=
  let payload := Datos.empty in
  let payload := Prisma.copy_if_defined (Datos.nombre datos) Datos.set_nombre payload in
  let payload := Prisma.copy_if_defined (Datos.tipo datos) Datos.set_tipo payload in
  let payload := Prisma.copy_if_defined (Datos.precio datos) Datos.set_precio payload in
  let payload := Prisma.copy_if_defined (Datos.stock datos) Datos.set_stock payload in
  let payload := Prisma.copy_if_defined (Datos.marca datos) Datos.set_marca payload in
  through_model (Model.update id payload).

Definition remove (id : Z) : Async JsVal :=
  (_ <- through_model (Model.delete id) ;;
   ret (JBool true))%async.

End PGDraft.

(** ** repository/index.js *)

(** What a repository module exports. *)
Module Repo.
Record t : Type := mk {
  getAll : Async JsVal;
  getById : Z -> Async JsVal;
  create : Datos.t -> Async JsVal;
  update : Z -> Datos.t -> Async JsVal;
  remove : Z -> Async JsVal
}.
End Repo.

Definition pg_repo : Repo.t :=
  Repo.mk PG.getAll PG.getById PG.create PG.update PG.remove.

Definition prisma_repo : Repo.t :=
  Repo.mk Prisma.getAll Prisma.getById Prisma.create Prisma.update Prisma.remove.

Definition pg_draft_repo : Repo.t :=
  Repo.mk PGDraft.getAll PGDraft.getById PGDraft.create PGDraft.update PGDraft.remove.

Definition lower (c : ascii) : ascii :=
  let n := nat_of_ascii c in
  if ((65 <=? n) && (n <=? 90))%nat then ascii_of_nat (n + 32) else c.

Fixpoint toLowerCase (s : string) : string :=
  match s with
  | EmptyString => EmptyString
  | String c rest => String (lower c) (toLowerCase rest)
  end.

(** [(process.env.DATA_ACCESS || "pg").toLowerCase()], then the choice. *)
Definition select_repo (DATA_ACCESS : option string) : Repo.t :=
  let mode :=
    toLowerCase
      match DATA_ACCESS with
      | Some s => if (s =? "")%string then "pg" else s
      | None => "pg"
      end in
  if (mode =? "prisma")%string then prisma_repo else pg_repo.

(** ** app.js *)

Module Request.
Record t : Type := mk {
  id : string;      (* req.params.id *)
  body : Datos.t    (* req.body *)
}.
End Request.

(** What a handler sends: nothing, the JSON of a value, or the JSON of an
    error object ([detalle] is the caught error, whose message is sent). *)
Inductive Body : Type :=
| NoBody
| Json (v : JsVal)
| ErrorJson (error : string) (detalle : option JsError).

Module Response.
Record t : Type := mk {
  status : nat;
  body : Body
}.
End Response.

(** The handlers, as written, in a module whose scope is [sc] and whose
    [repo] is the given one. *)
Module Routes.

Definition get_componentes (repo : Repo.t) : Async Response.t :=
  try_catch
    (result <- Repo.getAll repo ;;
     rows <- settle (prop_rows result) ;;
     ret (Response.mk 200 (Json rows)))%async
    (fun err => ret (Response.mk 500 (ErrorJson "Error al listar componentes" (Some err)))).

Definition get_componente (sc : Scope) (req : Request.t) : Async Response.t :=
  let id := Request.id req in
  try_catch
    (result <- pool_query sc (SelectWhereId 1) [PText id] ;;
     if (List.length (Result.rows result) =? 0)%nat
     then ret (Response.mk 404 (ErrorJson "No encontrado" None))
     else ret (Response.mk 200 (Json (first_row (Result.rows result)))))%async
    (fun err => ret (Response.mk 500 (ErrorJson "Error al obtener componentes" (Some err)))).

Definition post_componente (sc : Scope) (req : Request.t) : Async Response.t :=
  let nombre := Datos.nombre (Request.body req) in
  let tipo := Datos.tipo (Request.body req) in
  let marca := with_default (Datos.marca (Request.body req)) Null in
  let precio := with_default (Datos.precio (Request.body req)) (Val 0) in
  let stock := with_default (Datos.stock (Request.body req)) (Val 0) in
  if negb (truthy nombre) || negb (truthy tipo)
  then ret (Response.mk 400 (ErrorJson "Campos obligatorios: nombre y tipo" None))
  else
    try_catch
      (result <- pool_query sc InsertReturning
                   [prepare_text nombre; prepare_text tipo; prepare_text marca;
                    prepare_num precio; prepare_num stock] ;;
       ret (Response.mk 201 (Json (first_row (Result.rows result)))))%async
      (fun err => ret (Response.mk 500 (ErrorJson "Error al crear componentes" (Some err)))).

(** SET nombre = COALESCE($1, nombre), ..., stock = COALESCE($5, stock) *)
Definition coalesce_all : list (Column * Expr) :=
  [(Cnombre, Coalesce 1 Cnombre); (Ctipo, Coalesce 2 Ctipo); (Cmarca, Coalesce 3 Cmarca);
   (Cprecio, Coalesce 4 Cprecio); (Cstock, Coalesce 5 Cstock)].

Definition put_componente (sc : Scope) (req : Request.t) : Async Response.t :=
  let id := Request.id req in
  let nombre := Datos.nombre (Request.body req) in
  let tipo := Datos.tipo (Request.body req) in
  let marca := Datos.marca (Request.body req) in
  let precio := Datos.precio (Request.body req) in
  let stock := Datos.stock (Request.body req) in
  try_catch
    (if negb (truthy nombre) || negb (truthy tipo)
     then ret (Response.mk 400 (ErrorJson "Campos obligatorios: nombre y tipo" None))
     else
       (exists_ <- pool_query sc (SelectWhereId 1) [PText id] ;;
        if (List.length (Result.rows exists_) =? 0)%nat
        then ret (Response.mk 404 (ErrorJson "No encontrado" None))
        else
          (result <- pool_query sc (UpdateSetWhereId coalesce_all 6)
                       [prepare_text (or_null nombre); prepare_text (or_null tipo);
                        prepare_text (or_null marca); prepare_num (or_null precio);
                        prepare_num (or_null stock); PText id] ;;
           ret (Response.mk 200 (Json (first_row (Result.rows result)))))))%async
    (fun err => ret (Response.mk 500 (ErrorJson "Error al actualizar componente" (Some err)))).

Definition delete_componente (sc : Scope) (req : Request.t) : Async Response.t :=
  let id := Request.id req in
  try_catch
    (result <- pool_query sc (DeleteWhereId 1) [PText id] ;;
     if (List.length (Result.rows result) =? 0)%nat
     then ret (Response.mk 404 (ErrorJson "No encontrado" None))
     else ret (Response.mk 204 NoBody))%async
    (fun err => ret (Response.mk 500 (ErrorJson "Error al eliminar componente" (Some err)))).

End Routes.

(** app.js itself: it requires dotenv, express, ./repository and path, and
    declares app and PORT. *)
Module App.

Definition scope : Scope := ["express"; "repo"; "path"; "app"; "PORT"].

Definition get_componentes (repo : Repo.t) : Async Response.t :=
  Routes.get_componentes repo.
Definition get_componente : Request.t -> Async Response.t :=
  Routes.get_componente scope.
Definition post_componente : Request.t -> Async Response.t :=
  Routes.post_componente scope.
Definition put_componente : Request.t -> Async Response.t :=
  Routes.put_componente scope.
Definition delete_componente : Request.t -> Async Response.t :=
  Routes.delete_componente scope.

End App.

(** ** The seed rows of the table script *)

Definition seed_rows (t0 : Z) : list Componente.t :=
  [Componente.mk 1 "Ryzen 5 5600" "CPU" (Some "AMD") 12999 12 t0;
   Componente.mk 2 "Core i5-12400F" "CPU" (Some "Intel") 14999 8 t0;
   Componente.mk 3 "RTX 4060" "GPU" (Some "NVIDIA") 29999 5 t0;
   Componente.mk 4 "Samsung 970 EVO Plus 1TB" "SSD" (Some "Samsung") 8990 20 t0].

Definition seeded : Table.t := Table.mk (seed_rows 0) 4 0.

Definition empty_table : Table.t := Table.mk [] 0 0.

(** ** The contract, in the words of the specification *)

(** Presence-based partial update of one row: a column takes the supplied
    value if and only if its key is present; an omitted key leaves the stored
    value untouched.  A null is a value to store for marca, the one nullable
    column; for the others it is none, and [admissible] below rules it out. *)
Definition supplied {A} (f : Field A) (stored : A) : A :=
  match f with
  | Val a => a
  | _ => stored
  end.

Definition supplied_nullable {A} (f : Field A) (stored : option A) : option A :=
  match f with
  | Undefined => stored
  | Null => None
  | Val a => Some a
  end.

Definition presence_update (d : Datos.t) (r : Componente.t) : Componente.t :=
  Componente.mk
    (Componente.id r)
    (supplied (Datos.nombre d) (Componente.nombre r))
    (supplied (Datos.tipo d) (Componente.tipo r))
    (supplied_nullable (Datos.marca d) (Componente.marca r))
    (supplied (Datos.precio d) (Componente.precio r))
    (supplied (Datos.stock d) (Componente.stock r))
    (Componente.creado_en r).

(** The field objects the columns admit: no null for a NOT NULL column. *)
Definition admissible (d : Datos.t) : bool :=
  negb (is_null (Datos.nombre d)) && negb (is_null (Datos.tipo d))
  && negb (is_null (Datos.precio d)) && negb (is_null (Datos.stock d)).

(** The field object with no key at all supplied. *)
Definition no_key (d : Datos.t) : bool :=
  negb (is_defined (Datos.nombre d)) && negb (is_defined (Datos.tipo d))
  && negb (is_defined (Datos.marca d)) && negb (is_defined (Datos.precio d))
  && negb (is_defined (Datos.stock d)).

(** The whole table after a presence-based update of the rows with this id. *)
Definition presence_update_table (id : Z) (d : Datos.t) (tb : Table.t) : Table.t :=
  Table.with_rows
    (map (fun r => if id_is (Some id) r then presence_update d r else r) (Table.rows tb))
    tb.

(** The error taxonomy of the specification: a ValidationError reports a
    missing required field; a constraint violation raised by the store is a
    DataAccessError. *)
Inductive ErrorClass : Type :=
| ValidationError
| DataAccessError
| ProgramError.

Definition error_class (e : JsError) : ErrorClass :=
  match e with
  | PrismaClientValidationError => ValidationError
  | DatabaseError _ | PrismaClientKnownRequestError _ => DataAccessError
  | ReferenceError _ | TypeError => ProgramError
  end.

(** The row create is to return: the generated id and timestamp, the given
    nombre and tipo, and the defaults for what is omitted. *)
Definition created_row (tb : Table.t) (nombre tipo : string)
    (marca : Field string) (precio stock : Field Z) : Componente.t :=
  Componente.mk (Table.id_seq tb + 1) nombre tipo
    (supplied_nullable marca None) (supplied precio 0) (supplied stock 0)
    (Table.now tb).

(** Every id in the table was handed out by the sequence. *)
Definition ids_from_sequence (tb : Table.t) : bool :=
  forallb (fun i => i <=? Table.id_seq tb) (map Componente.id (Table.rows tb)).

(** The columns of a SET clause, in the order update looks at them. *)
Definition all_columns : list Column := [Cnombre; Ctipo; Cmarca; Cprecio; Cstock].

(** The SET clause that update builds, read off as a function on a row: the
    five properties that are given, written to the row. *)
Definition set_clause (d : Datos.t) (r : Componente.t) : Outcome Componente.t :=
  write_values (data_values all_columns d) r.

(** The five properties the repository reads, and nothing else. *)
Definition read_by_the_repository (d : Datos.t) : Datos.t :=
  Datos.mk (Datos.nombre d) (Datos.tipo d) (Datos.marca d) (Datos.precio d)
    (Datos.stock d) Undefined Undefined.

(** A value within the capacity of its column: a text within the width of
    VARCHAR(n) and without the zero character, a price within NUMERIC(10,2),
    a stock within INT. *)
Definition text_fits (n : nat) (f : Field string) : bool :=
  match f with
  | Val s => text_ok n s
  | _ => true
  end.

Definition price_fits (f : Field Z) : bool :=
  match f with
  | Val n => numeric_10_2 n
  | _ => true
  end.

Definition int_fits (f : Field Z) : bool :=
  match f with
  | Val n => int4 n
  | _ => true
  end.

Definition column_fits (c : Column) (d : Datos.t) : bool :=
  match c with
  | Cnombre => text_fits 120 (Datos.nombre d)
  | Ctipo => text_fits 80 (Datos.tipo d)
  | Cmarca => text_fits 80 (Datos.marca d)
  | Cprecio => price_fits (Datos.precio d)
  | Cstock => int_fits (Datos.stock d)
  | Cid => int_fits (Datos.id d)
  | Ccreado_en => true
  end.

(** The field objects whose five values are within the capacity of their
    columns: nombre a text of at most 120 characters, tipo and marca of at
    most 80, none with the zero character, precio within NUMERIC(10,2), stock
    within INT. *)
Definition within_capacity (d : Datos.t) : bool :=
  forallb (fun c => column_fits c d) all_columns.

(** The values create sends: the five columns, with the defaults. *)
Definition create_values (d : Datos.t) : list (Column * Param) :=
  [(Cnombre, prepare_text (Datos.nombre d));
   (Ctipo, prepare_text (Datos.tipo d));
   (Cmarca, prepare_text (with_default (Datos.marca d) Null));
   (Cprecio, prepare_num (with_default (Datos.precio d) (Val 0)));
   (Cstock, prepare_num (with_default (Datos.stock d) (Val 0)))].

(** An outcome with the error of the store put as the client reports it. *)
Definition as_the_client_reports {A} (o : Outcome A) : Outcome A :=
  match o with
  | Resolved a => Resolved a
  | Rejected e => Rejected (Model.client_error e)
  end.

(** The sequence has a next value, and it is the id of no row. *)
Definition next_id_is_free (tb : Table.t) : bool :=
  int4 (Table.id_seq tb + 1)
  && negb (existsb (id_is (Some (Table.id_seq tb + 1))) (Table.rows tb)).

(** The order of ORDER BY id ASC. *)
Definition id_le (a b : Componente.t) : Prop := Componente.id a <= Componente.id b.

(** The table after a row has been inserted. *)
Definition inserted (r : Componente.t) (tb : Table.t) : Table.t :=
  Table.mk (Table.rows tb ++ [r]) (Table.id_seq tb + 1) (Table.now tb).

(** The table after the rows with this id have been deleted. *)
Definition deleted (id : Z) (tb : Table.t) : Table.t :=
  Table.with_rows (filter (fun r => negb (id_is (Some id) r)) (Table.rows tb)) tb.

(** Case analysis on the five properties of a field object that the
    repository reads; the other two stay as they are. *)
Ltac by_fields d :=
  destruct d as [[| |?] [| |?] [| |?] [| |?] [| |?] ? ?].

(** Field objects and requests used as examples. *)

(** [{ precio: 50 }] *)
Definition solo_precio : Datos.t := Datos.set_precio (Val 5000) Datos.empty.

(** [{ stock: 10 }] *)
Definition solo_stock : Datos.t := Datos.set_stock (Val 10) Datos.empty.

(** [{ nombre: null }] *)
Definition nombre_null : Datos.t := Datos.set_nombre Null Datos.empty.

(** [{ marca: null, precio: 50 }] *)
Definition marca_null_precio : Datos.t := Datos.set_marca Null solo_precio.

(** [{ tipo: "CPU" }] *)
Definition sin_nombre : Datos.t := Datos.set_tipo (Val "CPU") Datos.empty.

(** [{ nombre: "", tipo: "CPU" }] *)
Definition nombre_vacio : Datos.t := Datos.set_nombre (Val "") sin_nombre.

(** [{ nombre: "Ryzen 7 5800X", tipo: "CPU" }] *)
Definition nombre_y_tipo : Datos.t := Datos.set_nombre (Val "Ryzen 7 5800X") sin_nombre.

(** [{ id: 7, creado_en: 99, precio: 50 }] *)
Definition con_id : Datos.t :=
  Datos.set_id (Val 7) (Datos.set_creado_en (Val 99) solo_precio).

(** [{ stock: 2147483648 }], one past the range of INT. *)
Definition stock_excesivo : Datos.t := Datos.set_stock (Val 2147483648) Datos.empty.

(** [{ precio: 100000000 }], one past the range of NUMERIC(10,2). *)
Definition precio_excesivo : Datos.t := Datos.set_precio (Val 10000000000) Datos.empty.

(** A text of n characters. *)
Fixpoint text_of_length (n : nat) : string :=
  match n with
  | O => EmptyString
  | S k => String "x" (text_of_length k)
  end.

(** [{ nombre: "xx...x" }], of 121 characters. *)
Definition nombre_largo : Datos.t := Datos.set_nombre (Val (text_of_length 121)) Datos.empty.

(** [{ marca: "\u0000" }] *)
Definition marca_con_cero : Datos.t :=
  Datos.set_marca (Val (String Ascii.zero EmptyString)) Datos.empty.

(** [{ nombre: "Ryzen 7 5800X", tipo: "CPU", stock: 2147483648 }] *)
Definition nuevo_con_stock_excesivo : Datos.t :=
  Datos.set_stock (Val 2147483648) nombre_y_tipo.

(** [{ nombre: "Ryzen 7 5800X", tipo: "CPU", stock: null }] *)
Definition nuevo_con_stock_null : Datos.t := Datos.set_stock Null nombre_y_tipo.

(** [{ nombre: null, stock: 2147483648 }] *)
Definition nombre_null_stock_excesivo : Datos.t :=
  Datos.set_stock (Val 2147483648) nombre_null.

(** The first seed row. *)
Definition ryzen : Componente.t :=
  Componente.mk 1 "Ryzen 5 5600" "CPU" (Some "AMD") 12999 12 0.

(** What a handler sends from its catch branch. *)
Definition internal_error (error : string) (err : JsError) : Response.t :=
  Response.mk 500 (ErrorJson error (Some err)).

(** The answer to a body without nombre or tipo. *)
Definition campos_obligatorios : Response.t :=
  Response.mk 400 (ErrorJson "Campos obligatorios: nombre y tipo" None).

(** The identity of a row that no update may touch. *)
Definition identity (r : Componente.t) : Z * Z :=
  (Componente.id r, Componente.creado_en r).

(** The primary key: no two rows share an id. *)
Definition primary_key (tb : Table.t) : Prop :=
  NoDup (map Componente.id (Table.rows tb)).

(** A field object with what a new row needs: nombre and tipo given, and no
    null for precio or stock. *)
Definition complete (d : Datos.t) : bool :=
  match Datos.nombre d, Datos.tipo d with
  | Val _, Val _ => negb (is_null (Datos.precio d)) && negb (is_null (Datos.stock d))
  | _, _ => false
  end.

(** A field object create accepts: a complete one, with every value within
    the capacity of its column. *)
Definition creatable (d : Datos.t) : bool := complete d && within_capacity d.

(** The row create stores for such an object. *)
Definition row_of (tb : Table.t) (d : Datos.t) : Componente.t :=
  created_row tb
    (supplied (Datos.nombre d) "") (supplied (Datos.tipo d) "")
    (Datos.marca d) (Datos.precio d) (Datos.stock d).

(** What the SET clause of PUT /componentes/:id makes of a row: COALESCE keeps
    the stored value where the body gives null or nothing. *)
Definition coalesce_update (d : Datos.t) (r : Componente.t) : Componente.t :=
  Componente.mk
    (Componente.id r)
    (supplied (Datos.nombre d) (Componente.nombre r))
    (supplied (Datos.tipo d) (Componente.tipo r))
    match Datos.marca d with
    | Val m => Some m
    | _ => Componente.marca r
    end
    (supplied (Datos.precio d) (Componente.precio r))
    (supplied (Datos.stock d) (Componente.stock r))
    (Componente.creado_en r).

(** A repository whose every call fails with the given error, as when the
    store cannot be reached. *)
Definition failing_repo (e : JsError) : Repo.t :=
  Repo.mk (throw e) (fun _ => throw e) (fun _ => throw e)
    (fun _ _ => throw e) (fun _ => throw e).

(** The invariant of the table: ids come from the sequence and are distinct. *)
Definition table_invariant (tb : Table.t) : Prop :=
  ids_from_sequence tb = true /\ primary_key tb.

(** The answer to an id that matches no row. *)
Definition no_encontrado : Response.t :=
  Response.mk 404 (ErrorJson "No encontrado" None).

(** The seeded table after a row was put in with an id of its own, 5, which
    the sequence, still at 4, has not handed out. *)
Definition seeded_with_id_5 : Table.t :=
  Table.mk (seed_rows 0 ++ [Componente.mk 5 "Arc A750" "GPU" (Some "Intel") 21999 3 0]) 4 0.

(** A row as the table can hold it: every value within the capacity of its
    column. *)
Definition row_fits (r : Componente.t) : bool :=
  text_ok 120 (Componente.nombre r)
  && text_ok 80 (Componente.tipo r)
  && match Componente.marca r with
     | Some m => text_ok 80 m
     | None => true
     end
  && numeric_10_2 (Componente.precio r)
  && int4 (Componente.stock r).

(** A table whose sequence has handed out its last value. *)
Definition sequence_exhausted : Table.t := Table.mk (seed_rows 0) 2147483647 0.

Arguments text_ok : simpl never.
Arguments varchar : simpl never.
Arguments numeric_10_2 : simpl never.
Arguments int4 : simpl never.

(** * Properties *)

(** ** Lists of rows *)

Lemma first_row_filter (p : Componente.t -> bool) (rs : list Componente.t) :
  first_row (filter p rs) =
  match find p rs with
  | Some r => JObject r
  | None => JUndefined
  end.
Proof.
  induction rs as [|r rs IH]; simpl; [reflexivity|].
  destruct (p r); [reflexivity | exact IH].
Qed.

Lemma count_filter_positive (p : Componente.t -> bool) (rs : list Componente.t) :
  (0 <? List.length (filter p rs))%nat = existsb p rs.
Proof.
  induction rs as [|r rs IH]; simpl; [reflexivity|].
  destruct (p r); [reflexivity | exact IH].
Qed.

Lemma existsb_find (p : Componente.t -> bool) (rs : list Componente.t) :
  existsb p rs = match find p rs with Some _ => true | None => false end.
Proof.
  induction rs as [|r rs IH]; simpl; [reflexivity|].
  destruct (p r); [reflexivity | exact IH].
Qed.

Lemma filter_none (p : Componente.t -> bool) (rs : list Componente.t) :
  find p rs = None -> filter p rs = [] /\ filter (fun r => negb (p r)) rs = rs.
Proof.
  induction rs as [|r rs IH]; simpl; [intros _; split; reflexivity|].
  destruct (p r); [discriminate|]. intros H. destruct (IH H) as [E1 E2].
  simpl. rewrite E1, E2. split; reflexivity.
Qed.

Lemma find_after_delete (p : Componente.t -> bool) (rs : list Componente.t) :
  find p (filter (fun r => negb (p r)) rs) = None.
Proof.
  induction rs as [|r rs IH]; simpl; [reflexivity|].
  destruct (p r) eqn:E; simpl; [exact IH | rewrite E; exact IH].
Qed.

Lemma with_rows_same (tb : Table.t) : Table.with_rows (Table.rows tb) tb = tb.
Proof. destruct tb; reflexivity. Qed.

Lemma filter_find (p : Componente.t -> bool) (rs : list Componente.t) (r : Componente.t) :
  find p rs = Some r -> exists rest, filter p rs = r :: rest.
Proof.
  induction rs as [|x rs IH]; simpl; [discriminate|].
  destruct (p x).
  - intros H. injection H as <-. eexists. reflexivity.
  - exact IH.
Qed.

(** ** UPDATE on the rows *)

Lemma update_rows_ext (f g : Componente.t -> Outcome Componente.t) (v : option Z)
    (rs : list Componente.t) :
  (forall r, f r = g r) -> update_rows f v rs = update_rows g v rs.
Proof.
  intros E. induction rs as [|r rs IH]; cbn [update_rows]; [reflexivity|].
  rewrite E, IH. reflexivity.
Qed.

Lemma update_rows_no_match (f : Componente.t -> Outcome Componente.t) (v : option Z)
    (rs : list Componente.t) :
  find (id_is v) rs = None -> update_rows f v rs = Resolved (rs, []).
Proof.
  induction rs as [|r rs IH]; cbn [update_rows find]; [reflexivity|].
  destruct (id_is v r); [discriminate|]. intros H. rewrite (IH H). reflexivity.
Qed.

Lemma update_rows_resolved_on (f : Componente.t -> Outcome Componente.t)
    (g : Componente.t -> Componente.t) (v : option Z) (rs : list Componente.t) :
  (forall r, In r rs -> id_is v r = true -> f r = Resolved (g r)) ->
  update_rows f v rs =
  Resolved (map (fun r => if id_is v r then g r else r) rs, map g (filter (id_is v) rs)).
Proof.
  induction rs as [|r rs IH]; cbn [update_rows map filter]; intros E; [reflexivity|].
  rewrite IH by (intros x Hx; apply E; right; exact Hx).
  destruct (id_is v r) eqn:Ev; [|reflexivity].
  rewrite (E r (or_introl eq_refl) Ev). reflexivity.
Qed.

Lemma update_rows_resolved (f : Componente.t -> Outcome Componente.t)
    (g : Componente.t -> Componente.t) (v : option Z) (rs : list Componente.t) :
  (forall r, f r = Resolved (g r)) ->
  update_rows f v rs =
  Resolved (map (fun r => if id_is v r then g r else r) rs, map g (filter (id_is v) rs)).
Proof. intros E. apply update_rows_resolved_on. intros r _ _. apply E. Qed.

Lemma update_rows_rejected (f : Componente.t -> Outcome Componente.t) (e : JsError)
    (v : option Z) (rs : list Componente.t) (r : Componente.t) :
  (forall x, f x = Rejected e) -> find (id_is v) rs = Some r ->
  update_rows f v rs = Rejected e.
Proof.
  intros E. induction rs as [|x rs IH]; cbn [update_rows find]; [discriminate|].
  destruct (id_is v x).
  - intros _. rewrite E. reflexivity.
  - intros H. rewrite (IH H). reflexivity.
Qed.

(** Taking an UPDATE that resolved apart, row by row. *)
Lemma update_rows_cons (f : Componente.t -> Outcome Componente.t) (v : option Z)
    (r : Componente.t) (rs all returned : list Componente.t) :
  update_rows f v (r :: rs) = Resolved (all, returned) ->
  exists r' all' returned',
    update_rows f v rs = Resolved (all', returned') /\
    all = r' :: all' /\
    ((id_is v r = true /\ f r = Resolved r' /\ returned = r' :: returned') \/
     (id_is v r = false /\ r' = r /\ returned = returned')).
Proof.
  cbn [update_rows]. destruct (id_is v r).
  - destruct (f r) as [r1|]; cbn [obind]; [|discriminate].
    destruct (update_rows f v rs) as [[all' returned']|]; cbn [obind fst snd];
      [|discriminate].
    intros H. injection H as <- <-. exists r1, all', returned'.
    split; [reflexivity|]. split; [reflexivity|]. left. repeat split; reflexivity.
  - destruct (update_rows f v rs) as [[all' returned']|]; cbn [obind fst snd];
      [|discriminate].
    intros H. injection H as <- <-. exists r, all', returned'.
    split; [reflexivity|]. split; [reflexivity|]. right. repeat split; reflexivity.
Qed.

(** An update that keeps a projection of each row it rewrites keeps it on
    the whole table. *)
Lemma update_rows_keeps {K : Type} (key : Componente.t -> K)
    (f : Componente.t -> Outcome Componente.t) (v : option Z) :
  (forall r r', f r = Resolved r' -> key r' = key r) ->
  forall rs all returned,
    update_rows f v rs = Resolved (all, returned) -> map key all = map key rs.
Proof.
  intros Hf. induction rs as [|r rs IH]; intros all returned H.
  - injection H as <- _. reflexivity.
  - destruct (update_rows_cons _ _ _ _ _ _ H) as [r' [all' [returned' [E [-> Hr]]]]].
    cbn [map]. rewrite (IH _ _ E).
    destruct Hr as [[_ [Hr _]] | [_ [-> _]]]; [rewrite (Hf _ _ Hr)|]; reflexivity.
Qed.

(** An update that keeps the id of each row it rewrites leaves the rows with
    another id as they were. *)
Lemma update_rows_others (f : Componente.t -> Outcome Componente.t) (v : option Z) :
  (forall r r', f r = Resolved r' -> Componente.id r' = Componente.id r) ->
  forall rs all returned,
    update_rows f v rs = Resolved (all, returned) ->
    filter (fun r => negb (id_is v r)) all = filter (fun r => negb (id_is v r)) rs.
Proof.
  intros Hf. induction rs as [|r rs IH]; intros all returned H.
  - injection H as <- _. reflexivity.
  - destruct (update_rows_cons _ _ _ _ _ _ H) as [r' [all' [returned' [E [-> Hr]]]]].
    cbn [filter]. rewrite (IH _ _ E).
    destruct Hr as [[Ev [Hr _]] | [Ev [-> _]]]; [|reflexivity].
    assert (Ev' : id_is v r' = true).
    { destruct v; cbn in *; [rewrite (Hf _ _ Hr); exact Ev | discriminate Ev]. }
    rewrite Ev, Ev'. reflexivity.
Qed.

(** An update whose effect on a row is not changed by a second application
    gives, applied to its own result, that result again. *)
Lemma update_rows_twice (f : Componente.t -> Outcome Componente.t) (v : option Z) :
  (forall r r', f r = Resolved r' ->
     f r' = Resolved r' /\ Componente.id r' = Componente.id r) ->
  forall rs all returned,
    update_rows f v rs = Resolved (all, returned) ->
    update_rows f v all = Resolved (all, returned).
Proof.
  intros Hf. induction rs as [|r rs IH]; intros all returned H.
  - injection H as <- <-. reflexivity.
  - destruct (update_rows_cons _ _ _ _ _ _ H) as [r' [all' [returned' [E [-> Hr]]]]].
    cbn [update_rows]. rewrite (IH _ _ E).
    destruct Hr as [[Ev [Hr ->]] | [Ev [-> ->]]].
    + destruct (Hf _ _ Hr) as [Hr' Hid].
      assert (Ev' : id_is v r' = true).
      { destruct v; cbn in *; [rewrite Hid; exact Ev | discriminate Ev]. }
      rewrite Ev', Hr'. reflexivity.
    + rewrite Ev. reflexivity.
Qed.

(** After an update that keeps the ids, an id that a row had is still the id
    of a row. *)
Lemma update_rows_finds (f : Componente.t -> Outcome Componente.t) (v : option Z) :
  (forall r r', f r = Resolved r' -> Componente.id r' = Componente.id r) ->
  forall rs all returned r,
    update_rows f v rs = Resolved (all, returned) ->
    find (id_is v) rs = Some r ->
    exists r', find (id_is v) all = Some r'.
Proof.
  intros Hf. induction rs as [|x rs IH]; intros all returned r H Hr; [discriminate Hr|].
  destruct (update_rows_cons _ _ _ _ _ _ H) as [x' [all' [returned' [E [-> Hx]]]]].
  cbn [find] in *. destruct Hx as [[Ev [Hx _]] | [Ev [-> _]]].
  - assert (Ev' : id_is v x' = true).
    { destruct v; cbn in *; [rewrite (Hf _ _ Hx); exact Ev | discriminate Ev]. }
    rewrite Ev'. eexists. reflexivity.
  - rewrite Ev in *. exact (IH _ _ _ E Hr).
Qed.

(** ** Values within the capacity of their columns *)

Lemma varchar_fits (n : nat) (s : string) :
  text_ok n s = true -> varchar n s = Resolved s.
Proof. unfold varchar. intros ->. reflexivity. Qed.

Lemma varchar_cases (n : nat) (s : string) :
  (exists s', varchar n s = Resolved s') \/
  (exists code, varchar n s = Rejected (DatabaseError code)).
Proof.
  unfold varchar. destruct (text_ok n s); [left; eexists; reflexivity|].
  destruct (has_nul s); [right; eexists; reflexivity|].
  destruct (only_blanks _); [left | right]; eexists; reflexivity.
Qed.

Lemma coerce_fits (c : Column) (d : Datos.t) :
  column_fits c d = true -> coerce c (column_param c d) = Resolved (column_param c d).
Proof.
  destruct d as [nombre tipo marca precio stock xid xcreado_en].
  destruct c; cbn [column_fits column_param Datos.nombre Datos.tipo Datos.marca
    Datos.precio Datos.stock Datos.id Datos.creado_en];
    match goal with
    | |- context [prepare_text ?f] => destruct f
    | |- context [prepare_num ?f] => destruct f
    end;
    cbn [text_fits price_fits int_fits prepare_text prepare_num coerce coerce_number];
    intros H; rewrite ?H, ?(varchar_fits _ _ H); reflexivity.
Qed.

Lemma coerce_values_fits (cs : list Column) (d : Datos.t) :
  forallb (fun c => column_fits c d) cs = true ->
  coerce_values (data_values cs d) = Resolved (data_values cs d).
Proof.
  unfold data_values. induction cs as [|c cs IH]; cbn [forallb filter map];
    [reflexivity|].
  intros H. apply andb_prop in H. destruct H as [Hc Hcs].
  destruct (column_defined c d); [|exact (IH Hcs)].
  cbn [map coerce_values]. rewrite (coerce_fits c d Hc), (IH Hcs). reflexivity.
Qed.

(** ** What the two update functions compute *)

Lemma pool_query_PG (q : Statement) (params : list Param) (tb : Table.t) :
  pool_query PG.scope q params tb = execute q params tb.
Proof. reflexivity. Qed.

(** The SET fragments of PG.update, evaluated on their values: the
    properties that are given, among the five, each for its column. *)
Lemma PG_build_values (id : Z) (d : Datos.t) (r : Componente.t) :
  eval_all (PG.fields (PG.build d)) (PG.values (PG.build d) ++ [PNum id]) r =
  Resolved (data_values all_columns d).
Proof. by_fields d; reflexivity. Qed.

Lemma PG_build_no_key (d : Datos.t) :
  (List.length (PG.fields (PG.build d)) =? 0)%nat = no_key d.
Proof. by_fields d; reflexivity. Qed.

Lemma PG_build_not_id (d : Datos.t) :
  existsb (fun ce => Column_eqb Cid (fst ce)) (PG.fields (PG.build d)) = false.
Proof. by_fields d; reflexivity. Qed.

Lemma PG_build_assigned_once (d : Datos.t) :
  assigned_once (PG.fields (PG.build d)) = true.
Proof. by_fields d; reflexivity. Qed.

Lemma PG_build_id (id : Z) (d : Datos.t) :
  bind_param (PG.values (PG.build d) ++ [PNum id]) (PG.i (PG.build d)) =
  Resolved (PNum id).
Proof. by_fields d; reflexivity. Qed.

Lemma PG_build_some_key (d : Datos.t) :
  no_key d = false -> PG.fields (PG.build d) <> [].
Proof. by_fields d; cbn; intros H; try discriminate H; discriminate. Qed.

(** The dynamic SQL of PG.update: with no key supplied it is getById;
    otherwise the placeholders line up, [$i] is the id, and the statement is
    the SET clause of the supplied keys on the rows with that id. *)
Lemma PG_update_unfold (id : Z) (d : Datos.t) (tb : Table.t) :
  PG.update id d tb =
  if no_key d then PG.getById id tb
  else
    match update_rows (set_clause d) (Some id) (Table.rows tb) with
    | Rejected e => (Rejected e, tb)
    | Resolved (rs', returned) =>
        (Resolved (nullish_null (first_row returned)), Table.with_rows rs' tb)
    end.
Proof.
  unfold PG.update. cbv zeta. rewrite PG_build_no_key.
  destruct (no_key d) eqn:Hk; [reflexivity|].
  unfold await. rewrite pool_query_PG. unfold execute.
  pose proof (PG_build_some_key d Hk) as Hsome.
  destruct (PG.fields (PG.build d)) as [|ce sets] eqn:Hsets; [contradiction|].
  rewrite <- Hsets. rewrite PG_build_assigned_once, PG_build_id, PG_build_not_id.
  cbn [negb obind as_num orb].
  rewrite (update_rows_ext _ (set_clause d)).
  - destruct (update_rows _ _ _) as [[rs' returned]|]; reflexivity.
  - intros r. unfold set_columns. rewrite PG_build_values. reflexivity.
Qed.

(** Prisma.update hands the model the five properties it reads, and no
    other. *)
Lemma Prisma_update_unfold (id : Z) (d : Datos.t) (tb : Table.t) :
  Prisma.update id d tb = Model.update id (read_by_the_repository d) tb.
Proof. by_fields d; reflexivity. Qed.

Lemma Model_patch_read (d : Datos.t) (r : Componente.t) :
  Model.patch (read_by_the_repository d) r = as_the_client_reports (set_clause d r).
Proof. by_fields d; reflexivity. Qed.

Lemma Model_validate_read (d : Datos.t) :
  Model.validate (read_by_the_repository d) =
  if admissible d then Resolved tt else Rejected PrismaClientValidationError.
Proof. by_fields d; reflexivity. Qed.

(** Prisma.update, through the client: the validation of the payload, the
    record to update, and the same SET clause on its row. *)
Lemma Prisma_update_by_set_clause (id : Z) (d : Datos.t) (tb : Table.t) :
  Prisma.update id d tb =
  if admissible d then
    match find (id_is (Some id)) (Table.rows tb) with
    | None => (Rejected (PrismaClientKnownRequestError Model.record_not_found), tb)
    | Some _ =>
        match update_rows (fun r => as_the_client_reports (set_clause d r))
                (Some id) (Table.rows tb) with
        | Rejected e => (Rejected e, tb)
        | Resolved (rs', returned) =>
            (Resolved (first_row returned), Table.with_rows rs' tb)
        end
    end
  else (Rejected PrismaClientValidationError, tb).
Proof.
  rewrite Prisma_update_unfold. unfold Model.update. rewrite Model_validate_read.
  destruct (admissible d); [|reflexivity].
  destruct (find _ _); [|reflexivity].
  rewrite (update_rows_ext _ _ _ _ (Model_patch_read d)).
  destruct (update_rows _ _ _) as [[rs' returned]|]; reflexivity.
Qed.

Lemma PG_getById_unfold (id : Z) (tb : Table.t) :
  PG.getById id tb =
  (Resolved match find (id_is (Some id)) (Table.rows tb) with
            | Some r => JObject r
            | None => JNull
            end, tb).
Proof.
  unfold PG.getById, await. rewrite pool_query_PG. cbn.
  rewrite first_row_filter. destruct (find _ _); reflexivity.
Qed.

(** The values of an admissible field object, stored in a row. *)
Lemma assign_all_admissible (d : Datos.t) (r : Componente.t) :
  admissible d = true ->
  assign_all (data_values all_columns d) r = Resolved (presence_update d r).
Proof. by_fields d; cbn; intros H; try discriminate H; destruct r; reflexivity. Qed.

(** A null for a NOT NULL column is refused when it is stored. *)
Lemma assign_all_refused (d : Datos.t) (r : Componente.t) :
  admissible d = false ->
  assign_all (data_values all_columns d) r = Rejected (DatabaseError not_null_violation).
Proof. by_fields d; cbn; intros H; try discriminate H; reflexivity. Qed.

(** On an admissible field object within the capacity of the columns the SET
    clause is the presence-based update of the row. *)
Lemma set_clause_admissible (d : Datos.t) (r : Componente.t) :
  admissible d = true -> within_capacity d = true ->
  set_clause d r = Resolved (presence_update d r).
Proof.
  intros Hd Hc. unfold set_clause, write_values.
  rewrite (coerce_values_fits all_columns d Hc). cbn [obind].
  exact (assign_all_admissible d r Hd).
Qed.

Lemma set_clause_refused (d : Datos.t) (r : Componente.t) :
  admissible d = false -> within_capacity d = true ->
  set_clause d r = Rejected (DatabaseError not_null_violation).
Proof.
  intros Hd Hc. unfold set_clause, write_values.
  rewrite (coerce_values_fits all_columns d Hc). cbn [obind].
  exact (assign_all_refused d r Hd).
Qed.

(** Whatever the field object, the SET clause either fails on every row with
    the same error, or rewrites every row by one function, which keeps the id
    and the creation time and changes nothing when applied again. *)
Lemma set_clause_uniform (d : Datos.t) :
  (exists e, forall r, set_clause d r = Rejected e) \/
  (exists g, (forall r, set_clause d r = Resolved (g r)) /\
             (forall r, g (g r) = g r) /\
             (forall r, identity (g r) = identity r)).
Proof.
  by_fields d; unfold set_clause, write_values, data_values;
    cbn [all_columns filter map column_defined column_param is_defined
      Datos.nombre Datos.tipo Datos.marca Datos.precio Datos.stock
      prepare_text prepare_num coerce_values coerce coerce_number obind];
    repeat (match goal with
            | |- context [varchar ?n ?s] => destruct (varchar n s)
            | |- context [numeric_10_2 ?z] => destruct (numeric_10_2 z)
            | |- context [int4 ?z] => destruct (int4 z)
            end; cbn [obind]);
    first [ left; eexists; intros r; reflexivity
          | right; eexists (fun r => _); split; [intros r; cbn; reflexivity|];
            split; intros r; destruct r; reflexivity ].
Qed.

(** The SET clause keeps the identity of the row it rewrites. *)
Lemma set_clause_identity (d : Datos.t) (r r' : Componente.t) :
  set_clause d r = Resolved r' -> identity r' = identity r.
Proof.
  destruct (set_clause_uniform d) as [[e He] | [g [Hg [_ Hid]]]].
  - rewrite He. discriminate.
  - rewrite Hg. intros H. injection H as <-. apply Hid.
Qed.

(** Applied to its own result, it gives that result again. *)
Lemma set_clause_twice (d : Datos.t) (r r' : Componente.t) :
  set_clause d r = Resolved r' -> set_clause d r' = Resolved r'.
Proof.
  destruct (set_clause_uniform d) as [[e He] | [g [Hg [Hgg _]]]].
  - rewrite He. discriminate.
  - rewrite !Hg. intros H. injection H as <-. rewrite Hgg. reflexivity.
Qed.

Lemma as_the_client_reports_resolved {A} (o : Outcome A) (a : A) :
  as_the_client_reports o = Resolved a -> o = Resolved a.
Proof. destruct o; cbn; [trivial | discriminate]. Qed.

Lemma identity_id (r r' : Componente.t) :
  identity r' = identity r -> Componente.id r' = Componente.id r.
Proof. unfold identity. intros H. injection H as H _. exact H. Qed.

Lemma presence_update_id (d : Datos.t) (r : Componente.t) :
  Componente.id (presence_update d r) = Componente.id r.
Proof. reflexivity. Qed.

Lemma presence_update_no_key (d : Datos.t) (r : Componente.t) :
  no_key d = true -> presence_update d r = r.
Proof. by_fields d; cbn; intros H; try discriminate H. destruct r; reflexivity. Qed.

Lemma presence_update_table_no_key (id : Z) (d : Datos.t) (tb : Table.t) :
  no_key d = true -> presence_update_table id d tb = tb.
Proof.
  intros H. unfold presence_update_table.
  replace (map _ (Table.rows tb)) with (Table.rows tb); [apply with_rows_same|].
  induction (Table.rows tb) as [|r rs IH]; cbn [map]; [reflexivity|].
  rewrite <- IH, (presence_update_no_key d r H). destruct (id_is _ r); reflexivity.
Qed.

Lemma no_key_admissible (d : Datos.t) : no_key d = true -> admissible d = true.
Proof. by_fields d; cbn; intros H; try discriminate H; reflexivity. Qed.

(** The row an update of an existing id hands back. *)
Lemma returned_row (g : Componente.t -> Componente.t) (id : Z)
    (rs : list Componente.t) (r : Componente.t) :
  find (id_is (Some id)) rs = Some r ->
  first_row (map g (filter (id_is (Some id)) rs)) = JObject (g r).
Proof. intros H. destruct (filter_find _ _ _ H) as [rest ->]. reflexivity. Qed.

(** What the presence-based update does, column by column. *)
Lemma presence_update_columns (d : Datos.t) (r : Componente.t) :
  let r' := presence_update d r in
  (Datos.nombre d = Undefined -> Componente.nombre r' = Componente.nombre r) /\
  (forall v, Datos.nombre d = Val v -> Componente.nombre r' = v) /\
  (Datos.tipo d = Undefined -> Componente.tipo r' = Componente.tipo r) /\
  (forall v, Datos.tipo d = Val v -> Componente.tipo r' = v) /\
  (Datos.marca d = Undefined -> Componente.marca r' = Componente.marca r) /\
  (Datos.marca d = Null -> Componente.marca r' = None) /\
  (forall v, Datos.marca d = Val v -> Componente.marca r' = Some v) /\
  (Datos.precio d = Undefined -> Componente.precio r' = Componente.precio r) /\
  (forall v, Datos.precio d = Val v -> Componente.precio r' = v) /\
  (Datos.stock d = Undefined -> Componente.stock r' = Componente.stock r) /\
  (forall v, Datos.stock d = Val v -> Componente.stock r' = v) /\
  Componente.id r' = Componente.id r /\
  Componente.creado_en r' = Componente.creado_en r.
Proof.
  cbv zeta. unfold presence_update. cbn [Componente.nombre Componente.tipo
    Componente.marca Componente.precio Componente.stock Componente.id
    Componente.creado_en].
  repeat split; intros; match goal with
                        | H : _ = _ |- _ => rewrite H
                        end; reflexivity.
Qed.

(** On an existing id and an admissible field object within the capacity of
    the columns, PG.update is the presence-based update. *)
Lemma PG_update_existing (id : Z) (d : Datos.t) (tb : Table.t) (r : Componente.t) :
  find (id_is (Some id)) (Table.rows tb) = Some r ->
  admissible d = true ->
  within_capacity d = true ->
  PG.update id d tb =
  (Resolved (JObject (presence_update d r)), presence_update_table id d tb).
Proof.
  intros Hr Hd Hc. rewrite PG_update_unfold. destruct (no_key d) eqn:Hk.
  - rewrite PG_getById_unfold, Hr, presence_update_no_key, presence_update_table_no_key
      by assumption. reflexivity.
  - rewrite (update_rows_resolved _ (presence_update d))
      by (intros x; apply set_clause_admissible; assumption).
    rewrite (returned_row _ _ _ _ Hr). reflexivity.
Qed.

(** So is Prisma.update. *)
Lemma Prisma_update_existing (id : Z) (d : Datos.t) (tb : Table.t) (r : Componente.t) :
  find (id_is (Some id)) (Table.rows tb) = Some r ->
  admissible d = true ->
  within_capacity d = true ->
  Prisma.update id d tb =
  (Resolved (JObject (presence_update d r)), presence_update_table id d tb).
Proof.
  intros Hr Hd Hc. rewrite Prisma_update_by_set_clause, Hd, Hr.
  rewrite (update_rows_resolved _ (presence_update d))
    by (intros x; rewrite set_clause_admissible by assumption; reflexivity).
  rewrite (returned_row _ _ _ _ Hr). reflexivity.
Qed.

(** The empty string is a value like any other. *)
Example update_to_the_empty_string :
  PG.update 1 (Datos.set_marca (Val "") Datos.empty) seeded =
    (Resolved (JObject (Componente.mk 1 "Ryzen 5 5600" "CPU" (Some "") 12999 12 0)),
     presence_update_table 1 (Datos.set_marca (Val "") Datos.empty) seeded).
Proof.
  exact (PG_update_existing 1 (Datos.set_marca (Val "") Datos.empty) seeded ryzen
           eq_refl eq_refl eq_refl).
Qed.

(** A value beyond the capacity of its column is refused by the store, and
    nothing is written; the client reports it as its own error.  The values
    are brought to the types of their columns before NOT NULL is checked, so
    beside a null for nombre the error of the store is still that of the
    value beyond capacity. *)
Example update_beyond_capacity :
  within_capacity stock_excesivo = false /\
  PG.update 1 stock_excesivo seeded =
    (Rejected (DatabaseError numeric_value_out_of_range), seeded) /\
  Prisma.update 1 stock_excesivo seeded =
    (Rejected (PrismaClientKnownRequestError Model.value_out_of_range), seeded) /\
  admissible nombre_null_stock_excesivo = false /\
  PG.update 1 nombre_null_stock_excesivo seeded =
    (Rejected (DatabaseError numeric_value_out_of_range), seeded) /\
  Prisma.update 1 nombre_null_stock_excesivo seeded =
    (Rejected PrismaClientValidationError, seeded).
Proof. repeat split; reflexivity. Qed.

(** The model itself writes an id and a creation time it is given: that
    update leaves them alone is due to the repository, which hands the model
    the five properties and no other. *)
Example model_update_writes_id_and_creado_en :
  Componente.id ryzen = 1 /\ Componente.creado_en ryzen = 0 /\
  fst (Model.update 1 con_id seeded) =
    Resolved (JObject (Componente.mk 7 "Ryzen 5 5600" "CPU" (Some "AMD") 5000 12 99)) /\
  fst (Prisma.update 1 con_id seeded) =
    Resolved (JObject (Componente.mk 1 "Ryzen 5 5600" "CPU" (Some "AMD") 5000 12 0)) /\
  fst (PG.update 1 con_id seeded) =
    Resolved (JObject (Componente.mk 1 "Ryzen 5 5600" "CPU" (Some "AMD") 5000 12 0)).
Proof. repeat split; reflexivity. Qed.

(** With no field supplied, update of an existing id is a read in both
    strategies. *)
Lemma update_without_fields_existing (id : Z) (tb : Table.t) (r : Componente.t) :
  find (id_is (Some id)) (Table.rows tb) = Some r ->
  PG.update id Datos.empty tb = (Resolved (JObject r), tb) /\
  Prisma.update id Datos.empty tb = (Resolved (JObject r), tb).
Proof.
  intros Hr.
  rewrite (PG_update_existing id Datos.empty tb r Hr eq_refl eq_refl).
  rewrite (Prisma_update_existing id Datos.empty tb r Hr eq_refl eq_refl).
  rewrite (presence_update_no_key Datos.empty r eq_refl).
  rewrite (presence_update_table_no_key id Datos.empty tb eq_refl).
  split; reflexivity.
Qed.

(** On an id that matches no row PG.update resolves with null and writes
    nothing, whatever the field object. *)
Lemma PG_update_missing (id : Z) (d : Datos.t) (tb : Table.t) :
  find (id_is (Some id)) (Table.rows tb) = None ->
  PG.update id d tb = (Resolved JNull, tb).
Proof.
  intros Hr. rewrite PG_update_unfold. destruct (no_key d).
  - rewrite PG_getById_unfold, Hr. reflexivity.
  - rewrite (update_rows_no_match _ _ _ Hr). rewrite with_rows_same. reflexivity.
Qed.

(** On such an id Prisma.update rejects: the client's error for a record
    that does not exist. *)
Lemma Prisma_update_missing (id : Z) (d : Datos.t) (tb : Table.t) :
  find (id_is (Some id)) (Table.rows tb) = None ->
  admissible d = true ->
  Prisma.update id d tb =
  (Rejected (PrismaClientKnownRequestError Model.record_not_found), tb).
Proof.
  intros Hr Hd. rewrite Prisma_update_by_set_clause, Hd, Hr. reflexivity.
Qed.

(** ** remove *)

Lemma PG_remove_unfold (id : Z) (tb : Table.t) :
  PG.remove id tb =
  (Resolved (JBool (existsb (id_is (Some id)) (Table.rows tb))),
   Table.with_rows (filter (fun r => negb (id_is (Some id) r)) (Table.rows tb)) tb).
Proof.
  unfold PG.remove, await. rewrite pool_query_PG. unfold execute.
  cbn [bind_param nth_error obind as_num Result.of_rows Result.rowCount ret].
  rewrite count_filter_positive. reflexivity.
Qed.

(** PG.remove never rejects; it answers true exactly when a row had the id,
    and no row has it afterwards, so a second remove answers false. *)
Lemma PG_remove_boolean (id : Z) (tb : Table.t) :
  exists b tb',
    PG.remove id tb = (Resolved (JBool b), tb') /\
    (b = true <-> exists r, In r (Table.rows tb) /\ Componente.id r = id) /\
    find (id_is (Some id)) (Table.rows tb') = None /\
    PG.remove id tb' = (Resolved (JBool false), tb').
Proof.
  rewrite PG_remove_unfold. do 2 eexists. split; [reflexivity|].
  split; [|split].
  - rewrite existsb_exists. split; intros [r [Hin H]]; exists r; split; auto;
      simpl in *; lia.
  - apply find_after_delete.
  - rewrite PG_remove_unfold. cbn [Table.rows Table.with_rows].
    rewrite existsb_find, find_after_delete.
    destruct (filter_none _ _ (find_after_delete (id_is (Some id)) (Table.rows tb)))
      as [_ ->].
    reflexivity.
Qed.

Lemma PG_remove_missing (id : Z) (tb : Table.t) :
  find (id_is (Some id)) (Table.rows tb) = None ->
  PG.remove id tb = (Resolved (JBool false), tb).
Proof.
  intros Hr. rewrite PG_remove_unfold, existsb_find, Hr.
  destruct (filter_none _ _ Hr) as [_ ->]. rewrite with_rows_same. reflexivity.
Qed.

Lemma nothing_left_to_delete (id : Z) (tb : Table.t) :
  find (id_is (Some id)) (Table.rows (deleted id tb)) = None.
Proof. apply find_after_delete. Qed.

Lemma Prisma_remove_existing (id : Z) (tb : Table.t) (r : Componente.t) :
  find (id_is (Some id)) (Table.rows tb) = Some r ->
  Prisma.remove id tb =
  (Resolved (JBool true),
   Table.with_rows (filter (fun r => negb (id_is (Some id) r)) (Table.rows tb)) tb).
Proof.
  intros Hr. unfold Prisma.remove, await, Model.delete. rewrite Hr. reflexivity.
Qed.

Lemma Prisma_remove_missing (id : Z) (tb : Table.t) :
  find (id_is (Some id)) (Table.rows tb) = None ->
  Prisma.remove id tb =
  (Rejected (PrismaClientKnownRequestError Model.record_not_found), tb).
Proof.
  intros Hr. unfold Prisma.remove, await, Model.delete. rewrite Hr. reflexivity.
Qed.

(** ** getAll and getById: ORDER BY id ASC *)

Lemma insert_by_id_permutation (r : Componente.t) (rs : list Componente.t) :
  Permutation (r :: rs) (insert_by_id r rs).
Proof.
  induction rs as [|x rs IH]; cbn [insert_by_id]; [apply Permutation_refl|].
  destruct (Componente.id r <=? Componente.id x); [apply Permutation_refl|].
  eapply perm_trans; [apply perm_swap | apply perm_skip, IH].
Qed.

Lemma order_by_id_permutation (rs : list Componente.t) :
  Permutation rs (order_by_id rs).
Proof.
  induction rs as [|r rs IH]; cbn [order_by_id]; [constructor|].
  eapply perm_trans; [apply perm_skip, IH | apply insert_by_id_permutation].
Qed.

Lemma insert_by_id_head (a r : Componente.t) (rs : list Componente.t) :
  id_le a r -> HdRel id_le a rs -> HdRel id_le a (insert_by_id r rs).
Proof.
  intros Har Hrs. destruct rs as [|x rs]; cbn [insert_by_id].
  - constructor. exact Har.
  - destruct (Componente.id r <=? Componente.id x); constructor;
      [exact Har | inversion Hrs; assumption].
Qed.

Lemma insert_by_id_sorted (r : Componente.t) (rs : list Componente.t) :
  Sorted id_le rs -> Sorted id_le (insert_by_id r rs).
Proof.
  induction rs as [|x rs IH]; cbn [insert_by_id]; intros Hs.
  - repeat constructor.
  - destruct (Componente.id r <=? Componente.id x) eqn:E.
    + constructor; [exact Hs | constructor; unfold id_le; lia].
    + inversion Hs as [|? ? Hs' Hh]; subst. constructor; [apply IH, Hs'|].
      apply insert_by_id_head; [unfold id_le; lia | exact Hh].
Qed.

Lemma order_by_id_sorted (rs : list Componente.t) : Sorted id_le (order_by_id rs).
Proof.
  induction rs as [|r rs IH]; cbn [order_by_id]; [constructor|].
  apply insert_by_id_sorted, IH.
Qed.

(** PG.getAll never rejects and writes nothing: it resolves with the array of
    all the rows in ascending order of id, the empty array on an empty table. *)
Lemma PG_getAll_ordered (tb : Table.t) :
  exists rows,
    PG.getAll tb = (Resolved (JArray rows), tb) /\
    Permutation (Table.rows tb) rows /\ Sorted id_le rows /\
    (Table.rows tb = [] -> rows = []).
Proof.
  exists (order_by_id (Table.rows tb)). split; [reflexivity|].
  split; [apply order_by_id_permutation|]. split; [apply order_by_id_sorted|].
  intros ->. reflexivity.
Qed.

Example getAll_on_empty_table : PG.getAll empty_table = (Resolved (JArray []), empty_table).
Proof. reflexivity. Qed.

Example getAll_on_seeded_table :
  PG.getAll seeded = (Resolved (JArray (seed_rows 0)), seeded).
Proof. reflexivity. Qed.

(** ** Where the two strategies agree

    On the column values of the rows they resolve with, that is: how the
    driver and the client render a NUMERIC in JavaScript is not represented. *)

Lemma getAll_same (tb : Table.t) : PG.getAll tb = Prisma.getAll tb.
Proof. reflexivity. Qed.

Lemma getById_same (id : Z) (tb : Table.t) : PG.getById id tb = Prisma.getById id tb.
Proof.
  rewrite PG_getById_unfold. unfold Prisma.getById, Model.findUnique.
  destruct (find _ _); reflexivity.
Qed.

Lemma update_same_on_existing (id : Z) (d : Datos.t) (tb : Table.t) (r : Componente.t) :
  find (id_is (Some id)) (Table.rows tb) = Some r ->
  admissible d = true ->
  within_capacity d = true ->
  PG.update id d tb = Prisma.update id d tb.
Proof.
  intros Hr Hd Hc.
  rewrite (PG_update_existing _ _ _ _ Hr Hd Hc), (Prisma_update_existing _ _ _ _ Hr Hd Hc).
  reflexivity.
Qed.

Lemma remove_same_on_existing (id : Z) (tb : Table.t) (r : Componente.t) :
  find (id_is (Some id)) (Table.rows tb) = Some r ->
  PG.remove id tb = Prisma.remove id tb.
Proof.
  intros Hr. rewrite PG_remove_unfold, (Prisma_remove_existing _ _ _ Hr).
  rewrite existsb_find, Hr. reflexivity.
Qed.

(** ** create *)

Lemma sequence_value_is_fresh (tb : Table.t) :
  ids_from_sequence tb = true ->
  existsb (id_is (Some (Table.id_seq tb + 1))) (Table.rows tb) = false.
Proof.
  unfold ids_from_sequence. induction (Table.rows tb) as [|r rs IH];
    cbn [map forallb existsb id_is]; intros H; [reflexivity|].
  apply andb_true_iff in H. destruct H as [Hr Hrs]. rewrite (IH Hrs).
  destruct (Z.eqb_spec (Componente.id r) (Table.id_seq tb + 1)); [lia | reflexivity].
Qed.

Lemma next_id_is_free_from_sequence (tb : Table.t) :
  ids_from_sequence tb = true -> int4 (Table.id_seq tb + 1) = true ->
  next_id_is_free tb = true.
Proof.
  intros H Hnext. unfold next_id_is_free.
  rewrite Hnext, (sequence_value_is_fresh tb H). reflexivity.
Qed.

(** The INSERT of PG.create: the five values are brought to the types of
    their columns; then the sequence gives the id, the values are stored
    under NOT NULL, and the primary key is checked. *)
Lemma PG_create_unfold (d : Datos.t) (tb : Table.t) :
  PG.create d tb =
  match coerce_values (create_values d) with
  | Rejected e => (Rejected e, tb)
  | Resolved vals =>
      if int4 (Table.id_seq tb + 1) then
        match assign_all vals (new_row (Table.nextval tb)) with
        | Rejected e => (Rejected e, Table.nextval tb)
        | Resolved r =>
            if existsb (id_is (Some (Componente.id r))) (Table.rows tb)
            then (Rejected (DatabaseError unique_violation), Table.nextval tb)
            else (Resolved (JObject r),
                  Table.with_rows (Table.rows tb ++ [r]) (Table.nextval tb))
        end
      else (Rejected (DatabaseError sequence_generator_limit_exceeded), tb)
  end.
Proof.
  unfold PG.create, await. cbv zeta. rewrite pool_query_PG. unfold execute.
  cbn [eval_all insert_values eval bind_param nth_error obind].
  fold (create_values d).
  destruct (coerce_values (create_values d)) as [vals|]; [|reflexivity].
  unfold nextval. destruct (int4 (Table.id_seq tb + 1)); [|reflexivity].
  destruct (assign_all vals _) as [r|]; [|reflexivity].
  cbn [Table.rows Table.nextval].
  destruct (existsb _ _); reflexivity.
Qed.

(** What Prisma.create hands the model: the five properties, with the
    defaults, and no other. *)
Lemma Prisma_create_payload (d : Datos.t) (tb : Table.t) :
  Prisma.create d tb =
  Model.create
    (Datos.mk (Datos.nombre d) (Datos.tipo d) (with_default (Datos.marca d) Null)
       (with_default (Datos.precio d) (Val 0)) (with_default (Datos.stock d) (Val 0))
       Undefined Undefined) tb.
Proof. reflexivity. Qed.

Lemma Model_validate_create_payload (d : Datos.t) :
  Model.validate_create
    (Datos.mk (Datos.nombre d) (Datos.tipo d) (with_default (Datos.marca d) Null)
       (with_default (Datos.precio d) (Val 0)) (with_default (Datos.stock d) (Val 0))
       Undefined Undefined) =
  if complete d then Resolved tt else Rejected PrismaClientValidationError.
Proof. by_fields d; reflexivity. Qed.

Lemma Model_create_payload_values (d : Datos.t) :
  complete d = true ->
  data_values Model.fields
    (Datos.mk (Datos.nombre d) (Datos.tipo d) (with_default (Datos.marca d) Null)
       (with_default (Datos.precio d) (Val 0)) (with_default (Datos.stock d) (Val 0))
       Undefined Undefined) =
  create_values d.
Proof. by_fields d; intros H; try discriminate H; reflexivity. Qed.

(** Prisma.create: the client's validation first, then the same. *)
Lemma Prisma_create_unfold (d : Datos.t) (tb : Table.t) :
  Prisma.create d tb =
  if complete d then
    match coerce_values (create_values d) with
    | Rejected e => (Rejected (Model.client_error e), tb)
    | Resolved vals =>
        if int4 (Table.id_seq tb + 1) then
          match assign_all vals (new_row (Table.nextval tb)) with
          | Rejected e => (Rejected (Model.client_error e), Table.nextval tb)
          | Resolved r =>
              if existsb (id_is (Some (Componente.id r))) (Table.rows tb)
              then (Rejected (PrismaClientKnownRequestError Model.unique_constraint_failed),
                    Table.nextval tb)
              else (Resolved (JObject r),
                    Table.with_rows (Table.rows tb ++ [r]) (Table.nextval tb))
          end
        else (Rejected (PrismaClientKnownRequestError Model.raw_query_failed), tb)
    end
  else (Rejected PrismaClientValidationError, tb).
Proof.
  rewrite Prisma_create_payload. unfold Model.create.
  rewrite Model_validate_create_payload.
  destruct (complete d) eqn:Hd; [|reflexivity].
  rewrite (Model_create_payload_values d Hd). cbn [Datos.id is_defined].
  destruct (coerce_values (create_values d)) as [vals|]; [|reflexivity].
  unfold nextval. destruct (int4 (Table.id_seq tb + 1)); [|reflexivity].
  destruct (assign_all vals _) as [r|]; [|reflexivity].
  cbn [Table.rows Table.nextval].
  destruct (existsb _ _); reflexivity.
Qed.

(** The values of a creatable field object go to their columns as they
    are. *)
Lemma create_values_fit (d : Datos.t) :
  creatable d = true -> coerce_values (create_values d) = Resolved (create_values d).
Proof.
  unfold creatable. intros H. apply andb_prop in H. destruct H as [Hd Hc].
  by_fields d; try discriminate Hd;
    cbn [within_capacity all_columns forallb column_fits text_fits price_fits
      int_fits Datos.nombre Datos.tipo Datos.marca Datos.precio Datos.stock] in Hc;
    repeat match goal with
           | H : _ && _ = true |- _ => apply andb_prop in H; destruct H
           end;
    cbn [create_values coerce_values coerce coerce_number with_default prepare_text
      prepare_num Datos.nombre Datos.tipo Datos.marca Datos.precio Datos.stock];
    repeat match goal with
           | H : text_ok ?n ?s = true |- _ => rewrite (varchar_fits n s H)
           | H : numeric_10_2 _ = true |- _ => rewrite H
           | H : int4 _ = true |- _ => rewrite H
           end;
    reflexivity.
Qed.

(** Stored in the row the INSERT starts from, they give the row to create. *)
Lemma create_values_stored (d : Datos.t) (tb : Table.t) :
  complete d = true ->
  assign_all (create_values d) (new_row (Table.nextval tb)) = Resolved (row_of tb d).
Proof. by_fields d; intros H; try discriminate H; reflexivity. Qed.

(** A creatable field object, on a table where the next value of the
    sequence is the id of no row, is stored as its row by PG.create. *)
Lemma PG_create_stores (d : Datos.t) (tb : Table.t) :
  creatable d = true -> next_id_is_free tb = true ->
  PG.create d tb = (Resolved (JObject (row_of tb d)), inserted (row_of tb d) tb).
Proof.
  intros Hd Hfree. rewrite PG_create_unfold, (create_values_fit d Hd).
  unfold creatable in Hd. apply andb_prop in Hd. destruct Hd as [Hd _].
  rewrite (create_values_stored d tb Hd). cbv match.
  unfold next_id_is_free in Hfree. apply andb_prop in Hfree.
  destruct Hfree as [Hnext Hfree]. apply negb_true_iff in Hfree.
  change (Componente.id (row_of tb d)) with (Table.id_seq tb + 1).
  rewrite Hnext, Hfree. reflexivity.
Qed.

(** And by Prisma.create. *)
Lemma Prisma_create_stores (d : Datos.t) (tb : Table.t) :
  creatable d = true -> next_id_is_free tb = true ->
  Prisma.create d tb = (Resolved (JObject (row_of tb d)), inserted (row_of tb d) tb).
Proof.
  intros Hd Hfree. rewrite Prisma_create_unfold, (create_values_fit d Hd).
  unfold creatable in Hd. apply andb_prop in Hd. destruct Hd as [Hd _].
  rewrite Hd, (create_values_stored d tb Hd). cbv match.
  unfold next_id_is_free in Hfree. apply andb_prop in Hfree.
  destruct Hfree as [Hnext Hfree]. apply negb_true_iff in Hfree.
  change (Componente.id (row_of tb d)) with (Table.id_seq tb + 1).
  rewrite Hnext, Hfree. reflexivity.
Qed.

(** Without nombre or tipo, the other values within the capacity of their
    columns and the sequence not at its end, the INSERT of PG.create is
    refused by the NOT NULL constraint: the promise rejects with the driver's
    error, the sequence has moved on, and no row is stored. *)
Lemma PG_create_missing (d : Datos.t) (tb : Table.t) :
  Datos.nombre d = Undefined \/ Datos.tipo d = Undefined ->
  within_capacity d = true ->
  int4 (Table.id_seq tb + 1) = true ->
  PG.create d tb = (Rejected (DatabaseError not_null_violation), Table.nextval tb).
Proof.
  intros Hm Hc Hnext. rewrite PG_create_unfold, Hnext.
  by_fields d; destruct Hm as [Hm|Hm]; try discriminate Hm;
    cbn [within_capacity all_columns forallb column_fits text_fits price_fits
      int_fits Datos.nombre Datos.tipo Datos.marca Datos.precio Datos.stock] in Hc;
    repeat match goal with
           | H : _ && _ = true |- _ => apply andb_prop in H; destruct H
           end;
    cbn [create_values coerce_values coerce coerce_number with_default prepare_text
      prepare_num Datos.nombre Datos.tipo Datos.marca Datos.precio Datos.stock];
    repeat match goal with
           | H : text_ok ?n ?s = true |- _ => rewrite (varchar_fits n s H)
           | H : numeric_10_2 _ = true |- _ => rewrite H
           | H : int4 _ = true |- _ => rewrite H
           end;
    reflexivity.
Qed.

(** Whatever the other values, it is refused with an error of the store, and
    no row is stored. *)
Lemma PG_create_missing_any (d : Datos.t) (tb : Table.t) :
  Datos.nombre d = Undefined \/ Datos.tipo d = Undefined ->
  exists code tb',
    PG.create d tb = (Rejected (DatabaseError code), tb') /\
    Table.rows tb' = Table.rows tb.
Proof.
  intros Hm. rewrite PG_create_unfold.
  by_fields d; destruct Hm as [Hm|Hm]; try discriminate Hm;
    cbn [create_values coerce_values coerce coerce_number with_default prepare_text
      prepare_num Datos.nombre Datos.tipo Datos.marca Datos.precio Datos.stock obind];
    repeat (match goal with
            | |- context [varchar ?n ?s] => destruct (varchar_cases n s) as [[? ->] | [? ->]]
            | |- context [numeric_10_2 ?z] => destruct (numeric_10_2 z)
            | |- context [int4 ?z] => destruct (int4 z)
            end; cbn [obind]);
    do 2 eexists; (split; [reflexivity|]); reflexivity.
Qed.

(** Prisma.create is refused by the client before the store is reached. *)
Lemma Prisma_create_missing (d : Datos.t) (tb : Table.t) :
  Datos.nombre d = Undefined \/ Datos.tipo d = Undefined ->
  Prisma.create d tb = (Rejected PrismaClientValidationError, tb).
Proof. by_fields d; intros [H|H]; try discriminate H; reflexivity. Qed.

(** The sequence invariant is kept by what the repository does to the table. *)
Lemma inserted_from_sequence (r : Componente.t) (tb : Table.t) :
  Componente.id r = Table.id_seq tb + 1 ->
  ids_from_sequence tb = true ->
  ids_from_sequence (inserted r tb) = true.
Proof.
  unfold ids_from_sequence, inserted. cbn [Table.rows Table.id_seq]. intros Hr H.
  rewrite map_app, forallb_app. apply andb_true_iff. split.
  - rewrite forallb_forall in *. intros i Hi. specialize (H i Hi). lia.
  - cbn [map forallb]. rewrite andb_true_r. lia.
Qed.

(** What is brought to the types of the columns goes to the same columns. *)
Lemma coerce_values_columns (vals vs : list (Column * Param)) :
  coerce_values vals = Resolved vs -> map fst vs = map fst vals.
Proof.
  revert vs. induction vals as [|[c p] vals IH]; cbn [coerce_values]; intros vs H.
  - injection H as <-. reflexivity.
  - destruct (coerce c p); cbn [obind] in H; [|discriminate H].
    destruct (coerce_values vals) as [vs'|]; cbn [obind] in H; [|discriminate H].
    injection H as <-. cbn [map fst]. rewrite (IH vs' eq_refl). reflexivity.
Qed.

(** Values stored in the five columns leave the identity of the row alone. *)
Lemma assign_all_identity (vs : list (Column * Param)) :
  incl (map fst vs) all_columns ->
  forall r r', assign_all vs r = Resolved r' -> identity r' = identity r.
Proof.
  induction vs as [|[c v] vs IH]; cbn [assign_all map fst]; intros Hin r r' H.
  - injection H as <-. reflexivity.
  - destruct (assign c v r) as [r1|] eqn:E; cbn [obind] in H; [|discriminate H].
    rewrite (IH (fun x Hx => Hin x (or_intror Hx)) _ _ H).
    assert (Hc : In c all_columns) by (apply Hin; left; reflexivity).
    destruct c, v; cbn in E, Hc; try discriminate E; try (injection E as <-; reflexivity);
      exfalso; intuition discriminate.
Qed.

(** Whatever the field object, PG.create leaves the table as it was, or with
    the sequence moved on and nothing else, or with one row more, whose id is
    the new value of the sequence. *)
Lemma PG_create_writes (d : Datos.t) (tb : Table.t) :
  ids_from_sequence tb = true ->
  snd (PG.create d tb) = tb \/
  snd (PG.create d tb) = Table.nextval tb \/
  exists r, Componente.id r = Table.id_seq tb + 1 /\ snd (PG.create d tb) = inserted r tb.
Proof.
  intros Hseq. rewrite PG_create_unfold.
  destruct (coerce_values (create_values d)) as [vals|] eqn:Ev; [|left; reflexivity].
  destruct (int4 (Table.id_seq tb + 1)); [|left; reflexivity].
  destruct (assign_all vals _) as [r|] eqn:Er; [|right; left; reflexivity].
  assert (Hid : Componente.id r = Table.id_seq tb + 1).
  { apply (f_equal fst) with (x := identity r) (y := identity (new_row (Table.nextval tb))).
    apply (assign_all_identity vals); [|exact Er].
    rewrite (coerce_values_columns _ _ Ev). apply incl_refl. }
  rewrite Hid, (sequence_value_is_fresh tb Hseq).
  right; right. exists r. split; [exact Hid | reflexivity].
Qed.

(** So does Prisma.create. *)
Lemma Prisma_create_writes (d : Datos.t) (tb : Table.t) :
  ids_from_sequence tb = true ->
  snd (Prisma.create d tb) = tb \/
  snd (Prisma.create d tb) = Table.nextval tb \/
  exists r, Componente.id r = Table.id_seq tb + 1 /\
            snd (Prisma.create d tb) = inserted r tb.
Proof.
  intros Hseq. rewrite Prisma_create_unfold.
  destruct (complete d); [|left; reflexivity].
  destruct (coerce_values (create_values d)) as [vals|] eqn:Ev; [|left; reflexivity].
  destruct (int4 (Table.id_seq tb + 1)); [|left; reflexivity].
  destruct (assign_all vals _) as [r|] eqn:Er; [|right; left; reflexivity].
  assert (Hid : Componente.id r = Table.id_seq tb + 1).
  { apply (f_equal fst) with (x := identity r) (y := identity (new_row (Table.nextval tb))).
    apply (assign_all_identity vals); [|exact Er].
    rewrite (coerce_values_columns _ _ Ev). apply incl_refl. }
  rewrite Hid, (sequence_value_is_fresh tb Hseq).
  right; right. exists r. split; [exact Hid | reflexivity].
Qed.

Lemma nextval_from_sequence (tb : Table.t) :
  ids_from_sequence tb = true -> ids_from_sequence (Table.nextval tb) = true.
Proof.
  unfold ids_from_sequence. cbn [Table.nextval Table.rows Table.id_seq].
  rewrite !forallb_forall. intros H i Hi. specialize (H i Hi). lia.
Qed.

Lemma deleted_from_sequence (id : Z) (tb : Table.t) :
  ids_from_sequence tb = true -> ids_from_sequence (deleted id tb) = true.
Proof.
  unfold ids_from_sequence, deleted. cbn [Table.with_rows Table.rows Table.id_seq].
  rewrite !forallb_forall. intros H i Hi. apply H.
  apply in_map_iff in Hi. destruct Hi as [r [<- Hr]].
  apply in_map, (proj1 (filter_In _ _ _) Hr).
Qed.

(** What create does when the store refuses: a null for stock, a value
    beyond the capacity of its column, an id the table already holds, a
    sequence at its end. *)
Example create_refused :
  PG.create nombre_y_tipo sequence_exhausted =
    (Rejected (DatabaseError sequence_generator_limit_exceeded), sequence_exhausted) /\
  Prisma.create nombre_y_tipo sequence_exhausted =
    (Rejected (PrismaClientKnownRequestError Model.raw_query_failed),
     sequence_exhausted) /\
  PG.create nuevo_con_stock_null seeded =
    (Rejected (DatabaseError not_null_violation), Table.nextval seeded) /\
  Prisma.create nuevo_con_stock_null seeded =
    (Rejected PrismaClientValidationError, seeded) /\
  PG.create nuevo_con_stock_excesivo seeded =
    (Rejected (DatabaseError numeric_value_out_of_range), seeded) /\
  Prisma.create nuevo_con_stock_excesivo seeded =
    (Rejected (PrismaClientKnownRequestError Model.value_out_of_range), seeded) /\
  PG.create nombre_y_tipo seeded_with_id_5 =
    (Rejected (DatabaseError unique_violation), Table.nextval seeded_with_id_5) /\
  Prisma.create nombre_y_tipo seeded_with_id_5 =
    (Rejected (PrismaClientKnownRequestError Model.unique_constraint_failed),
     Table.nextval seeded_with_id_5).
Proof. repeat split; reflexivity. Qed.

(** ** The handlers of app.js *)

(** app.js never binds [pool]: every query it writes is a ReferenceError. *)
Lemma pool_unbound_in_app (q : Statement) (params : list Param) (tb : Table.t) :
  pool_query App.scope q params tb = (Rejected (ReferenceError "pool"), tb).
Proof. reflexivity. Qed.

Lemma get_componente_unbound (req : Request.t) (tb : Table.t) :
  App.get_componente req tb =
  (Resolved (internal_error "Error al obtener componentes" (ReferenceError "pool")), tb).
Proof. reflexivity. Qed.

Lemma delete_componente_unbound (req : Request.t) (tb : Table.t) :
  App.delete_componente req tb =
  (Resolved (internal_error "Error al eliminar componente" (ReferenceError "pool")), tb).
Proof. reflexivity. Qed.

Lemma post_componente_validated (req : Request.t) (tb : Table.t) :
  truthy (Datos.nombre (Request.body req)) = true ->
  truthy (Datos.tipo (Request.body req)) = true ->
  App.post_componente req tb =
  (Resolved (internal_error "Error al crear componentes" (ReferenceError "pool")), tb).
Proof.
  intros Hn Ht. unfold App.post_componente, Routes.post_componente.
  rewrite Hn, Ht. reflexivity.
Qed.

Lemma put_componente_validated (req : Request.t) (tb : Table.t) :
  truthy (Datos.nombre (Request.body req)) = true ->
  truthy (Datos.tipo (Request.body req)) = true ->
  App.put_componente req tb =
  (Resolved (internal_error "Error al actualizar componente" (ReferenceError "pool")), tb).
Proof.
  intros Hn Ht. unfold App.put_componente, Routes.put_componente, try_catch.
  rewrite Hn, Ht. reflexivity.
Qed.

(** A falsy nombre or tipo stops PUT before any query. *)
Lemma put_componente_refused (sc : Scope) (req : Request.t) (tb : Table.t) :
  truthy (Datos.nombre (Request.body req)) = false \/
  truthy (Datos.tipo (Request.body req)) = false ->
  Routes.put_componente sc req tb = (Resolved campos_obligatorios, tb).
Proof.
  intros H. unfold Routes.put_componente, try_catch.
  replace (negb (truthy (Datos.nombre (Request.body req)))
           || negb (truthy (Datos.tipo (Request.body req)))) with true;
    [reflexivity|].
  destruct H as [-> | ->]; [reflexivity | apply eq_sym, orb_true_r].
Qed.

(** With the later revision of the PG repository, whose getAll hands back the
    result object, the list handler does send the ordered array. *)
Lemma get_componentes_with_result_object (tb : Table.t) :
  App.get_componentes pg_draft_repo tb =
  (Resolved (Response.mk 200 (Json (JArray (order_by_id (Table.rows tb))))), tb).
Proof. reflexivity. Qed.

(** ** The frame of update *)

Lemma client_set_clause_identity (d : Datos.t) (r r' : Componente.t) :
  as_the_client_reports (set_clause d r) = Resolved r' -> identity r' = identity r.
Proof. intros H. exact (set_clause_identity d r r' (as_the_client_reports_resolved _ _ H)). Qed.

(** All an update ever does to the table is to replace its rows by rows of
    the same identities, in the same order. *)
Lemma PG_update_writes (id : Z) (d : Datos.t) (tb : Table.t) :
  exists rs',
    snd (PG.update id d tb) = Table.with_rows rs' tb /\
    map identity rs' = map identity (Table.rows tb).
Proof.
  rewrite PG_update_unfold. destruct (no_key d).
  - rewrite PG_getById_unfold. exists (Table.rows tb).
    split; [apply eq_sym, with_rows_same | reflexivity].
  - destruct (update_rows _ _ _) as [[rs' returned]|] eqn:E.
    + exists rs'. split; [reflexivity|].
      exact (update_rows_keeps identity _ _ (set_clause_identity d) _ _ _ E).
    + exists (Table.rows tb). split; [apply eq_sym, with_rows_same | reflexivity].
Qed.

Lemma Prisma_update_writes (id : Z) (d : Datos.t) (tb : Table.t) :
  exists rs',
    snd (Prisma.update id d tb) = Table.with_rows rs' tb /\
    map identity rs' = map identity (Table.rows tb).
Proof.
  rewrite Prisma_update_by_set_clause.
  assert (Hsame : exists rs', tb = Table.with_rows rs' tb /\
                              map identity rs' = map identity (Table.rows tb)).
  { exists (Table.rows tb). split; [apply eq_sym, with_rows_same | reflexivity]. }
  destruct (admissible d); [|exact Hsame].
  destruct (find _ _); [|exact Hsame].
  destruct (update_rows _ _ _) as [[rs' returned]|] eqn:E; [|exact Hsame].
  exists rs'. split; [reflexivity|].
  exact (update_rows_keeps identity _ _ (client_set_clause_identity d) _ _ _ E).
Qed.

Lemma PG_update_identity (id : Z) (d : Datos.t) (tb : Table.t) :
  map identity (Table.rows (snd (PG.update id d tb))) = map identity (Table.rows tb).
Proof. destruct (PG_update_writes id d tb) as [rs' [-> H]]. exact H. Qed.

Lemma Prisma_update_identity (id : Z) (d : Datos.t) (tb : Table.t) :
  map identity (Table.rows (snd (Prisma.update id d tb))) = map identity (Table.rows tb).
Proof. destruct (Prisma_update_writes id d tb) as [rs' [-> H]]. exact H. Qed.

Lemma same_identities_from_sequence (rs' : list Componente.t) (tb : Table.t) :
  map identity rs' = map identity (Table.rows tb) ->
  ids_from_sequence tb = true -> ids_from_sequence (Table.with_rows rs' tb) = true.
Proof.
  intros H. unfold ids_from_sequence. cbn [Table.with_rows Table.rows Table.id_seq].
  replace (map Componente.id rs') with (map fst (map identity rs'))
    by (rewrite map_map; reflexivity).
  rewrite H, map_map. intros Hs. exact Hs.
Qed.

(** ** The sequence invariant

    From the seeded table on, whatever the PG repository does keeps every id
    of the table within the values handed out by the sequence, which is what
    makes the next id a fresh one. *)
Lemma seeded_from_sequence : ids_from_sequence seeded = true.
Proof. reflexivity. Qed.

Lemma PG_keeps_ids_from_sequence (tb : Table.t) :
  ids_from_sequence tb = true ->
  ids_from_sequence (snd (PG.getAll tb)) = true /\
  (forall id, ids_from_sequence (snd (PG.getById id tb)) = true) /\
  (forall d, ids_from_sequence (snd (PG.create d tb)) = true) /\
  (forall id d, ids_from_sequence (snd (PG.update id d tb)) = true) /\
  (forall id, ids_from_sequence (snd (PG.remove id tb)) = true).
Proof.
  intros Hseq. split; [exact Hseq|]. split; [|split; [|split]].
  - intros id. rewrite PG_getById_unfold. exact Hseq.
  - intros d. destruct (PG_create_writes d tb Hseq) as [-> | [-> | [r [Hr ->]]]].
    + exact Hseq.
    + apply nextval_from_sequence, Hseq.
    + apply inserted_from_sequence; assumption.
  - intros id d. destruct (PG_update_writes id d tb) as [rs' [-> H]].
    apply same_identities_from_sequence; assumption.
  - intros id. rewrite PG_remove_unfold. apply deleted_from_sequence, Hseq.
Qed.

(** ** The choice of index.js *)

Example select_repo_default : select_repo None = pg_repo.
Proof. reflexivity. Qed.

Example select_repo_empty : select_repo (Some "") = pg_repo.
Proof. reflexivity. Qed.

Example select_repo_prisma : select_repo (Some "Prisma") = prisma_repo.
Proof. reflexivity. Qed.

Example select_repo_other : select_repo (Some "sqlite") = pg_repo.
Proof. reflexivity. Qed.

(** * The claims *)

(** C1. The PG and the Prisma repository are to return the same outcome for
    every operation and input, in particular for update and remove on an id
    that matches no row.  They do not: on every table and every id that
    matches no row, PG.update resolves with null and PG.remove with false,
    while Prisma.update (whatever field object the columns admit) and
    Prisma.remove reject with the client's error for a record that does not
    exist. *)
Theorem C1_strategies_differ_on_missing_id (id : Z) (d : Datos.t) (tb : Table.t) :
  find (id_is (Some id)) (Table.rows tb) = None ->
  admissible d = true ->
  PG.update id d tb = (Resolved JNull, tb) /\
  Prisma.update id d tb =
    (Rejected (PrismaClientKnownRequestError Model.record_not_found), tb) /\
  PG.remove id tb = (Resolved (JBool false), tb) /\
  Prisma.remove id tb =
    (Rejected (PrismaClientKnownRequestError Model.record_not_found), tb).
Proof.
  intros Hr Hd. split; [apply PG_update_missing, Hr|].
  split; [apply Prisma_update_missing; assumption|].
  split; [apply PG_remove_missing, Hr | apply Prisma_remove_missing, Hr].
Qed.

Lemma C1_strategies_differ_on_missing_id_witness :
  find (id_is (Some 99)) (Table.rows seeded) = None /\
  admissible solo_precio = true /\
  PG.update 99 solo_precio seeded = (Resolved JNull, seeded) /\
  Prisma.update 99 solo_precio seeded =
    (Rejected (PrismaClientKnownRequestError Model.record_not_found), seeded) /\
  PG.remove 99 seeded = (Resolved (JBool false), seeded) /\
  Prisma.remove 99 seeded =
    (Rejected (PrismaClientKnownRequestError Model.record_not_found), seeded).
Proof.
  split; [reflexivity|]. split; [reflexivity|].
  apply (C1_strategies_differ_on_missing_id 99 solo_precio seeded); reflexivity.
Defined.

(** C2. update on an id that matches no row is to resolve with null in both
    strategies, also for the loser of a race against a delete.  PG.update does,
    whatever the field object.  Prisma.update rejects instead, with the
    client's error for a record that does not exist: on every id that matches
    no row, and so on every id once its rows have been deleted. *)
Theorem C2_prisma_update_rejects_on_missing_id (id : Z) (d : Datos.t) (tb : Table.t) :
  (find (id_is (Some id)) (Table.rows tb) = None ->
   PG.update id d tb = (Resolved JNull, tb) /\
   (admissible d = true ->
    Prisma.update id d tb =
      (Rejected (PrismaClientKnownRequestError Model.record_not_found), tb))) /\
  snd (PG.remove id tb) = deleted id tb /\
  PG.update id d (deleted id tb) = (Resolved JNull, deleted id tb) /\
  (admissible d = true ->
   Prisma.update id d (deleted id tb) =
     (Rejected (PrismaClientKnownRequestError Model.record_not_found), deleted id tb)).
Proof.
  split; [|split; [|split]].
  - intros Hr. split; [apply PG_update_missing, Hr|].
    intros Hd. apply Prisma_update_missing; assumption.
  - rewrite PG_remove_unfold. reflexivity.
  - apply PG_update_missing, nothing_left_to_delete.
  - intros Hd. apply Prisma_update_missing; [apply nothing_left_to_delete | exact Hd].
Qed.

Lemma C2_prisma_update_rejects_on_missing_id_witness :
  find (id_is (Some 99)) (Table.rows seeded) = None /\
  admissible solo_precio = true /\
  PG.update 99 solo_precio seeded = (Resolved JNull, seeded) /\
  Prisma.update 99 solo_precio seeded =
    (Rejected (PrismaClientKnownRequestError Model.record_not_found), seeded) /\
  Prisma.remove 2 seeded = (Resolved (JBool true), deleted 2 seeded) /\
  Prisma.update 2 solo_precio (deleted 2 seeded) =
    (Rejected (PrismaClientKnownRequestError Model.record_not_found), deleted 2 seeded).
Proof.
  split; [reflexivity|]. split; [reflexivity|].
  destruct (C2_prisma_update_rejects_on_missing_id 99 solo_precio seeded)
    as [Hmissing _].
  destruct (Hmissing eq_refl) as [Hpg Hprisma].
  split; [exact Hpg|]. split; [exact (Hprisma eq_refl)|].
  split; [reflexivity|].
  destruct (C2_prisma_update_rejects_on_missing_id 2 solo_precio seeded)
    as [_ [_ [_ Hrace]]].
  exact (Hrace eq_refl).
Defined.

(** C3. remove is to resolve with a boolean in both strategies, false when no
    row matched, so that a second remove of the same id answers false.
    PG.remove does.  Prisma.remove rejects instead, with the client's error for
    a record that does not exist: on every id that matches no row, and so on
    every id that is removed a second time. *)
Theorem C3_prisma_remove_rejects_on_missing_id (id : Z) (tb : Table.t) :
  (find (id_is (Some id)) (Table.rows tb) = None ->
   PG.remove id tb = (Resolved (JBool false), tb) /\
   Prisma.remove id tb =
     (Rejected (PrismaClientKnownRequestError Model.record_not_found), tb)) /\
  (forall r, find (id_is (Some id)) (Table.rows tb) = Some r ->
   PG.remove id tb = (Resolved (JBool true), deleted id tb) /\
   Prisma.remove id tb = (Resolved (JBool true), deleted id tb)) /\
  PG.remove id (deleted id tb) = (Resolved (JBool false), deleted id tb) /\
  Prisma.remove id (deleted id tb) =
    (Rejected (PrismaClientKnownRequestError Model.record_not_found), deleted id tb).
Proof.
  split; [|split; [|split]].
  - intros Hr. split; [apply PG_remove_missing, Hr | apply Prisma_remove_missing, Hr].
  - intros r Hr. split; [|apply (Prisma_remove_existing id tb r Hr)].
    rewrite PG_remove_unfold, existsb_find, Hr. reflexivity.
  - apply PG_remove_missing, nothing_left_to_delete.
  - apply Prisma_remove_missing, nothing_left_to_delete.
Qed.

Lemma C3_prisma_remove_rejects_on_missing_id_witness :
  find (id_is (Some 99)) (Table.rows seeded) = None /\
  PG.remove 99 seeded = (Resolved (JBool false), seeded) /\
  Prisma.remove 99 seeded =
    (Rejected (PrismaClientKnownRequestError Model.record_not_found), seeded) /\
  Prisma.remove 2 seeded = (Resolved (JBool true), deleted 2 seeded) /\
  Prisma.remove 2 (deleted 2 seeded) =
    (Rejected (PrismaClientKnownRequestError Model.record_not_found), deleted 2 seeded).
Proof.
  split; [reflexivity|].
  destruct (C3_prisma_remove_rejects_on_missing_id 99 seeded) as [Hmissing _].
  destruct (Hmissing eq_refl) as [Hpg Hprisma].
  split; [exact Hpg|]. split; [exact Hprisma|].
  destruct (C3_prisma_remove_rejects_on_missing_id 2 seeded)
    as [_ [Hfirst [_ Hsecond]]].
  split; [exact (proj2 (Hfirst _ eq_refl)) | exact Hsecond].
Defined.

(** C4, as stated, fails: a key that is present does not change its column
    whatever the value.  On the seeded table, update of row 1 with
    [{ nombre: null }] has the key nombre present, yet both strategies reject
    and the table is as before: nombre is a NOT NULL column.  So it is with a
    value beyond the capacity of its column: a stock beyond the range of INT,
    a precio beyond NUMERIC(10,2), a nombre of 121 characters, a marca with
    the zero character. *)
Lemma C4_refused_value_changes_nothing :
  find (id_is (Some 1)) (Table.rows seeded) = Some ryzen /\
  (is_defined (Datos.nombre nombre_null) = true /\
   PG.update 1 nombre_null seeded =
     (Rejected (DatabaseError not_null_violation), seeded) /\
   Prisma.update 1 nombre_null seeded = (Rejected PrismaClientValidationError, seeded)) /\
  (is_defined (Datos.stock stock_excesivo) = true /\
   PG.update 1 stock_excesivo seeded =
     (Rejected (DatabaseError numeric_value_out_of_range), seeded) /\
   Prisma.update 1 stock_excesivo seeded =
     (Rejected (PrismaClientKnownRequestError Model.value_out_of_range), seeded)) /\
  (is_defined (Datos.precio precio_excesivo) = true /\
   PG.update 1 precio_excesivo seeded =
     (Rejected (DatabaseError numeric_value_out_of_range), seeded) /\
   Prisma.update 1 precio_excesivo seeded =
     (Rejected (PrismaClientKnownRequestError Model.value_out_of_range), seeded)) /\
  (is_defined (Datos.nombre nombre_largo) = true /\
   PG.update 1 nombre_largo seeded =
     (Rejected (DatabaseError string_data_right_truncation), seeded) /\
   Prisma.update 1 nombre_largo seeded =
     (Rejected (PrismaClientKnownRequestError Model.value_too_long), seeded)) /\
  (is_defined (Datos.marca marca_con_cero) = true /\
   PG.update 1 marca_con_cero seeded =
     (Rejected (DatabaseError character_not_in_repertoire), seeded) /\
   Prisma.update 1 marca_con_cero seeded =
     (Rejected (PrismaClientKnownRequestError Model.raw_query_failed), seeded)).
Proof. repeat split; reflexivity. Qed.

(** C4, amended.  For every existing id and every field object that gives no
    null to a NOT NULL column (nombre, tipo, precio, stock) and whose values
    are within the capacity of their columns (nombre a text of at most 120
    characters, tipo and marca of at most 80, none with the zero character,
    precio within NUMERIC(10,2), stock within INT), update in either strategy
    is the presence-based update: it resolves with
    the row in which a column holds the supplied value if and only if its key
    is present (not undefined), null for marca and the empty string included,
    and holds the stored value otherwise; the table is rewritten
    accordingly. *)
Theorem C4_update_is_presence_based (id : Z) (d : Datos.t) (tb : Table.t)
    (r : Componente.t) :
  find (id_is (Some id)) (Table.rows tb) = Some r ->
  admissible d = true ->
  within_capacity d = true ->
  PG.update id d tb =
    (Resolved (JObject (presence_update d r)), presence_update_table id d tb) /\
  Prisma.update id d tb =
    (Resolved (JObject (presence_update d r)), presence_update_table id d tb).
Proof.
  intros Hr Hd Hc. split;
    [apply PG_update_existing | apply Prisma_update_existing]; assumption.
Qed.

Lemma C4_update_is_presence_based_witness :
  find (id_is (Some 1)) (Table.rows seeded) = Some ryzen /\
  admissible marca_null_precio = true /\
  within_capacity marca_null_precio = true /\
  PG.update 1 marca_null_precio seeded =
    (Resolved (JObject (Componente.mk 1 "Ryzen 5 5600" "CPU" None 5000 12 0)),
     presence_update_table 1 marca_null_precio seeded) /\
  Prisma.update 1 marca_null_precio seeded =
    (Resolved (JObject (Componente.mk 1 "Ryzen 5 5600" "CPU" None 5000 12 0)),
     presence_update_table 1 marca_null_precio seeded).
Proof.
  split; [reflexivity|]. split; [reflexivity|]. split; [reflexivity|].
  apply (C4_update_is_presence_based 1 marca_null_precio seeded ryzen); reflexivity.
Defined.

(** C5, as stated, fails: a POST whose body has nombre and tipo present does
    not always reach the query.  With [{ nombre: "", tipo: "CPU" }] both keys
    are present, and the answer is 400, not 500: the empty string is falsy. *)
Lemma C5_post_with_empty_nombre_answers_400 :
  is_defined (Datos.nombre nombre_vacio) = true /\
  is_defined (Datos.tipo nombre_vacio) = true /\
  App.post_componente (Request.mk "" nombre_vacio) seeded =
    (Resolved campos_obligatorios, seeded) /\
  Response.status campos_obligatorios <> 500%nat.
Proof. repeat split; try reflexivity. discriminate. Qed.

(** C5, amended.  app.js binds express, repo and path but never pool, so the
    handlers of GET /componentes/:id and DELETE /componentes/:id, and those of
    POST /componentes and PUT /componentes/:id once nombre and tipo are truthy
    (present and not empty), throw at pool.query, take the catch branch and
    answer 500 with the ReferenceError, leaving the table as it was. *)
Theorem C5_pool_unbound_answers_500 (req : Request.t) (tb : Table.t) :
  resolve App.scope "pool" = Rejected (ReferenceError "pool") /\
  App.get_componente req tb =
    (Resolved (internal_error "Error al obtener componentes" (ReferenceError "pool")), tb) /\
  App.delete_componente req tb =
    (Resolved (internal_error "Error al eliminar componente" (ReferenceError "pool")), tb) /\
  (truthy (Datos.nombre (Request.body req)) = true ->
   truthy (Datos.tipo (Request.body req)) = true ->
   App.post_componente req tb =
     (Resolved (internal_error "Error al crear componentes" (ReferenceError "pool")), tb) /\
   App.put_componente req tb =
     (Resolved (internal_error "Error al actualizar componente" (ReferenceError "pool")), tb)).
Proof.
  split; [reflexivity|].
  split; [apply get_componente_unbound|].
  split; [apply delete_componente_unbound|].
  intros Hn Ht. split;
    [apply post_componente_validated | apply put_componente_validated]; assumption.
Qed.

Lemma C5_pool_unbound_answers_500_witness :
  truthy (Datos.nombre nombre_y_tipo) = true /\
  truthy (Datos.tipo nombre_y_tipo) = true /\
  Response.status (internal_error "Error al crear componentes" (ReferenceError "pool"))
    = 500%nat /\
  App.post_componente (Request.mk "1" nombre_y_tipo) seeded =
    (Resolved (internal_error "Error al crear componentes" (ReferenceError "pool")), seeded) /\
  App.put_componente (Request.mk "1" nombre_y_tipo) seeded =
    (Resolved (internal_error "Error al actualizar componente" (ReferenceError "pool")),
     seeded).
Proof.
  split; [reflexivity|]. split; [reflexivity|]. split; [reflexivity|].
  apply (C5_pool_unbound_answers_500 (Request.mk "1" nombre_y_tipo) seeded); reflexivity.
Defined.

(** C6. GET /componentes is to answer 200 with the array of all components in
    ascending order of id.  PG.getAll does resolve with that array, but the
    handler sends [result.rows] of it, which an array does not have: whatever
    the table, the answer is 200 with the JSON of undefined (the same holds
    with the Prisma repository). *)
Theorem C6_list_handler_sends_undefined (tb : Table.t) :
  PG.getAll tb = (Resolved (JArray (order_by_id (Table.rows tb))), tb) /\
  App.get_componentes pg_repo tb = (Resolved (Response.mk 200 (Json JUndefined)), tb) /\
  App.get_componentes prisma_repo tb = (Resolved (Response.mk 200 (Json JUndefined)), tb).
Proof. repeat split; reflexivity. Qed.

(** C7. The handler of PUT /componentes/:id answers 400 whenever nombre or
    tipo is absent from the body, before any query and in any module scope,
    whereas update in the repository (either strategy) takes any subset of the
    fields: on an existing id, with no null for a NOT NULL column and every
    value within the capacity of its column, it resolves with the
    presence-based update of the row, nombre and tipo supplied or not. *)
Theorem C7_put_requires_what_update_does_not (path_id : string) (id : Z)
    (d : Datos.t) (tb : Table.t) (r : Componente.t) :
  (Datos.nombre d = Undefined \/ Datos.tipo d = Undefined ->
   App.put_componente (Request.mk path_id d) tb = (Resolved campos_obligatorios, tb) /\
   Response.status campos_obligatorios = 400%nat) /\
  (find (id_is (Some id)) (Table.rows tb) = Some r ->
   admissible d = true ->
   within_capacity d = true ->
   PG.update id d tb =
     (Resolved (JObject (presence_update d r)), presence_update_table id d tb) /\
   Prisma.update id d tb =
     (Resolved (JObject (presence_update d r)), presence_update_table id d tb)).
Proof.
  split.
  - intros H. split; [|reflexivity]. apply put_componente_refused.
    cbn [Request.body]. destruct H as [-> | ->]; [left | right]; reflexivity.
  - intros Hr Hd Hc. split;
      [apply PG_update_existing | apply Prisma_update_existing]; assumption.
Qed.

Lemma C7_put_requires_what_update_does_not_witness :
  (Datos.nombre solo_stock = Undefined \/ Datos.tipo solo_stock = Undefined) /\
  find (id_is (Some 1)) (Table.rows seeded) = Some ryzen /\
  admissible solo_stock = true /\
  within_capacity solo_stock = true /\
  App.put_componente (Request.mk "1" solo_stock) seeded =
    (Resolved campos_obligatorios, seeded) /\
  PG.update 1 solo_stock seeded =
    (Resolved (JObject (Componente.mk 1 "Ryzen 5 5600" "CPU" (Some "AMD") 12999 10 0)),
     presence_update_table 1 solo_stock seeded) /\
  Prisma.update 1 solo_stock seeded =
    (Resolved (JObject (Componente.mk 1 "Ryzen 5 5600" "CPU" (Some "AMD") 12999 10 0)),
     presence_update_table 1 solo_stock seeded).
Proof.
  split; [left; reflexivity|]. split; [reflexivity|]. split; [reflexivity|].
  split; [reflexivity|].
  destruct (C7_put_requires_what_update_does_not "1" 1 solo_stock seeded ryzen)
    as [Hput Hupdate].
  split; [apply Hput; left; reflexivity|].
  apply Hupdate; reflexivity.
Defined.

(** C8. update with no field supplied is to be a read in both strategies: the
    current row unchanged, or null when the id does not exist.  PG.update is.
    Prisma.update is one on an existing id only: on every id that matches no
    row it rejects, with the client's error for a record that does not exist. *)
Theorem C8_prisma_update_without_fields_rejects_on_missing_id (id : Z) (tb : Table.t) :
  (find (id_is (Some id)) (Table.rows tb) = None ->
   PG.update id Datos.empty tb = (Resolved JNull, tb) /\
   Prisma.update id Datos.empty tb =
     (Rejected (PrismaClientKnownRequestError Model.record_not_found), tb)) /\
  (forall r, find (id_is (Some id)) (Table.rows tb) = Some r ->
   PG.update id Datos.empty tb = (Resolved (JObject r), tb) /\
   Prisma.update id Datos.empty tb = (Resolved (JObject r), tb)).
Proof.
  split.
  - intros Hr. split; [apply PG_update_missing, Hr|].
    apply Prisma_update_missing; [exact Hr | reflexivity].
  - intros r Hr. apply update_without_fields_existing, Hr.
Qed.

Lemma C8_prisma_update_without_fields_rejects_on_missing_id_witness :
  find (id_is (Some 99)) (Table.rows seeded) = None /\
  find (id_is (Some 1)) (Table.rows seeded) = Some ryzen /\
  PG.update 99 Datos.empty seeded = (Resolved JNull, seeded) /\
  Prisma.update 99 Datos.empty seeded =
    (Rejected (PrismaClientKnownRequestError Model.record_not_found), seeded) /\
  PG.update 1 Datos.empty seeded = (Resolved (JObject ryzen), seeded) /\
  Prisma.update 1 Datos.empty seeded = (Resolved (JObject ryzen), seeded).
Proof.
  split; [reflexivity|]. split; [reflexivity|].
  destruct (C8_prisma_update_without_fields_rejects_on_missing_id 99 seeded)
    as [Hmissing _].
  destruct (Hmissing eq_refl) as [Hpg Hprisma].
  split; [exact Hpg|]. split; [exact Hprisma|].
  destruct (C8_prisma_update_without_fields_rejects_on_missing_id 1 seeded)
    as [_ Hexisting].
  exact (Hexisting ryzen eq_refl).
Defined.

(** C9. On an existing row, update with only [{ precio: 50 }] resolves, in
    either strategy, with the row whose precio is 50 and whose nombre, tipo,
    marca and stock are the stored ones, and rewrites the rows with that id in
    this way and no other row; and no update, whatever the id and the field
    object (one that carries an id or a creado_en of its own included), and
    whether it resolves or rejects, changes the id or the creado_en of any
    row, or adds or drops one. *)
Theorem C9_price_only_update_and_frame (id : Z) (d : Datos.t) (tb : Table.t)
    (r : Componente.t) :
  (find (id_is (Some id)) (Table.rows tb) = Some r ->
   let r' := Componente.mk (Componente.id r) (Componente.nombre r) (Componente.tipo r)
               (Componente.marca r) 5000 (Componente.stock r) (Componente.creado_en r) in
   let tb' := Table.with_rows
                (map (fun x => if Componente.id x =? id
                               then Componente.set_precio 5000 x else x)
                   (Table.rows tb)) tb in
   PG.update id solo_precio tb = (Resolved (JObject r'), tb') /\
   Prisma.update id solo_precio tb = (Resolved (JObject r'), tb')) /\
  map identity (Table.rows (snd (PG.update id d tb))) = map identity (Table.rows tb) /\
  map identity (Table.rows (snd (Prisma.update id d tb))) = map identity (Table.rows tb).
Proof.
  split; [|split; [apply PG_update_identity | apply Prisma_update_identity]].
  intros Hr. cbv zeta.
  rewrite (PG_update_existing id solo_precio tb r Hr eq_refl eq_refl).
  rewrite (Prisma_update_existing id solo_precio tb r Hr eq_refl eq_refl).
  split; reflexivity.
Qed.

Lemma C9_price_only_update_and_frame_witness :
  find (id_is (Some 1)) (Table.rows seeded) = Some ryzen /\
  PG.update 1 solo_precio seeded =
    (Resolved (JObject (Componente.mk 1 "Ryzen 5 5600" "CPU" (Some "AMD") 5000 12 0)),
     Table.with_rows
       (map (fun x => if Componente.id x =? 1 then Componente.set_precio 5000 x else x)
          (Table.rows seeded)) seeded) /\
  Prisma.update 1 solo_precio seeded =
    (Resolved (JObject (Componente.mk 1 "Ryzen 5 5600" "CPU" (Some "AMD") 5000 12 0)),
     Table.with_rows
       (map (fun x => if Componente.id x =? 1 then Componente.set_precio 5000 x else x)
          (Table.rows seeded)) seeded) /\
  Datos.id con_id = Val 7 /\ Datos.creado_en con_id = Val 99 /\
  map identity (Table.rows (snd (PG.update 1 con_id seeded))) =
    [(1, 0); (2, 0); (3, 0); (4, 0)] /\
  map identity (Table.rows (snd (Prisma.update 1 con_id seeded))) =
    [(1, 0); (2, 0); (3, 0); (4, 0)].
Proof.
  split; [reflexivity|].
  destruct (C9_price_only_update_and_frame 1 con_id seeded ryzen)
    as [Hprecio [Hpg Hprisma]].
  split; [exact (proj1 (Hprecio eq_refl))|].
  split; [exact (proj2 (Hprecio eq_refl))|].
  split; [reflexivity|]. split; [reflexivity|].
  split; [exact Hpg | exact Hprisma].
Defined.

(** C10, as stated, fails.  create without nombre does not fail with a
    ValidationError in the PG strategy: on the seeded table PG.create of
    [{ tipo: "CPU" }] rejects with the driver's error for the NOT NULL
    constraint, a failure of the store.  And with nombre and tipo present
    create does not always return the created row: a null for stock, a
    value beyond the capacity of its column (a stock beyond the range of INT,
    a precio beyond NUMERIC(10,2), a nombre of 121 characters, a marca with
    the zero character), a table that already holds the next id of the
    sequence, and a sequence that has handed out its last value each make it
    reject, in both strategies. *)
Lemma C10_create_fails_as_the_store_decides :
  Datos.nombre sin_nombre = Undefined /\
  PG.create sin_nombre seeded =
    (Rejected (DatabaseError not_null_violation), Table.nextval seeded) /\
  ~ (exists e tb', PG.create sin_nombre seeded = (Rejected e, tb') /\
                   error_class e = ValidationError) /\
  (Datos.nombre nuevo_con_stock_null = Val "Ryzen 7 5800X" /\
   Datos.tipo nuevo_con_stock_null = Val "CPU" /\
   PG.create nuevo_con_stock_null seeded =
     (Rejected (DatabaseError not_null_violation), Table.nextval seeded) /\
   Prisma.create nuevo_con_stock_null seeded =
     (Rejected PrismaClientValidationError, seeded)) /\
  (Datos.nombre nuevo_con_stock_excesivo = Val "Ryzen 7 5800X" /\
   Datos.tipo nuevo_con_stock_excesivo = Val "CPU" /\
   PG.create nuevo_con_stock_excesivo seeded =
     (Rejected (DatabaseError numeric_value_out_of_range), seeded) /\
   Prisma.create nuevo_con_stock_excesivo seeded =
     (Rejected (PrismaClientKnownRequestError Model.value_out_of_range), seeded)) /\
  (PG.create (Datos.set_precio (Val 10000000000) nombre_y_tipo) seeded =
     (Rejected (DatabaseError numeric_value_out_of_range), seeded) /\
   Prisma.create (Datos.set_precio (Val 10000000000) nombre_y_tipo) seeded =
     (Rejected (PrismaClientKnownRequestError Model.value_out_of_range), seeded) /\
   PG.create (Datos.set_nombre (Val (text_of_length 121)) nombre_y_tipo) seeded =
     (Rejected (DatabaseError string_data_right_truncation), seeded) /\
   Prisma.create (Datos.set_nombre (Val (text_of_length 121)) nombre_y_tipo) seeded =
     (Rejected (PrismaClientKnownRequestError Model.value_too_long), seeded) /\
   PG.create (Datos.set_marca (Val (String Ascii.zero EmptyString)) nombre_y_tipo) seeded =
     (Rejected (DatabaseError character_not_in_repertoire), seeded) /\
   Prisma.create (Datos.set_marca (Val (String Ascii.zero EmptyString)) nombre_y_tipo)
     seeded =
     (Rejected (PrismaClientKnownRequestError Model.raw_query_failed), seeded)) /\
  (Datos.nombre nombre_y_tipo = Val "Ryzen 7 5800X" /\
   Datos.tipo nombre_y_tipo = Val "CPU" /\
   next_id_is_free seeded_with_id_5 = false /\
   PG.create nombre_y_tipo seeded_with_id_5 =
     (Rejected (DatabaseError unique_violation), Table.nextval seeded_with_id_5) /\
   Prisma.create nombre_y_tipo seeded_with_id_5 =
     (Rejected (PrismaClientKnownRequestError Model.unique_constraint_failed),
      Table.nextval seeded_with_id_5) /\
   next_id_is_free sequence_exhausted = false /\
   PG.create nombre_y_tipo sequence_exhausted =
     (Rejected (DatabaseError sequence_generator_limit_exceeded), sequence_exhausted) /\
   Prisma.create nombre_y_tipo sequence_exhausted =
     (Rejected (PrismaClientKnownRequestError Model.raw_query_failed),
      sequence_exhausted)).
Proof.
  split; [reflexivity|]. split; [reflexivity|].
  split; [|repeat split; reflexivity].
  intros [e [tb' [H Hc]]]. cbv in H. injection H as <- _. discriminate Hc.
Qed.

(** C10, amended.  The repository's create has no check of its own; a missing
    nombre or tipo is refused by what lies below it, and no row is stored: in
    the PG strategy by the store, with a DatabaseError (a data-access error;
    the NOT NULL violation 23502 when the values that are given are within
    the capacity of their columns and the id sequence has a next value), in
    the Prisma strategy by the client (a validation error).  With nombre and
    tipo supplied, no null for precio or stock, every value within the
    capacity of its column (nombre a text of at most 120 characters, tipo and
    marca of at most 80, none with the zero character, precio within
    NUMERIC(10,2), stock within INT), and on a table whose id sequence has a
    next value that is the id of no row, create resolves in either strategy
    with the stored row:
    the generated id and timestamp, the given values, and marca null, precio
    0, stock 0 for the fields that were omitted. *)
Theorem C10_create_relies_on_the_store (d : Datos.t) (tb : Table.t) :
  (Datos.nombre d = Undefined \/ Datos.tipo d = Undefined ->
   (exists code tb',
      PG.create d tb = (Rejected (DatabaseError code), tb') /\
      error_class (DatabaseError code) = DataAccessError /\
      Table.rows tb' = Table.rows tb) /\
   (within_capacity d = true -> int4 (Table.id_seq tb + 1) = true ->
    PG.create d tb = (Rejected (DatabaseError not_null_violation), Table.nextval tb)) /\
   Prisma.create d tb = (Rejected PrismaClientValidationError, tb) /\
   error_class PrismaClientValidationError = ValidationError) /\
  (forall nombre tipo,
     Datos.nombre d = Val nombre -> Datos.tipo d = Val tipo ->
     is_null (Datos.precio d) = false -> is_null (Datos.stock d) = false ->
     within_capacity d = true ->
     next_id_is_free tb = true ->
     let r := Componente.mk (Table.id_seq tb + 1) nombre tipo
                match Datos.marca d with Val m => Some m | _ => None end
                match Datos.precio d with Val p => p | _ => 0 end
                match Datos.stock d with Val s => s | _ => 0 end
                (Table.now tb) in
     PG.create d tb = (Resolved (JObject r), inserted r tb) /\
     Prisma.create d tb = (Resolved (JObject r), inserted r tb)).
Proof.
  split.
  - intros H. split; [|split; [|split; [|reflexivity]]].
    + destruct (PG_create_missing_any d tb H) as [code [tb' [Hpg Hrows]]].
      exists code, tb'. split; [exact Hpg|]. split; [reflexivity | exact Hrows].
    + intros Hc Hnext. exact (PG_create_missing d tb H Hc Hnext).
    + exact (Prisma_create_missing d tb H).
  - intros nombre tipo Hn Ht Hp Hs Hc Hfree. cbv zeta.
    assert (Hd : creatable d = true).
    { unfold creatable, complete. rewrite Hn, Ht, Hp, Hs, Hc. reflexivity. }
    rewrite (PG_create_stores d tb Hd Hfree), (Prisma_create_stores d tb Hd Hfree).
    assert (Hr : row_of tb d =
                 Componente.mk (Table.id_seq tb + 1) nombre tipo
                   match Datos.marca d with Val m => Some m | _ => None end
                   match Datos.precio d with Val p => p | _ => 0 end
                   match Datos.stock d with Val s => s | _ => 0 end
                   (Table.now tb)).
    { unfold row_of, created_row. rewrite Hn, Ht.
      destruct (Datos.marca d), (Datos.precio d), (Datos.stock d); reflexivity. }
    rewrite Hr. split; reflexivity.
Qed.

Lemma C10_create_relies_on_the_store_witness :
  (Datos.nombre sin_nombre = Undefined \/ Datos.tipo sin_nombre = Undefined) /\
  within_capacity sin_nombre = true /\
  int4 (Table.id_seq seeded + 1) = true /\
  PG.create sin_nombre seeded =
    (Rejected (DatabaseError not_null_violation), Table.nextval seeded) /\
  Prisma.create sin_nombre seeded = (Rejected PrismaClientValidationError, seeded) /\
  Datos.nombre nombre_y_tipo = Val "Ryzen 7 5800X" /\
  Datos.tipo nombre_y_tipo = Val "CPU" /\
  is_null (Datos.precio nombre_y_tipo) = false /\
  is_null (Datos.stock nombre_y_tipo) = false /\
  within_capacity nombre_y_tipo = true /\
  next_id_is_free seeded = true /\
  PG.create nombre_y_tipo seeded =
    (Resolved (JObject (Componente.mk 5 "Ryzen 7 5800X" "CPU" None 0 0 0)),
     inserted (Componente.mk 5 "Ryzen 7 5800X" "CPU" None 0 0 0) seeded) /\
  Prisma.create nombre_y_tipo seeded =
    (Resolved (JObject (Componente.mk 5 "Ryzen 7 5800X" "CPU" None 0 0 0)),
     inserted (Componente.mk 5 "Ryzen 7 5800X" "CPU" None 0 0 0) seeded).
Proof.
  split; [left; reflexivity|]. split; [reflexivity|]. split; [reflexivity|].
  destruct (C10_create_relies_on_the_store sin_nombre seeded) as [Hmissing _].
  destruct (Hmissing (or_introl eq_refl)) as [_ [Hpg [Hprisma _]]].
  split; [exact (Hpg eq_refl eq_refl)|]. split; [exact Hprisma|].
  do 6 (split; [reflexivity|]).
  destruct (C10_create_relies_on_the_store nombre_y_tipo seeded) as [_ Hstored].
  exact (Hstored "Ryzen 7 5800X" "CPU" eq_refl eq_refl eq_refl eq_refl eq_refl eq_refl).
Defined.

(** * Further properties of the code *)

(** ** Reading: getAll and getById *)

(** X1. getAll, in either strategy, never rejects and writes nothing: it
    resolves with an array that holds exactly the rows of the table, in
    ascending order of id. *)
Theorem X1_getAll_lists_every_row_in_order (tb : Table.t) :
  exists rows,
    PG.getAll tb = (Resolved (JArray rows), tb) /\
    Prisma.getAll tb = (Resolved (JArray rows), tb) /\
    Permutation (Table.rows tb) rows /\
    Sorted id_le rows /\
    List.length rows = List.length (Table.rows tb).
Proof.
  exists (order_by_id (Table.rows tb)).
  split; [reflexivity|]. split; [reflexivity|].
  split; [apply order_by_id_permutation|]. split; [apply order_by_id_sorted|].
  apply eq_sym, Permutation_length, order_by_id_permutation.
Qed.

(** X2. For an id within the range of INT, getById never rejects and writes
    nothing, in either strategy: it resolves with null when no row has the id,
    and otherwise with a row of the table that has it. *)
Theorem X2_getById_finds_the_row_or_null (id : Z) (tb : Table.t) :
  int4 id = true ->
  (exists v,
     PG.getById id tb = (Resolved v, tb) /\
     ((v = JNull /\ Forall (fun r => Componente.id r <> id) (Table.rows tb)) \/
      (exists r, v = JObject r /\ In r (Table.rows tb) /\ Componente.id r = id))) /\
  (exists v,
     Prisma.getById id tb = (Resolved v, tb) /\
     ((v = JNull /\ Forall (fun r => Componente.id r <> id) (Table.rows tb)) \/
      (exists r, v = JObject r /\ In r (Table.rows tb) /\ Componente.id r = id))).
Proof.
  intros _. rewrite <- getById_same, PG_getById_unfold.
  assert (H : exists v,
            (Resolved match find (id_is (Some id)) (Table.rows tb) with
                      | Some r => JObject r
                      | None => JNull
                      end, tb) = (Resolved v, tb) /\
            ((v = JNull /\ Forall (fun r => Componente.id r <> id) (Table.rows tb)) \/
             (exists r, v = JObject r /\ In r (Table.rows tb) /\ Componente.id r = id))).
  { destruct (find (id_is (Some id)) (Table.rows tb)) as [r|] eqn:E.
    - exists (JObject r). split; [reflexivity|]. right.
      exists r. split; [reflexivity|]. apply find_some in E. destruct E as [Hin Hid].
      split; [exact Hin|]. cbn in Hid. lia.
    - exists JNull. split; [reflexivity|]. left.
      split; [reflexivity|]. apply Forall_forall. intros r Hin.
      pose proof (find_none _ _ E r Hin) as Hid. cbn in Hid. lia. }
  split; exact H.
Qed.

Lemma X2_getById_finds_the_row_or_null_witness :
  int4 2 = true /\ int4 99 = true /\
  (exists v,
     PG.getById 2 seeded = (Resolved v, seeded) /\
     ((v = JNull /\ Forall (fun r => Componente.id r <> 2) (Table.rows seeded)) \/
      (exists r, v = JObject r /\ In r (Table.rows seeded) /\ Componente.id r = 2))) /\
  (exists v,
     Prisma.getById 99 seeded = (Resolved v, seeded) /\
     ((v = JNull /\ Forall (fun r => Componente.id r <> 99) (Table.rows seeded)) \/
      (exists r, v = JObject r /\ In r (Table.rows seeded) /\ Componente.id r = 99))).
Proof.
  split; [reflexivity|]. split; [reflexivity|].
  split.
  - exact (proj1 (X2_getById_finds_the_row_or_null 2 seeded eq_refl)).
  - exact (proj2 (X2_getById_finds_the_row_or_null 99 seeded eq_refl)).
Defined.

(** ** Writing and reading back: create *)

Lemma create_stores_row_of (d : Datos.t) (tb : Table.t) :
  creatable d = true -> ids_from_sequence tb = true ->
  int4 (Table.id_seq tb + 1) = true ->
  PG.create d tb = (Resolved (JObject (row_of tb d)), inserted (row_of tb d) tb) /\
  Prisma.create d tb = (Resolved (JObject (row_of tb d)), inserted (row_of tb d) tb).
Proof.
  intros Hd Hseq Hnext.
  pose proof (next_id_is_free_from_sequence tb Hseq Hnext) as Hfree.
  split; [apply PG_create_stores | apply Prisma_create_stores]; assumption.
Qed.

Lemma ids_below_the_next (tb : Table.t) :
  ids_from_sequence tb = true ->
  Forall (fun x => Componente.id x < Table.id_seq tb + 1) (Table.rows tb).
Proof.
  unfold ids_from_sequence. rewrite forallb_forall, Forall_forall.
  intros H x Hx. specialize (H (Componente.id x) (in_map _ _ _ Hx)). lia.
Qed.

Lemma find_the_last (p : Componente.t -> bool) (rs : list Componente.t)
    (r : Componente.t) :
  existsb p rs = false -> p r = true -> find p (rs ++ [r]) = Some r.
Proof.
  induction rs as [|x rs IH]; cbn [existsb app find]; intros Hrs Hr.
  - rewrite Hr. reflexivity.
  - apply orb_false_iff in Hrs. destruct Hrs as [-> Hrs]. apply IH; assumption.
Qed.

Lemma insert_by_id_before_the_last (x r : Componente.t) (rs : list Componente.t) :
  Componente.id x <= Componente.id r ->
  insert_by_id x (rs ++ [r]) = (insert_by_id x rs ++ [r])%list.
Proof.
  intros Hx. induction rs as [|y rs IH]; cbn [app insert_by_id].
  - destruct (Z.leb_spec (Componente.id x) (Componente.id r)); [reflexivity | lia].
  - destruct (Componente.id x <=? Componente.id y); [reflexivity|].
    rewrite IH. reflexivity.
Qed.

Lemma order_by_id_with_the_greatest (rs : list Componente.t) (r : Componente.t) :
  Forall (fun x => Componente.id x < Componente.id r) rs ->
  order_by_id (rs ++ [r]) = (order_by_id rs ++ [r])%list.
Proof.
  induction rs as [|x rs IH]; intros H; [reflexivity|].
  inversion H as [|? ? Hx Hrs]; subst. cbn [app order_by_id].
  rewrite (IH Hrs). apply insert_by_id_before_the_last. lia.
Qed.

(** X3. A row that create has resolved with is the row getById resolves with
    for its id, in either strategy: for every field object with nombre and
    tipo, no null for precio or stock and every value within the capacity of
    its column, on every table whose ids come from the sequence and whose
    sequence has a next value. *)
Theorem X3_create_then_getById (d : Datos.t) (tb : Table.t) :
  creatable d = true ->
  ids_from_sequence tb = true ->
  int4 (Table.id_seq tb + 1) = true ->
  exists r,
    PG.create d tb = (Resolved (JObject r), inserted r tb) /\
    PG.getById (Componente.id r) (inserted r tb) = (Resolved (JObject r), inserted r tb) /\
    Prisma.create d tb = (Resolved (JObject r), inserted r tb) /\
    Prisma.getById (Componente.id r) (inserted r tb) =
      (Resolved (JObject r), inserted r tb).
Proof.
  intros Hd Hseq Hnext. exists (row_of tb d).
  destruct (create_stores_row_of d tb Hd Hseq Hnext) as [Hpg Hprisma].
  assert (Hget : PG.getById (Componente.id (row_of tb d)) (inserted (row_of tb d) tb) =
                 (Resolved (JObject (row_of tb d)), inserted (row_of tb d) tb)).
  { rewrite PG_getById_unfold. cbn [inserted Table.rows].
    rewrite find_the_last; [reflexivity | apply (sequence_value_is_fresh tb Hseq) |].
    cbn. apply Z.eqb_refl. }
  split; [exact Hpg|]. split; [exact Hget|]. split; [exact Hprisma|].
  rewrite <- getById_same. exact Hget.
Qed.

Lemma X3_create_then_getById_witness :
  creatable nombre_y_tipo = true /\
  ids_from_sequence seeded = true /\
  int4 (Table.id_seq seeded + 1) = true /\
  exists r,
    PG.create nombre_y_tipo seeded = (Resolved (JObject r), inserted r seeded) /\
    PG.getById (Componente.id r) (inserted r seeded) =
      (Resolved (JObject r), inserted r seeded) /\
    Prisma.create nombre_y_tipo seeded = (Resolved (JObject r), inserted r seeded) /\
    Prisma.getById (Componente.id r) (inserted r seeded) =
      (Resolved (JObject r), inserted r seeded).
Proof.
  split; [reflexivity|]. split; [reflexivity|]. split; [reflexivity|].
  apply (X3_create_then_getById nombre_y_tipo seeded); reflexivity.
Defined.

(** X4. The id create hands out is greater than every id of the table, so the
    list getAll gives after a create is the list it gave before with the new
    row at its end: for every field object with nombre and tipo, no null for
    precio or stock and every value within the capacity of its column, on
    every table whose ids come from the sequence and whose sequence has a
    next value. *)
Theorem X4_created_row_is_listed_last (d : Datos.t) (tb : Table.t) :
  creatable d = true ->
  ids_from_sequence tb = true ->
  int4 (Table.id_seq tb + 1) = true ->
  exists r,
    fst (PG.create d tb) = Resolved (JObject r) /\
    fst (Prisma.create d tb) = Resolved (JObject r) /\
    Forall (fun x => Componente.id x < Componente.id r) (Table.rows tb) /\
    PG.getAll (snd (PG.create d tb)) =
      (Resolved (JArray (order_by_id (Table.rows tb) ++ [r])), snd (PG.create d tb)) /\
    Prisma.getAll (snd (Prisma.create d tb)) =
      (Resolved (JArray (order_by_id (Table.rows tb) ++ [r])), snd (Prisma.create d tb)).
Proof.
  intros Hd Hseq Hnext. exists (row_of tb d).
  destruct (create_stores_row_of d tb Hd Hseq Hnext) as [-> ->]. cbn [fst snd].
  pose proof (ids_below_the_next tb Hseq) as Hlt.
  split; [reflexivity|]. split; [reflexivity|]. split; [exact Hlt|].
  assert (Hall : PG.getAll (inserted (row_of tb d) tb) =
                 (Resolved (JArray (order_by_id (Table.rows tb) ++ [row_of tb d])),
                  inserted (row_of tb d) tb)).
  { unfold PG.getAll, await. rewrite pool_query_PG.
    cbn [execute Result.of_rows Result.rows ret inserted Table.rows].
    rewrite (order_by_id_with_the_greatest (Table.rows tb) (row_of tb d) Hlt).
    reflexivity. }
  split; [exact Hall|]. rewrite <- getAll_same. exact Hall.
Qed.

Lemma X4_created_row_is_listed_last_witness :
  creatable nombre_y_tipo = true /\
  ids_from_sequence seeded = true /\
  int4 (Table.id_seq seeded + 1) = true /\
  exists r,
    fst (PG.create nombre_y_tipo seeded) = Resolved (JObject r) /\
    fst (Prisma.create nombre_y_tipo seeded) = Resolved (JObject r) /\
    Forall (fun x => Componente.id x < Componente.id r) (Table.rows seeded) /\
    PG.getAll (snd (PG.create nombre_y_tipo seeded)) =
      (Resolved (JArray (order_by_id (Table.rows seeded) ++ [r])),
       snd (PG.create nombre_y_tipo seeded)) /\
    Prisma.getAll (snd (Prisma.create nombre_y_tipo seeded)) =
      (Resolved (JArray (order_by_id (Table.rows seeded) ++ [r])),
       snd (Prisma.create nombre_y_tipo seeded)).
Proof.
  split; [reflexivity|]. split; [reflexivity|]. split; [reflexivity|].
  apply (X4_created_row_is_listed_last nombre_y_tipo seeded); reflexivity.
Defined.

(** X5. An id is never handed out twice: after remove of any id within the
    range of INT, create resolves with a row whose id is greater than every
    id the table held before the remove, the removed ones included; for every
    field object with nombre and tipo, no null for precio or stock and every
    value within the capacity of its column, on every table whose ids come
    from the sequence and whose sequence has a next value. *)
Theorem X5_ids_are_not_reused (id : Z) (d : Datos.t) (tb : Table.t) :
  int4 id = true ->
  creatable d = true ->
  ids_from_sequence tb = true ->
  int4 (Table.id_seq tb + 1) = true ->
  exists r,
    fst (PG.create d (snd (PG.remove id tb))) = Resolved (JObject r) /\
    fst (Prisma.create d (snd (Prisma.remove id tb))) = Resolved (JObject r) /\
    Forall (fun x => Componente.id x < Componente.id r) (Table.rows tb).
Proof.
  intros _ Hd Hseq Hnext. exists (row_of tb d).
  assert (Hdel : ids_from_sequence (deleted id tb) = true)
    by apply deleted_from_sequence, Hseq.
  assert (Hrow : row_of (deleted id tb) d = row_of tb d) by reflexivity.
  rewrite PG_remove_unfold. cbn [snd]. fold (deleted id tb).
  destruct (create_stores_row_of d (deleted id tb) Hd Hdel Hnext) as [Hpg Hprisma].
  rewrite Hpg, Hrow. split; [reflexivity|].
  split; [|apply (ids_below_the_next tb Hseq)].
  destruct (find (id_is (Some id)) (Table.rows tb)) as [r|] eqn:E.
  - rewrite (Prisma_remove_existing id tb r E). cbn [snd]. fold (deleted id tb).
    rewrite Hprisma, Hrow. reflexivity.
  - rewrite (Prisma_remove_missing id tb E). cbn [snd].
    destruct (create_stores_row_of d tb Hd Hseq Hnext) as [_ ->]. reflexivity.
Qed.

Lemma X5_ids_are_not_reused_witness :
  int4 4 = true /\
  creatable nombre_y_tipo = true /\
  ids_from_sequence seeded = true /\
  int4 (Table.id_seq seeded + 1) = true /\
  exists r,
    fst (PG.create nombre_y_tipo (snd (PG.remove 4 seeded))) = Resolved (JObject r) /\
    fst (Prisma.create nombre_y_tipo (snd (Prisma.remove 4 seeded))) =
      Resolved (JObject r) /\
    Forall (fun x => Componente.id x < Componente.id r) (Table.rows seeded).
Proof.
  split; [reflexivity|]. split; [reflexivity|]. split; [reflexivity|].
  split; [reflexivity|].
  apply (X5_ids_are_not_reused 4 nombre_y_tipo seeded); reflexivity.
Defined.

(** ** The dynamic SQL of PG.update *)

(** X6. Whatever the field object, the SET fragments and the values that
    PG.update collects line up: there is one fragment per property that is not
    undefined, in the order nombre, tipo, marca, precio, stock, each column at
    most once; the fragments carry the placeholders $1, $2, ... in order; the
    counter ends one past their number; the value bound to each fragment's
    placeholder is the property of its column; and once the id is pushed, the
    placeholder of the WHERE clause is bound to the id. *)
Theorem X6_placeholders_line_up (id : Z) (d : Datos.t) (r : Componente.t) :
  let b := PG.build d in
  let values := (PG.values b ++ [PNum id])%list in
  map fst (PG.fields b) = filter (fun c => column_defined c d) all_columns /\
  map snd (PG.fields b) = map Placeholder (seq 1 (List.length (PG.fields b))) /\
  assigned_once (PG.fields b) = true /\
  List.length (PG.values b) = List.length (PG.fields b) /\
  PG.i b = S (List.length (PG.fields b)) /\
  map (fun ce => eval (snd ce) values r) (PG.fields b) =
    map (fun ce => Resolved (column_param (fst ce) d)) (PG.fields b) /\
  bind_param values (PG.i b) = Resolved (PNum id).
Proof. by_fields d; cbv zeta; repeat split; reflexivity. Qed.

(** ** update that is refused *)

Lemma refused_has_a_key (d : Datos.t) : admissible d = false -> no_key d = false.
Proof. by_fields d; cbn; intros H; try discriminate H; reflexivity. Qed.

(** X7. A field object that gives null to nombre, tipo, precio or stock, its
    other values within the capacity of their columns, is refused on an
    existing id within the range of INT: PG.update rejects with the NOT NULL
    violation of the store, Prisma.update with the validation error of the
    client, and the table is as before.  On such an id that matches no row
    PG.update still resolves with null, since no row is written, while
    Prisma.update rejects in the same way: the client checks the object
    first. *)
Theorem X7_update_with_null_for_a_required_column (id : Z) (d : Datos.t) (tb : Table.t) :
  admissible d = false ->
  within_capacity d = true ->
  int4 id = true ->
  (forall r, find (id_is (Some id)) (Table.rows tb) = Some r ->
     PG.update id d tb = (Rejected (DatabaseError not_null_violation), tb)) /\
  (find (id_is (Some id)) (Table.rows tb) = None ->
     PG.update id d tb = (Resolved JNull, tb)) /\
  Prisma.update id d tb = (Rejected PrismaClientValidationError, tb).
Proof.
  intros Hd Hc _. split; [|split].
  - intros r Hr. rewrite PG_update_unfold, (refused_has_a_key d Hd).
    rewrite (update_rows_rejected _ (DatabaseError not_null_violation) _ _ r);
      [reflexivity | intros x; apply set_clause_refused; assumption | exact Hr].
  - apply PG_update_missing.
  - rewrite Prisma_update_by_set_clause, Hd. reflexivity.
Qed.

Lemma X7_update_with_null_for_a_required_column_witness :
  admissible (Datos.set_stock Null solo_precio) = false /\
  within_capacity (Datos.set_stock Null solo_precio) = true /\
  int4 3 = true /\ int4 99 = true /\
  find (id_is (Some 3)) (Table.rows seeded) =
    Some (Componente.mk 3 "RTX 4060" "GPU" (Some "NVIDIA") 29999 5 0) /\
  find (id_is (Some 99)) (Table.rows seeded) = None /\
  PG.update 3 (Datos.set_stock Null solo_precio) seeded =
    (Rejected (DatabaseError not_null_violation), seeded) /\
  PG.update 99 (Datos.set_stock Null solo_precio) seeded = (Resolved JNull, seeded) /\
  Prisma.update 3 (Datos.set_stock Null solo_precio) seeded =
    (Rejected PrismaClientValidationError, seeded).
Proof.
  split; [reflexivity|]. split; [reflexivity|]. split; [reflexivity|].
  split; [reflexivity|]. split; [reflexivity|]. split; [reflexivity|].
  destruct (X7_update_with_null_for_a_required_column 3
              (Datos.set_stock Null solo_precio) seeded eq_refl eq_refl eq_refl)
    as [Hpg [_ Hprisma]].
  destruct (X7_update_with_null_for_a_required_column 99
              (Datos.set_stock Null solo_precio) seeded eq_refl eq_refl eq_refl)
    as [_ [Hmissing _]].
  split; [exact (Hpg _ eq_refl)|]. split; [exact (Hmissing eq_refl) | exact Hprisma].
Defined.

(** X8. An update is all or nothing: when it rejects, in either strategy and
    for whatever reason, the table is exactly as it was. *)
Theorem X8_rejected_update_writes_nothing (id : Z) (d : Datos.t) (tb tb' : Table.t)
    (e : JsError) :
  PG.update id d tb = (Rejected e, tb') \/ Prisma.update id d tb = (Rejected e, tb') ->
  tb' = tb.
Proof.
  intros [H | H].
  - rewrite PG_update_unfold in H. destruct (no_key d).
    + rewrite PG_getById_unfold in H. discriminate H.
    + destruct (update_rows _ _ _) as [[rs' returned]|]; [discriminate H|].
      injection H as _ <-. reflexivity.
  - rewrite Prisma_update_by_set_clause in H.
    destruct (admissible d); [|injection H as _ <-; reflexivity].
    destruct (find _ _); [|injection H as _ <-; reflexivity].
    destruct (update_rows _ _ _) as [[rs' returned]|]; [discriminate H|].
    injection H as _ <-. reflexivity.
Qed.

Lemma X8_rejected_update_writes_nothing_witness :
  (PG.update 1 nombre_null seeded = (Rejected (DatabaseError not_null_violation), seeded) \/
   Prisma.update 1 nombre_null seeded =
     (Rejected (DatabaseError not_null_violation), seeded)) /\
  seeded = seeded.
Proof.
  assert (H : PG.update 1 nombre_null seeded =
                (Rejected (DatabaseError not_null_violation), seeded) \/
              Prisma.update 1 nombre_null seeded =
                (Rejected (DatabaseError not_null_violation), seeded))
    by (left; reflexivity).
  split; [exact H|].
  exact (X8_rejected_update_writes_nothing 1 nombre_null seeded seeded
           (DatabaseError not_null_violation) H).
Defined.

(** ** What update and remove leave alone *)

Lemma find_among_the_others (id id' : Z) (rs : list Componente.t) :
  id' <> id ->
  find (id_is (Some id')) (filter (fun r => negb (id_is (Some id) r)) rs) =
  find (id_is (Some id')) rs.
Proof.
  intros Hne. induction rs as [|r rs IH]; cbn [filter find id_is]; [reflexivity|].
  destruct (Z.eqb_spec (Componente.id r) id) as [E|E]; cbn [negb find id_is].
  - destruct (Z.eqb_spec (Componente.id r) id'); [lia | exact IH].
  - destruct (Componente.id r =? id'); [reflexivity | exact IH].
Qed.

Lemma find_by_the_others (id id' : Z) (rs rs' : list Componente.t) :
  id' <> id ->
  filter (fun r => negb (id_is (Some id) r)) rs' =
    filter (fun r => negb (id_is (Some id) r)) rs ->
  find (id_is (Some id')) rs' = find (id_is (Some id')) rs.
Proof.
  intros Hne H.
  rewrite <- (find_among_the_others id id' rs' Hne), H.
  apply find_among_the_others, Hne.
Qed.

Lemma PG_update_others (id : Z) (d : Datos.t) (tb : Table.t) :
  filter (fun r => negb (id_is (Some id) r)) (Table.rows (snd (PG.update id d tb))) =
  filter (fun r => negb (id_is (Some id) r)) (Table.rows tb).
Proof.
  rewrite PG_update_unfold. destruct (no_key d).
  - rewrite PG_getById_unfold. reflexivity.
  - destruct (update_rows _ _ _) as [[rs' returned]|] eqn:E; [|reflexivity].
    refine (update_rows_others _ _ _ _ _ _ E).
    intros r r' H. apply identity_id, (set_clause_identity d), H.
Qed.

Lemma Prisma_update_others (id : Z) (d : Datos.t) (tb : Table.t) :
  filter (fun r => negb (id_is (Some id) r)) (Table.rows (snd (Prisma.update id d tb))) =
  filter (fun r => negb (id_is (Some id) r)) (Table.rows tb).
Proof.
  rewrite Prisma_update_by_set_clause.
  destruct (admissible d); [|reflexivity].
  destruct (find _ _); [|reflexivity].
  destruct (update_rows _ _ _) as [[rs' returned]|] eqn:E; [|reflexivity].
  refine (update_rows_others _ _ _ _ _ _ E).
  intros r r' H. apply identity_id, (client_set_clause_identity d), H.
Qed.

(** X9. update touches the rows of its id and no other: whatever the id and
    the field object, and in either strategy, the rows with another id are the
    same after it as before, in the same order, and getById resolves for every
    other id with what it resolved with before. *)
Theorem X9_update_leaves_other_rows_alone (id id' : Z) (d : Datos.t) (tb : Table.t) :
  filter (fun r => negb (Componente.id r =? id)) (Table.rows (snd (PG.update id d tb))) =
    filter (fun r => negb (Componente.id r =? id)) (Table.rows tb) /\
  filter (fun r => negb (Componente.id r =? id)) (Table.rows (snd (Prisma.update id d tb))) =
    filter (fun r => negb (Componente.id r =? id)) (Table.rows tb) /\
  (id' <> id ->
   fst (PG.getById id' (snd (PG.update id d tb))) = fst (PG.getById id' tb) /\
   fst (Prisma.getById id' (snd (Prisma.update id d tb))) = fst (Prisma.getById id' tb)).
Proof.
  split; [apply PG_update_others|]. split; [apply Prisma_update_others|].
  intros Hne. rewrite <- !getById_same, !PG_getById_unfold. cbn [fst].
  rewrite (find_by_the_others id id' _ _ Hne (PG_update_others id d tb)).
  rewrite (find_by_the_others id id' _ _ Hne (Prisma_update_others id d tb)).
  split; reflexivity.
Qed.

Lemma X9_update_leaves_other_rows_alone_witness :
  2 <> 1 /\
  fst (PG.getById 2 (snd (PG.update 1 solo_precio seeded))) = fst (PG.getById 2 seeded) /\
  fst (Prisma.getById 2 (snd (Prisma.update 1 solo_precio seeded))) =
    fst (Prisma.getById 2 seeded).
Proof.
  assert (Hne : 2 <> 1) by discriminate.
  split; [exact Hne|].
  exact (proj2 (proj2 (X9_update_leaves_other_rows_alone 1 2 solo_precio seeded)) Hne).
Defined.

(** X10. remove drops the rows of its id and nothing else: for an id within
    the range of INT, PG.remove never rejects and leaves the table without
    them, the sequence where it was; getById then resolves with null for that
    id, in either strategy, and for every other id within the range of INT
    with what it resolved with before. *)
Theorem X10_remove_drops_the_rows_of_the_id_only (id id' : Z) (tb : Table.t) :
  int4 id = true ->
  exists b,
    PG.remove id tb = (Resolved (JBool b), deleted id tb) /\
    Table.rows (deleted id tb) =
      filter (fun r => negb (Componente.id r =? id)) (Table.rows tb) /\
    Table.id_seq (deleted id tb) = Table.id_seq tb /\
    PG.getById id (deleted id tb) = (Resolved JNull, deleted id tb) /\
    Prisma.getById id (deleted id tb) = (Resolved JNull, deleted id tb) /\
    (id' <> id -> int4 id' = true ->
     fst (PG.getById id' (deleted id tb)) = fst (PG.getById id' tb) /\
     fst (Prisma.getById id' (deleted id tb)) = fst (Prisma.getById id' tb)).
Proof.
  intros _.
  eexists. split; [apply PG_remove_unfold|]. split; [reflexivity|].
  split; [reflexivity|].
  assert (Hnull : PG.getById id (deleted id tb) = (Resolved JNull, deleted id tb)).
  { rewrite PG_getById_unfold, nothing_left_to_delete. reflexivity. }
  split; [exact Hnull|]. split; [rewrite <- getById_same; exact Hnull|].
  intros Hne _. rewrite <- !getById_same, !PG_getById_unfold. cbn [fst deleted Table.rows
    Table.with_rows].
  rewrite (find_among_the_others id id' _ Hne). split; reflexivity.
Qed.

Lemma X10_remove_drops_the_rows_of_the_id_only_witness :
  int4 2 = true /\ int4 3 = true /\
  3 <> 2 /\
  (exists b, PG.remove 2 seeded = (Resolved (JBool b), deleted 2 seeded)) /\
  PG.getById 2 (deleted 2 seeded) = (Resolved JNull, deleted 2 seeded) /\
  fst (PG.getById 3 (deleted 2 seeded)) = fst (PG.getById 3 seeded) /\
  fst (Prisma.getById 3 (deleted 2 seeded)) = fst (Prisma.getById 3 seeded).
Proof.
  assert (Hne : 3 <> 2) by discriminate.
  split; [reflexivity|]. split; [reflexivity|]. split; [exact Hne|].
  destruct (X10_remove_drops_the_rows_of_the_id_only 2 3 seeded eq_refl)
    as [b [Hremove [_ [_ [Hnull [_ Hothers]]]]]].
  split; [exists b; exact Hremove|].
  split; [exact Hnull | exact (Hothers Hne eq_refl)].
Defined.

(** ** update twice *)

Lemma set_clause_again (d : Datos.t) (r r' : Componente.t) :
  set_clause d r = Resolved r' ->
  set_clause d r' = Resolved r' /\ Componente.id r' = Componente.id r.
Proof.
  intros H. split; [exact (set_clause_twice d r r' H)|].
  exact (identity_id _ _ (set_clause_identity d r r' H)).
Qed.

Lemma client_set_clause_again (d : Datos.t) (r r' : Componente.t) :
  as_the_client_reports (set_clause d r) = Resolved r' ->
  as_the_client_reports (set_clause d r') = Resolved r' /\
  Componente.id r' = Componente.id r.
Proof.
  intros H. apply as_the_client_reports_resolved in H.
  destruct (set_clause_again d r r' H) as [H1 H2]. rewrite H1. split; [reflexivity | exact H2].
Qed.

(** X11. update is idempotent: on an existing id and a field object the
    columns admit, the same update issued a second time resolves with the same
    row and leaves the table as the first left it, in either strategy. *)
Theorem X11_update_twice_is_update_once (id : Z) (d : Datos.t) (tb : Table.t)
    (r : Componente.t) :
  find (id_is (Some id)) (Table.rows tb) = Some r ->
  admissible d = true ->
  PG.update id d (snd (PG.update id d tb)) = PG.update id d tb /\
  Prisma.update id d (snd (Prisma.update id d tb)) = Prisma.update id d tb.
Proof.
  intros Hr Hd. split.
  - rewrite !PG_update_unfold. destruct (no_key d).
    + rewrite !PG_getById_unfold. reflexivity.
    + destruct (update_rows _ _ (Table.rows tb)) as [[rs' returned]|] eqn:E;
        cbn [snd Table.rows Table.with_rows]; [|rewrite E; reflexivity].
      rewrite (update_rows_twice _ _ (set_clause_again d) _ _ _ E). reflexivity.
  - rewrite !Prisma_update_by_set_clause, Hd, Hr.
    destruct (update_rows _ _ (Table.rows tb)) as [[rs' returned]|] eqn:E;
      cbn [snd Table.rows Table.with_rows]; [|rewrite Hr, E; reflexivity].
    destruct (update_rows_finds _ _
                (fun x x' H => proj2 (client_set_clause_again d x x' H)) _ _ _ _ E Hr)
      as [r' ->].
    rewrite (update_rows_twice _ _ (client_set_clause_again d) _ _ _ E). reflexivity.
Qed.

Lemma X11_update_twice_is_update_once_witness :
  find (id_is (Some 1)) (Table.rows seeded) = Some ryzen /\
  admissible marca_null_precio = true /\
  PG.update 1 marca_null_precio (snd (PG.update 1 marca_null_precio seeded)) =
    PG.update 1 marca_null_precio seeded /\
  Prisma.update 1 marca_null_precio (snd (Prisma.update 1 marca_null_precio seeded)) =
    Prisma.update 1 marca_null_precio seeded.
Proof.
  split; [reflexivity|]. split; [reflexivity|].
  apply (X11_update_twice_is_update_once 1 marca_null_precio seeded ryzen); reflexivity.
Defined.

(** ** The later revision of the PG repository *)

(** X12. In the later revision of componentes.pg.repo.js only getAll can
    succeed: it resolves with the whole result object of the query (rows in
    ascending order of id, and their count).  getById, create, update and
    remove call through [model], which that file never binds, so each rejects
    with a ReferenceError whatever its arguments, and the table is untouched. *)
Theorem X12_draft_repository_cannot_reach_model (id : Z) (d : Datos.t) (tb : Table.t) :
  PGDraft.getAll tb =
    (Resolved (JResult (Result.mk (order_by_id (Table.rows tb))
                          (List.length (order_by_id (Table.rows tb))))), tb) /\
  PGDraft.getById id tb = (Rejected (ReferenceError "model"), tb) /\
  PGDraft.create d tb = (Rejected (ReferenceError "model"), tb) /\
  PGDraft.update id d tb = (Rejected (ReferenceError "model"), tb) /\
  PGDraft.remove id tb = (Rejected (ReferenceError "model"), tb).
Proof. repeat split; reflexivity. Qed.

(** ** The handlers of app.js, whatever the repository and the scope *)

(** X13. What GET /componentes answers is decided by what repo.getAll gives:
    when it rejects, 500 with the error; when it resolves with a result
    object, 200 with the rows of that object; when it resolves with an array,
    200 with the JSON of undefined, an array having no property rows.  The
    handler itself writes nothing. *)
Theorem X13_list_handler_by_what_getAll_gives (repo : Repo.t) (tb tb' : Table.t)
    (e : JsError) (q : Result.t) (l : list Componente.t) :
  (Repo.getAll repo tb = (Rejected e, tb') ->
   App.get_componentes repo tb =
     (Resolved (internal_error "Error al listar componentes" e), tb')) /\
  (Repo.getAll repo tb = (Resolved (JResult q), tb') ->
   App.get_componentes repo tb =
     (Resolved (Response.mk 200 (Json (JArray (Result.rows q)))), tb')) /\
  (Repo.getAll repo tb = (Resolved (JArray l), tb') ->
   App.get_componentes repo tb = (Resolved (Response.mk 200 (Json JUndefined)), tb')).
Proof.
  unfold App.get_componentes, Routes.get_componentes, try_catch, await.
  repeat split; intros ->; reflexivity.
Qed.

Lemma X13_list_handler_by_what_getAll_gives_witness :
  Repo.getAll (failing_repo (DatabaseError "08006")) seeded =
    (Rejected (DatabaseError "08006"), seeded) /\
  App.get_componentes (failing_repo (DatabaseError "08006")) seeded =
    (Resolved (internal_error "Error al listar componentes" (DatabaseError "08006")),
     seeded) /\
  App.get_componentes pg_draft_repo seeded =
    (Resolved (Response.mk 200 (Json (JArray (seed_rows 0)))), seeded) /\
  App.get_componentes prisma_repo seeded =
    (Resolved (Response.mk 200 (Json JUndefined)), seeded).
Proof.
  split; [reflexivity|].
  split; [|split].
  - exact (proj1 (X13_list_handler_by_what_getAll_gives
                    (failing_repo (DatabaseError "08006")) seeded seeded
                    (DatabaseError "08006") (Result.mk [] 0) []) eq_refl).
  - exact (proj1 (proj2 (X13_list_handler_by_what_getAll_gives
                           pg_draft_repo seeded seeded TypeError
                           (Result.mk (seed_rows 0) 4) [])) eq_refl).
  - exact (proj2 (proj2 (X13_list_handler_by_what_getAll_gives
                           prisma_repo seeded seeded TypeError
                           (Result.mk [] 0) (seed_rows 0))) eq_refl).
Defined.

(** X14. POST /componentes and PUT /componentes/:id answer 400 exactly when
    nombre or tipo is falsy in the body (undefined, null or the empty string),
    and then send no query: the table is untouched, whatever the module scope.
    Otherwise POST answers 201 or 500, and PUT 200, 404 or 500. *)
Theorem X14_required_fields_are_checked_by_truthiness (sc : Scope) (req : Request.t)
    (tb : Table.t) :
  (truthy (Datos.nombre (Request.body req)) && truthy (Datos.tipo (Request.body req))
   = false ->
   Routes.post_componente sc req tb = (Resolved campos_obligatorios, tb) /\
   Routes.put_componente sc req tb = (Resolved campos_obligatorios, tb)) /\
  (truthy (Datos.nombre (Request.body req)) && truthy (Datos.tipo (Request.body req))
   = true ->
   (exists r tb', Routes.post_componente sc req tb = (Resolved r, tb') /\
                  (Response.status r = 201 \/ Response.status r = 500)%nat) /\
   (exists r tb', Routes.put_componente sc req tb = (Resolved r, tb') /\
                  (Response.status r = 200 \/ Response.status r = 404 \/
                   Response.status r = 500)%nat)).
Proof.
  split.
  - intros H. apply andb_false_iff in H. split; [|apply put_componente_refused, H].
    unfold Routes.post_componente.
    replace (negb (truthy (Datos.nombre (Request.body req)))
             || negb (truthy (Datos.tipo (Request.body req)))) with true;
      [reflexivity|].
    destruct H as [-> | ->]; [reflexivity | apply eq_sym, orb_true_r].
  - intros H. apply andb_true_iff in H. destruct H as [Hn Ht]. split.
    + unfold Routes.post_componente, try_catch, await. rewrite Hn, Ht. cbn [negb orb].
      destruct (pool_query sc InsertReturning _ tb) as [[q|e] tb1];
        do 2 eexists; (split; [reflexivity|]); cbn; auto.
    + unfold Routes.put_componente, try_catch, await. rewrite Hn, Ht. cbn [negb orb].
      destruct (pool_query sc (SelectWhereId 1) _ tb) as [[q|e] tb1];
        [|do 2 eexists; (split; [reflexivity|]); cbn; auto].
      destruct (List.length (Result.rows q) =? 0)%nat;
        [do 2 eexists; (split; [reflexivity|]); cbn; auto|].
      destruct (pool_query sc (UpdateSetWhereId Routes.coalesce_all 6) _ tb1)
        as [[q2|e2] tb2]; do 2 eexists; (split; [reflexivity|]); cbn; auto.
Qed.

Lemma X14_required_fields_are_checked_by_truthiness_witness :
  truthy (Datos.nombre nombre_vacio) && truthy (Datos.tipo nombre_vacio) = false /\
  truthy (Datos.nombre nombre_y_tipo) && truthy (Datos.tipo nombre_y_tipo) = true /\
  Routes.post_componente PG.scope (Request.mk "1" nombre_vacio) seeded =
    (Resolved campos_obligatorios, seeded) /\
  Routes.put_componente PG.scope (Request.mk "1" nombre_vacio) seeded =
    (Resolved campos_obligatorios, seeded) /\
  exists r tb', Routes.post_componente PG.scope (Request.mk "1" nombre_y_tipo) seeded =
                  (Resolved r, tb') /\
                (Response.status r = 201 \/ Response.status r = 500)%nat.
Proof.
  split; [reflexivity|]. split; [reflexivity|].
  destruct (X14_required_fields_are_checked_by_truthiness PG.scope
              (Request.mk "1" nombre_vacio) seeded) as [Hfalsy _].
  destruct (Hfalsy eq_refl) as [Hpost Hput].
  split; [exact Hpost|]. split; [exact Hput|].
  destruct (X14_required_fields_are_checked_by_truthiness PG.scope
              (Request.mk "1" nombre_y_tipo) seeded) as [_ Htruthy].
  exact (proj1 (Htruthy eq_refl)).
Defined.

(** ** The handlers in a module that binds [pool]

    app.js does not bind [pool]; the properties of this section are those of
    the handlers as written, in a scope that does. *)

Lemma pool_query_bound (sc : Scope) (q : Statement) (params : list Param) (tb : Table.t) :
  resolve sc "pool" = Resolved tt -> pool_query sc q params tb = execute q params tb.
Proof. intros H. unfold pool_query. rewrite H. reflexivity. Qed.

Lemma select_by_path_id (path_id : string) (id : Z) (tb : Table.t) :
  parse_int path_id = Some id -> int4 id = true ->
  execute (SelectWhereId 1) [PText path_id] tb =
  (Resolved (Result.of_rows (filter (id_is (Some id)) (Table.rows tb))), tb).
Proof. intros H Hid. cbn. rewrite H, Hid. reflexivity. Qed.

Lemma delete_by_path_id (path_id : string) (id : Z) (tb : Table.t) :
  parse_int path_id = Some id -> int4 id = true ->
  execute (DeleteWhereId 1) [PText path_id] tb =
  (Resolved (Result.of_rows (filter (id_is (Some id)) (Table.rows tb))), deleted id tb).
Proof. intros H Hid. cbn. rewrite H, Hid. reflexivity. Qed.

(** A path id that denotes an integer beyond the range of INT is refused by
    the store, and one that denotes no integer too: the handlers answer 500. *)
Example path_id_refused :
  parse_int "99999999999" = Some 99999999999 /\
  Routes.get_componente PG.scope (Request.mk "99999999999" Datos.empty) seeded =
    (Resolved (internal_error "Error al obtener componentes"
                 (DatabaseError numeric_value_out_of_range)), seeded) /\
  parse_int "abc" = None /\
  Routes.get_componente PG.scope (Request.mk "abc" Datos.empty) seeded =
    (Resolved (internal_error "Error al obtener componentes"
                 (DatabaseError invalid_text_representation)), seeded).
Proof. repeat split; reflexivity. Qed.

(** An integer in a text, as the store reads it: blanks around it and a sign
    before it are allowed. *)
Example parse_int_examples :
  parse_int "2" = Some 2 /\ parse_int "+1" = Some 1 /\ parse_int " 1" = Some 1 /\
  parse_int "1 " = Some 1 /\ parse_int "-12" = Some (-12) /\ parse_int "007" = Some 7 /\
  parse_int "" = None /\ parse_int " " = None /\ parse_int "1a" = None /\
  parse_int "+" = None /\ parse_int "1 2" = None.
Proof. repeat split; reflexivity. Qed.

(** X15. In a module that binds pool, and for a path id that denotes the
    integer id, within the range of INT: GET /componentes/:id answers 404 when
    no row has the id and 200 with the row otherwise, writing nothing; DELETE
    /componentes/:id answers 404 when no row has the id, leaving the table as
    it was, and 204 with no body otherwise, leaving the table without the rows
    of that id. *)
Theorem X15_get_and_delete_by_id_when_pool_is_bound (sc : Scope) (path_id : string)
    (id : Z) (body : Datos.t) (tb : Table.t) :
  resolve sc "pool" = Resolved tt ->
  parse_int path_id = Some id ->
  int4 id = true ->
  (find (id_is (Some id)) (Table.rows tb) = None ->
   Routes.get_componente sc (Request.mk path_id body) tb = (Resolved no_encontrado, tb) /\
   Routes.delete_componente sc (Request.mk path_id body) tb =
     (Resolved no_encontrado, tb)) /\
  (forall r, find (id_is (Some id)) (Table.rows tb) = Some r ->
   Routes.get_componente sc (Request.mk path_id body) tb =
     (Resolved (Response.mk 200 (Json (JObject r))), tb) /\
   Routes.delete_componente sc (Request.mk path_id body) tb =
     (Resolved (Response.mk 204 NoBody), deleted id tb)).
Proof.
  intros Hpool Hid Hint.
  unfold Routes.get_componente, Routes.delete_componente, try_catch, await.
  cbn [Request.id]. rewrite !(pool_query_bound sc _ _ _ Hpool).
  rewrite (select_by_path_id _ _ _ Hid Hint), (delete_by_path_id _ _ _ Hid Hint).
  cbn [Result.of_rows Result.rows]. split.
  - intros Hr. destruct (filter_none _ _ Hr) as [E1 E2]. rewrite E1.
    split; [reflexivity|]. unfold deleted. rewrite E2, with_rows_same. reflexivity.
  - intros r Hr. destruct (filter_find _ _ _ Hr) as [rest ->]. split; reflexivity.
Qed.

Lemma X15_get_and_delete_by_id_when_pool_is_bound_witness :
  resolve PG.scope "pool" = Resolved tt /\
  parse_int " +2" = Some 2 /\ int4 2 = true /\
  parse_int "99" = Some 99 /\ int4 99 = true /\
  Routes.get_componente PG.scope (Request.mk "99" Datos.empty) seeded =
    (Resolved no_encontrado, seeded) /\
  Routes.delete_componente PG.scope (Request.mk "99" Datos.empty) seeded =
    (Resolved no_encontrado, seeded) /\
  Routes.get_componente PG.scope (Request.mk " +2" Datos.empty) seeded =
    (Resolved (Response.mk 200
       (Json (JObject (Componente.mk 2 "Core i5-12400F" "CPU" (Some "Intel") 14999 8 0)))),
     seeded) /\
  Routes.delete_componente PG.scope (Request.mk " +2" Datos.empty) seeded =
    (Resolved (Response.mk 204 NoBody), deleted 2 seeded).
Proof.
  split; [reflexivity|]. split; [reflexivity|]. split; [reflexivity|].
  split; [reflexivity|]. split; [reflexivity|].
  destruct (X15_get_and_delete_by_id_when_pool_is_bound PG.scope "99" 99 Datos.empty
              seeded eq_refl eq_refl eq_refl) as [Hmissing _].
  destruct (Hmissing eq_refl) as [Hget Hdelete].
  split; [exact Hget|]. split; [exact Hdelete|].
  destruct (X15_get_and_delete_by_id_when_pool_is_bound PG.scope " +2" 2 Datos.empty
              seeded eq_refl eq_refl eq_refl) as [_ Hexisting].
  exact (Hexisting _ eq_refl).
Defined.

Lemma coalesce_set_clause (path_id : string) (d : Datos.t) (r : Componente.t) :
  truthy (Datos.nombre d) = true -> truthy (Datos.tipo d) = true ->
  within_capacity d = true -> row_fits r = true ->
  set_columns Routes.coalesce_all
    [prepare_text (or_null (Datos.nombre d)); prepare_text (or_null (Datos.tipo d));
     prepare_text (or_null (Datos.marca d)); prepare_num (or_null (Datos.precio d));
     prepare_num (or_null (Datos.stock d)); PText path_id] r =
  Resolved (coalesce_update d r).
Proof.
  intros Hn Ht Hc Hr. destruct r as [i n t m p s c].
  unfold row_fits in Hr.
  cbn [Componente.nombre Componente.tipo Componente.marca Componente.precio
    Componente.stock] in Hr.
  by_fields d; try discriminate Hn; try discriminate Ht; destruct m;
    cbn [within_capacity all_columns forallb column_fits text_fits price_fits
      int_fits Datos.nombre Datos.tipo Datos.marca Datos.precio Datos.stock] in Hc;
    repeat match goal with
           | H : _ && _ = true |- _ => apply andb_prop in H; destruct H
           end;
    unfold set_columns, write_values;
    cbn [Routes.coalesce_all eval_all eval bind_param nth_error obind or_null
      prepare_text prepare_num column_value Datos.nombre Datos.tipo Datos.marca
      Datos.precio Datos.stock Componente.nombre Componente.tipo Componente.marca
      Componente.precio Componente.stock coerce_values coerce coerce_number];
    repeat match goal with
           | H : text_ok ?n ?s = true |- _ => rewrite (varchar_fits n s H)
           | H : numeric_10_2 _ = true |- _ => rewrite H
           | H : int4 _ = true |- _ => rewrite H
           end;
    reflexivity.
Qed.

(** X16. In a module that binds pool, for a path id that denotes the integer
    id, within the range of INT, a body whose nombre and tipo are truthy and
    whose values are within the capacity of their columns, and a table whose
    rows are within the capacity of theirs, PUT /componentes/:id answers 404
    when no row has the id, writing nothing, and otherwise 200 with the row in
    which a column holds the value of the body where there is one and the
    stored value where the body gives null or nothing.  So, unlike update of
    the repository, this handler cannot set marca to null. *)
Theorem X16_put_coalesces_when_pool_is_bound (sc : Scope) (path_id : string) (id : Z)
    (d : Datos.t) (tb : Table.t) :
  resolve sc "pool" = Resolved tt ->
  parse_int path_id = Some id ->
  int4 id = true ->
  truthy (Datos.nombre d) = true ->
  truthy (Datos.tipo d) = true ->
  within_capacity d = true ->
  forallb row_fits (Table.rows tb) = true ->
  (find (id_is (Some id)) (Table.rows tb) = None ->
   Routes.put_componente sc (Request.mk path_id d) tb = (Resolved no_encontrado, tb)) /\
  (forall r, find (id_is (Some id)) (Table.rows tb) = Some r ->
   Routes.put_componente sc (Request.mk path_id d) tb =
     (Resolved (Response.mk 200 (Json (JObject (coalesce_update d r)))),
      Table.with_rows
        (map (fun x => if Componente.id x =? id then coalesce_update d x else x)
           (Table.rows tb)) tb)).
Proof.
  intros Hpool Hid Hint Hn Ht Hc Hrows.
  unfold Routes.put_componente, try_catch, await.
  cbn [Request.id Request.body]. rewrite Hn, Ht. cbn [negb orb].
  rewrite !(pool_query_bound sc _ _ _ Hpool), (select_by_path_id _ _ _ Hid Hint).
  cbn [Result.of_rows Result.rows]. split.
  - intros Hr. destruct (filter_none _ _ Hr) as [-> _]. reflexivity.
  - intros r Hr. destruct (filter_find _ _ _ Hr) as [rest E]. rewrite E.
    cbn [List.length Nat.eqb]. rewrite (pool_query_bound sc _ _ _ Hpool).
    unfold execute.
    cbn [assigned_once Routes.coalesce_all existsb Column_eqb fst negb andb orb
         bind_param nth_error obind as_num].
    rewrite Hid, Hint.
    rewrite (update_rows_resolved_on _ (coalesce_update d)).
    + rewrite E. reflexivity.
    + intros x Hx _. apply coalesce_set_clause; try assumption.
      rewrite forallb_forall in Hrows. exact (Hrows x Hx).
Qed.

Lemma X16_put_coalesces_when_pool_is_bound_witness :
  resolve PG.scope "pool" = Resolved tt /\
  parse_int "1" = Some 1 /\
  int4 1 = true /\
  truthy (Datos.nombre (Datos.set_marca Null nombre_y_tipo)) = true /\
  truthy (Datos.tipo (Datos.set_marca Null nombre_y_tipo)) = true /\
  within_capacity (Datos.set_marca Null nombre_y_tipo) = true /\
  forallb row_fits (Table.rows seeded) = true /\
  find (id_is (Some 1)) (Table.rows seeded) = Some ryzen /\
  Routes.put_componente PG.scope (Request.mk "1" (Datos.set_marca Null nombre_y_tipo))
    seeded =
    (Resolved (Response.mk 200
       (Json (JObject (Componente.mk 1 "Ryzen 7 5800X" "CPU" (Some "AMD") 12999 12 0)))),
     Table.with_rows
       (map (fun x => if Componente.id x =? 1
                      then coalesce_update (Datos.set_marca Null nombre_y_tipo) x else x)
          (Table.rows seeded)) seeded).
Proof.
  split; [reflexivity|]. split; [reflexivity|]. split; [reflexivity|].
  split; [reflexivity|]. split; [reflexivity|]. split; [reflexivity|].
  split; [reflexivity|]. split; [reflexivity|].
  exact (proj2 (X16_put_coalesces_when_pool_is_bound PG.scope "1" 1
                  (Datos.set_marca Null nombre_y_tipo) seeded
                  eq_refl eq_refl eq_refl eq_refl eq_refl eq_refl eq_refl) ryzen eq_refl).
Defined.

(** A value of the body beyond the capacity of its column is refused by the
    store: the handler answers 500 and the table is as before. *)
Example put_beyond_capacity :
  Routes.put_componente PG.scope
    (Request.mk "1" (Datos.set_stock (Val 2147483648) nombre_y_tipo)) seeded =
    (Resolved (internal_error "Error al actualizar componente"
                 (DatabaseError numeric_value_out_of_range)), seeded).
Proof. reflexivity. Qed.

(** X17. In a module that binds pool, and for a body whose nombre and tipo are
    truthy, POST /componentes does what create of the PG repository does with
    that body: it answers 201 with the row when create would resolve, 500 with
    the error when create would reject, and leaves the table as create would. *)
Theorem X17_post_is_create_when_pool_is_bound (sc : Scope) (req : Request.t)
    (tb : Table.t) :
  resolve sc "pool" = Resolved tt ->
  truthy (Datos.nombre (Request.body req)) = true ->
  truthy (Datos.tipo (Request.body req)) = true ->
  Routes.post_componente sc req tb =
  match PG.create (Request.body req) tb with
  | (Resolved row, tb') => (Resolved (Response.mk 201 (Json row)), tb')
  | (Rejected e, tb') => (Resolved (internal_error "Error al crear componentes" e), tb')
  end.
Proof.
  intros Hpool Hn Ht.
  unfold PG.create, await. rewrite pool_query_PG.
  unfold Routes.post_componente, try_catch, await.
  rewrite Hn, Ht. cbn [negb orb].
  rewrite (pool_query_bound sc _ _ _ Hpool).
  destruct (execute InsertReturning _ tb) as [[q|e] tb']; reflexivity.
Qed.

Lemma X17_post_is_create_when_pool_is_bound_witness :
  resolve PG.scope "pool" = Resolved tt /\
  truthy (Datos.nombre nombre_y_tipo) = true /\
  truthy (Datos.tipo nombre_y_tipo) = true /\
  Routes.post_componente PG.scope (Request.mk "" nombre_y_tipo) seeded =
    (Resolved (Response.mk 201
       (Json (JObject (Componente.mk 5 "Ryzen 7 5800X" "CPU" None 0 0 0)))),
     inserted (Componente.mk 5 "Ryzen 7 5800X" "CPU" None 0 0 0) seeded).
Proof.
  split; [reflexivity|]. split; [reflexivity|]. split; [reflexivity|].
  exact (X17_post_is_create_when_pool_is_bound PG.scope (Request.mk "" nombre_y_tipo)
           seeded eq_refl eq_refl eq_refl).
Defined.

(** ** The choice of the repository *)

Lemma select_repo_by_mode (s : string) :
  select_repo (Some s) =
  if (toLowerCase s =? "prisma")%string then prisma_repo else pg_repo.
Proof.
  unfold select_repo. destruct (String.eqb_spec s "") as [-> | _]; reflexivity.
Qed.

Lemma repositories_differ : pg_repo <> prisma_repo.
Proof.
  intros H.
  assert (E : Repo.remove pg_repo 99 seeded = Repo.remove prisma_repo 99 seeded)
    by (rewrite H; reflexivity).
  cbv in E. discriminate E.
Qed.

(** X18. index.js chooses the Prisma repository exactly when DATA_ACCESS, put
    in lower case, reads prisma, and the PG repository in every other case: a
    variable that is unset, empty, or holds anything else.  The choice does not
    depend on the case of the letters, and it matters: the two repositories
    are not the same. *)
Theorem X18_repository_is_chosen_by_mode (s s' : string) :
  select_repo None = pg_repo /\
  select_repo (Some "") = pg_repo /\
  (toLowerCase s = "prisma" -> select_repo (Some s) = prisma_repo) /\
  (toLowerCase s <> "prisma" -> select_repo (Some s) = pg_repo) /\
  (toLowerCase s = toLowerCase s' -> select_repo (Some s) = select_repo (Some s')) /\
  pg_repo <> prisma_repo.
Proof.
  split; [reflexivity|]. split; [reflexivity|].
  rewrite !select_repo_by_mode. split; [|split; [|split]].
  - intros ->. reflexivity.
  - intros H. destruct (String.eqb_spec (toLowerCase s) "prisma"); [contradiction|].
    reflexivity.
  - intros ->. reflexivity.
  - exact repositories_differ.
Qed.

Lemma X18_repository_is_chosen_by_mode_witness :
  toLowerCase "PRISMA" = "prisma" /\
  toLowerCase "PRISMA" = toLowerCase "Prisma" /\
  select_repo (Some "PRISMA") = prisma_repo /\
  select_repo (Some "PRISMA") = select_repo (Some "Prisma") /\
  select_repo (Some "postgres") = pg_repo.
Proof.
  split; [reflexivity|]. split; [reflexivity|].
  destruct (X18_repository_is_chosen_by_mode "PRISMA" "Prisma")
    as [_ [_ [Hprisma [_ [Hcase _]]]]].
  split; [exact (Hprisma eq_refl)|]. split; [exact (Hcase eq_refl)|].
  destruct (X18_repository_is_chosen_by_mode "postgres" "")
    as [_ [_ [_ [Hother _]]]].
  apply Hother. discriminate.
Defined.

(** ** The invariant of the table *)

Lemma distinct_ids_filter (p : Componente.t -> bool) (rs : list Componente.t) :
  NoDup (map Componente.id rs) -> NoDup (map Componente.id (filter p rs)).
Proof.
  induction rs as [|r rs IH]; cbn [map filter]; intros H; [constructor|].
  inversion H as [|? ? Hnotin Hrs]; subst.
  destruct (p r); [|exact (IH Hrs)].
  cbn [map]. constructor; [|exact (IH Hrs)].
  intros Hin. apply Hnotin. apply in_map_iff in Hin. destruct Hin as [x [E Hx]].
  apply in_map_iff. exists x. split; [exact E | apply (proj1 (filter_In _ _ _) Hx)].
Qed.

Lemma inserted_keeps_invariant (r : Componente.t) (tb : Table.t) :
  Componente.id r = Table.id_seq tb + 1 ->
  table_invariant tb -> table_invariant (inserted r tb).
Proof.
  intros Hr [Hseq Hkey]. split; [apply inserted_from_sequence; assumption|].
  unfold primary_key, inserted. cbn [Table.rows]. rewrite map_app. cbn [map].
  apply (Permutation_NoDup (Permutation_cons_append _ _)).
  constructor; [|exact Hkey].
  intros Hin. unfold ids_from_sequence in Hseq. rewrite forallb_forall in Hseq.
  specialize (Hseq _ Hin). lia.
Qed.

Lemma rewritten_keeps_invariant (rs' : list Componente.t) (tb : Table.t) :
  map identity rs' = map identity (Table.rows tb) ->
  table_invariant tb -> table_invariant (Table.with_rows rs' tb).
Proof.
  intros H [Hseq Hkey]. split; [apply same_identities_from_sequence; assumption|].
  unfold primary_key. cbn [Table.with_rows Table.rows].
  replace (map Componente.id rs') with (map fst (map identity rs'))
    by (rewrite map_map; reflexivity).
  rewrite H, map_map. exact Hkey.
Qed.

Lemma deleted_keeps_invariant (id : Z) (tb : Table.t) :
  table_invariant tb -> table_invariant (deleted id tb).
Proof.
  intros [Hseq Hkey]. split; [apply deleted_from_sequence, Hseq|].
  apply distinct_ids_filter, Hkey.
Qed.

Lemma nextval_keeps_invariant (tb : Table.t) :
  table_invariant tb -> table_invariant (Table.nextval tb).
Proof. intros [Hseq Hkey]. split; [apply nextval_from_sequence, Hseq | exact Hkey]. Qed.

(** X19. Distinct ids that all come from the sequence are an invariant of the
    table under the repository: whatever create, update and remove of either
    strategy are called with, and whether they resolve or reject, the table
    they leave has pairwise distinct ids, none beyond the last value of the
    sequence. *)
Theorem X19_repository_keeps_the_table_invariant (tb : Table.t) :
  table_invariant tb ->
  (forall d, table_invariant (snd (PG.create d tb))) /\
  (forall id d, table_invariant (snd (PG.update id d tb))) /\
  (forall id, table_invariant (snd (PG.remove id tb))) /\
  (forall d, table_invariant (snd (Prisma.create d tb))) /\
  (forall id d, table_invariant (snd (Prisma.update id d tb))) /\
  (forall id, table_invariant (snd (Prisma.remove id tb))).
Proof.
  intros Hinv. pose proof (proj1 Hinv) as Hseq.
  split; [|split; [|split; [|split; [|split]]]].
  - intros d. destruct (PG_create_writes d tb Hseq) as [-> | [-> | [r [Hr ->]]]].
    + exact Hinv.
    + apply nextval_keeps_invariant, Hinv.
    + apply inserted_keeps_invariant; assumption.
  - intros id d. destruct (PG_update_writes id d tb) as [rs' [-> H]].
    apply rewritten_keeps_invariant; assumption.
  - intros id. rewrite PG_remove_unfold. apply deleted_keeps_invariant, Hinv.
  - intros d. destruct (Prisma_create_writes d tb Hseq) as [-> | [-> | [r [Hr ->]]]].
    + exact Hinv.
    + apply nextval_keeps_invariant, Hinv.
    + apply inserted_keeps_invariant; assumption.
  - intros id d. destruct (Prisma_update_writes id d tb) as [rs' [-> H]].
    apply rewritten_keeps_invariant; assumption.
  - intros id. destruct (find (id_is (Some id)) (Table.rows tb)) as [r|] eqn:E.
    + rewrite (Prisma_remove_existing id tb r E). apply deleted_keeps_invariant, Hinv.
    + rewrite (Prisma_remove_missing id tb E). exact Hinv.
Qed.

Lemma seeded_invariant : table_invariant seeded.
Proof.
  split; [reflexivity|]. unfold primary_key. cbn.
  repeat constructor; cbn; intuition discriminate.
Defined.

Lemma X19_repository_keeps_the_table_invariant_witness :
  table_invariant seeded /\
  table_invariant (snd (PG.create nombre_y_tipo seeded)) /\
  table_invariant (snd (PG.update 1 solo_precio seeded)) /\
  table_invariant (snd (PG.remove 2 seeded)) /\
  table_invariant (snd (Prisma.create sin_nombre seeded)) /\
  table_invariant (snd (Prisma.update 99 solo_precio seeded)) /\
  table_invariant (snd (Prisma.remove 2 seeded)).
Proof.
  split; [exact seeded_invariant|].
  destruct (X19_repository_keeps_the_table_invariant seeded seeded_invariant)
    as [H1 [H2 [H3 [H4 [H5 H6]]]]].
  split; [apply H1|]. split; [apply H2|]. split; [apply H3|].
  split; [apply H4|]. split; [apply H5 | apply H6].
Defined.
